(** * CyberEther / Jetstream: device bootstrap and health telemetry

    A shallow embedding of
      - include/jetstream/backend/telemetry.hh   (pure classification rules)
      - src/backend/devices/vulkan/base.cc       (Vulkan backend bootstrap,
                                                  telemetry provider chain,
                                                  threaded poll scheduler)
      - src/backend/devices/webgpu/base.cc       (browser telemetry, cooperative
                                                  callback scheduler)
    followed by the properties of the device-bootstrap specification,
    each stated against these definitions. *)

From Stdlib Require Import ZArith NArith Lia List Bool.
From stdpp Require Import base gmap strings list.
Import ListNotations.

(** ** Fixed-width unsigned integers

    [U32] and [U64] values are integers in [Z]; a conversion to a
    narrower type keeps the low bits. *)

Module Int.

Definition to_U32 (z : Z) : Z := (z mod 2 ^ 32)%Z.
Definition to_U64 (z : Z) : Z := (z mod 2 ^ 64)%Z.
Definition is_U32 (z : Z) : Prop := (0 <= z < 2 ^ 32)%Z.

End Int.

(** ** telemetry.hh *)

Module Telemetry.

Local Open Scope Z_scope.

Inductive Provider : Type :=
| NONE
| NVML
| RADEON_SMI
| TOOLING_INFO
| BROWSER.

#[global] Instance Provider_eq_dec : EqDecision Provider.
Proof. solve_decision. Defined.

Definition ThermalBucketFromCelsius (temperatureC : Z) : Z :=
  if 95 <=? temperatureC then 3
  else if 85 <=? temperatureC then 2
  else if 75 <=? temperatureC then 1
  else 0.

Definition IsLowPowerFromPState (pState : Z) : bool := 8 <=? pState.

(** The third argument has the default value 30 in the header. *)
Definition utilizationThresholdPercent_default : Z := 30.

(** [currentMilliwatts * 100ull] is a 64-bit product, the quotient is
    narrowed to [U32] by the [static_cast] before the comparison. *)
Definition IsLowPowerFromPowerBudget
  (currentMilliwatts budgetMilliwatts utilizationThresholdPercent : Z) : bool :=
  if budgetMilliwatts =? 0 then false
  else
    let utilizationPercent :=
      Int.to_U32 (Int.to_U64 (currentMilliwatts * 100) / budgetMilliwatts) in
    utilizationPercent <? utilizationThresholdPercent.

End Telemetry.

(** ** Logging collaborator and the throwing check macros

    A log line is a level, the format string of the call and the formatted
    arguments. *)

Module Log.

Inductive Level : Type := DEBUG | INFO | WARN | ERROR | FATAL.

#[export] Instance Level_eq_dec : EqDecision Level.
Proof. solve_decision. Defined.

Record Entry : Type := mkEntry {
  level : Level;
  format : string;
  args : list string
}.

#[export] Instance Entry_eq_dec : EqDecision Entry.
Proof. solve_decision. Defined.

Definition has_level (l : Level) (e : Entry) : bool := bool_decide (level e = l).

Definition at_level (l : Level) (log : list Entry) : list Entry :=
  List.filter (has_level l) log.

(** The number of warnings in a log, and of those with a given text. *)
Definition warnings (lg : list Entry) : nat := length (at_level WARN lg).

Definition is_warning (fmt : string) (e : Entry) : bool :=
  has_level WARN e && bool_decide (format e = fmt).

Definition warnings_saying (fmt : string) (lg : list Entry) : nat :=
  length (List.filter (is_warning fmt) lg).

(** How often a given line occurs in a log. *)
Definition occurrences (e : Entry) (lg : list Entry) : nat :=
  length (List.filter (fun x => bool_decide (x = e)) lg).

End Log.

(** ** vulkan/base.cc *)

Module Vulkan.

Import Log.

(** *** Names from the Vulkan headers *)

Definition VK_KHR_SURFACE_EXTENSION_NAME : string := "VK_KHR_surface".
Definition VK_KHR_XCB_SURFACE_EXTENSION_NAME : string := "VK_KHR_xcb_surface".
Definition VK_KHR_WAYLAND_SURFACE_EXTENSION_NAME : string := "VK_KHR_wayland_surface".
Definition VK_EXT_METAL_SURFACE_EXTENSION_NAME : string := "VK_EXT_metal_surface".
Definition VK_KHR_WIN32_SURFACE_EXTENSION_NAME : string := "VK_KHR_win32_surface".
Definition VK_KHR_ANDROID_SURFACE_EXTENSION_NAME : string := "VK_KHR_android_surface".
Definition VK_EXT_DEBUG_REPORT_EXTENSION_NAME : string := "VK_EXT_debug_report".
Definition VK_KHR_PORTABILITY_ENUMERATION_EXTENSION_NAME : string :=
  "VK_KHR_portability_enumeration".
Definition VK_EXT_TOOLING_INFO_EXTENSION_NAME : string := "VK_EXT_tooling_info".
Definition VK_KHR_SWAPCHAIN_EXTENSION_NAME : string := "VK_KHR_swapchain".
Definition VK_KHR_EXTERNAL_MEMORY_FD_EXTENSION_NAME : string :=
  "VK_KHR_external_memory_fd".
Definition VK_EXT_EXTERNAL_MEMORY_HOST_EXTENSION_NAME : string :=
  "VK_EXT_external_memory_host".
Definition VK_KHR_PORTABILITY_SUBSET_EXTENSION_NAME : string :=
  "VK_KHR_portability_subset".
Definition VK_LAYER_KHRONOS_validation : string := "VK_LAYER_KHRONOS_validation".

(** [VkResult] and [nvmlReturn_t] are integers, success is zero. *)
Definition VkResult : Type := Z.
Definition VK_SUCCESS : VkResult := 0%Z.
Definition nvmlReturn_t : Type := Z.
Definition NVML_SUCCESS : nvmlReturn_t := 0%Z.

Definition VK_MEMORY_HEAP_DEVICE_LOCAL_BIT : Z := 1%Z.
Definition VK_SAMPLE_COUNT_2_BIT : Z := 2%Z.
Definition VK_SAMPLE_COUNT_4_BIT : Z := 4%Z.
Definition VK_SAMPLE_COUNT_8_BIT : Z := 8%Z.
Definition VK_SAMPLE_COUNT_16_BIT : Z := 16%Z.
Definition VK_SAMPLE_COUNT_32_BIT : Z := 32%Z.
Definition VK_SAMPLE_COUNT_64_BIT : Z := 64%Z.

Inductive VkPhysicalDeviceType : Type :=
| VK_PHYSICAL_DEVICE_TYPE_OTHER
| VK_PHYSICAL_DEVICE_TYPE_INTEGRATED_GPU
| VK_PHYSICAL_DEVICE_TYPE_DISCRETE_GPU
| VK_PHYSICAL_DEVICE_TYPE_VIRTUAL_GPU
| VK_PHYSICAL_DEVICE_TYPE_CPU
| VK_PHYSICAL_DEVICE_TYPE_MAX_ENUM.

Inductive PhysicalDeviceType : Type := INTEGRATED | DISCRETE | OTHER | UNKNOWN.

(** *** Build configuration: the preprocessor conditions of the file *)

Record Build : Type := mkBuild {
  JST_OS_LINUX : bool;
  JST_OS_MAC_or_IOS : bool;
  JST_OS_WINDOWS : bool;
  JST_OS_ANDROID : bool;
  defined_VK_KHR_portability_enumeration : bool;
  defined_VK_EXT_tooling_info : bool;
  defined_VK_KHR_external_memory_fd : bool;
  defined_VK_KHR_portability_subset : bool;
  JST_BACKEND_HAS_NVML : bool;
  (* constant of the headers tested by updateTelemetryFromToolingInfo *)
  VK_TOOL_PURPOSE_MONITORING_BIT_EXT : Z
}.

(** *** Backend configuration *)

Record Config : Type := mkConfig {
  deviceId : N;
  headless : bool;
  validationEnabled : bool;
  multisampling : N;
  stagingBufferSize : N
}.

(** *** The native side: what the driver and the vendor library answer *)

(** [QueueFamilyIndices] of helpers.hh: three optional family indices. *)
Record QueueFamilyIndices : Type := mkQueueFamilyIndices {
  graphicFamily : option N;
  computeFamily : option N;
  presentFamily : option N
}.

(** Modelled from the spec: [QueueFamilyIndices::isComplete] is declared in
    helpers.hh, which is not part of the sources; a candidate is complete
    when all three queue roles are present. *)
Definition isComplete (q : QueueFamilyIndices) : bool :=
  bool_decide (is_Some (graphicFamily q)) &&
  bool_decide (is_Some (computeFamily q)) &&
  bool_decide (is_Some (presentFamily q)).

Record VkMemoryHeap : Type := mkHeap { heap_flags : Z; heap_size : Z }.

Record VkPhysicalDeviceProperties : Type := mkProperties {
  deviceName : string;
  vendorID : Z;
  deviceType : VkPhysicalDeviceType;
  apiVersion : Z;
  framebufferColorSampleCounts : Z;
  framebufferDepthSampleCounts : Z
}.

(** One enumerated physical device with everything the constructor asks
    the driver about it; [FindQueueFamilies] (helpers.hh) is the field
    [queueFamilies]. *)
Record VkPhysicalDevice : Type := mkPhysicalDevice {
  handle : N;
  availableDeviceExtensions : list string;
  queueFamilies : QueueFamilyIndices;
  deviceProperties : VkPhysicalDeviceProperties;
  memoryHeaps : list VkMemoryHeap
}.

Definition FindQueueFamilies (d : VkPhysicalDevice) : QueueFamilyIndices :=
  queueFamilies d.

(** The answers of one round of NVML queries: status and value. *)
Record NvmlSample : Type := mkNvmlSample {
  nvmlDeviceGetPowerState : nvmlReturn_t * Z;
  nvmlDeviceGetTemperature : nvmlReturn_t * Z;
  nvmlDeviceGetPowerUsage : nvmlReturn_t * Z;
  nvmlDeviceGetEnforcedPowerLimit : nvmlReturn_t * Z
}.

(** The answers of the two calls of vkGetPhysicalDeviceToolPropertiesEXT:
    the count call, then the call filling the [purposes] of each tool. *)
Record ToolingSample : Type := mkToolingSample {
  countResult : VkResult;
  toolsResult : VkResult;
  toolPurposes : list Z
}.

Record Sample : Type := mkSample {
  nvml : NvmlSample;
  tooling : ToolingSample
}.

Record Driver : Type := mkDriver {
  windowMightBeWayland : bool;
  availableInstanceExtensions : list string;
  availableLayers : list string;
  vkCreateInstance : VkResult;
  has_vkCreateDebugReportCallbackEXT : bool;
  vkCreateDebugReportCallbackEXT : VkResult;
  vkEnumeratePhysicalDevices : VkResult;
  physicalDevices : list VkPhysicalDevice;
  vkCreateDevice : VkResult;
  vkCreateDescriptorPool : VkResult;
  vkCreateBuffer : VkResult;
  vkAllocateMemory : VkResult;
  vkBindBufferMemory : VkResult;
  vkMapMemory : VkResult;
  vkCreateCommandPool : VkResult;
  vkAllocateCommandBuffers : VkResult;
  vkCreateFence : VkResult;
  nvmlInit_v2 : nvmlReturn_t;
  (* status and handle (0 is the null pointer) for a device index *)
  nvmlDeviceGetHandleByIndex : N -> nvmlReturn_t * Z;
  has_vkGetPhysicalDeviceToolPropertiesEXT : bool;
  (* the answers to the poll made during construction *)
  firstSample : Sample
}.

(** *** The backend object and the native resources it holds *)

(** A native resource: acquired by a creating call that succeeds, held
    until the matching destroying call. *)
Inductive Resource : Type :=
| RInstance
| RDebugReportCallback
| RDevice
| RDescriptorPool
| RStagingBuffer
| RStagingBufferMemory
| RStagingBufferMapping
| RDefaultCommandPool
| RDefaultCommandBuffer
| RDefaultFence
| RNvmlLibrary.

#[export] Instance Resource_eq_dec : EqDecision Resource.
Proof. solve_decision. Defined.

(** Where the telemetry worker thread stands in its loop
    [while (running.load()) { pollTelemetry(); sleep_for(interval); }]. *)
Inductive WorkerPc : Type :=
| AtLoopTest
| InPoll
| InSleep
| Finished.

#[export] Instance WorkerPc_eq_dec : EqDecision WorkerPc.
Proof. solve_decision. Defined.

(** [worker] is the [std::thread] member: [None] when it is not joinable
    (never started, or joined), [Some pc] when it owns a thread. *)
Record TelemetryRuntime : Type := mkTelemetryRuntime {
  running : bool;
  providerErrorLogged : bool;
  worker : option WorkerPc
}.

Record Cache : Type := mkCache {
  cache_deviceName : string;
  cache_apiVersion : Z * Z * Z;
  physicalDeviceType : PhysicalDeviceType;
  hasUnifiedMemory : bool;
  physicalMemory : Z;
  canImportDeviceMemory : bool;
  canExportDeviceMemory : bool;
  canImportHostMemory : bool;
  getThermalState : Z;
  lowPowerStatus : bool;
  telemetryProviderType : Telemetry.Provider;
  telemetryProviderName : string;
  (* pointers: 0 is nullptr *)
  telemetryHandle : Z;
  telemetryLibraryInitialized : bool;
  toolingInfoFn : bool
}.

(** The object under construction together with the two things the
    outside can observe: the native resources held and the log. *)
Record State : Type := mkState {
  config : Config;
  supportedInstanceExtensions : gset string;
  supportedDeviceExtensions : gset string;
  debugReportCallback : bool;
  physicalDevice : option VkPhysicalDevice;
  cache : Cache;
  telemetryRuntime : TelemetryRuntime;
  _isAvailable : bool;
  live : list Resource;
  log : list Entry
}.

Definition set_config (f : Config -> Config) (s : State) : State :=
  let '(mkState a b c d e g h i j k) := s in mkState (f a) b c d e g h i j k.
Definition set_supportedInstanceExtensions (f : gset string -> gset string)
  (s : State) : State :=
  let '(mkState a b c d e g h i j k) := s in mkState a (f b) c d e g h i j k.
Definition set_supportedDeviceExtensions (f : gset string -> gset string)
  (s : State) : State :=
  let '(mkState a b c d e g h i j k) := s in mkState a b (f c) d e g h i j k.
Definition set_debugReportCallback (v : bool) (s : State) : State :=
  let '(mkState a b c d e g h i j k) := s in mkState a b c v e g h i j k.
Definition set_physicalDevice (v : option VkPhysicalDevice) (s : State) : State :=
  let '(mkState a b c d e g h i j k) := s in mkState a b c d v g h i j k.
Definition set_cache (f : Cache -> Cache) (s : State) : State :=
  let '(mkState a b c d e g h i j k) := s in mkState a b c d e (f g) h i j k.
Definition set_telemetryRuntime (f : TelemetryRuntime -> TelemetryRuntime)
  (s : State) : State :=
  let '(mkState a b c d e g h i j k) := s in mkState a b c d e g (f h) i j k.
Definition set_isAvailable (v : bool) (s : State) : State :=
  let '(mkState a b c d e g h i j k) := s in mkState a b c d e g h v j k.
Definition set_live (f : list Resource -> list Resource) (s : State) : State :=
  let '(mkState a b c d e g h i j k) := s in mkState a b c d e g h i (f j) k.
Definition set_log (f : list Entry -> list Entry) (s : State) : State :=
  let '(mkState a b c d e g h i j k) := s in mkState a b c d e g h i j (f k).

Definition set_validationEnabled (v : bool) (c : Config) : Config :=
  let '(mkConfig a b _ d e) := c in mkConfig a b v d e.
Definition set_multisampling (v : N) (c : Config) : Config :=
  let '(mkConfig a b c0 _ e) := c in mkConfig a b c0 v e.

Definition set_getThermalState (v : Z) (c : Cache) : Cache :=
  let '(mkCache a1 a2 a3 a4 a5 a6 a7 a8 _ a10 a11 a12 a13 a14 a15) := c in
  mkCache a1 a2 a3 a4 a5 a6 a7 a8 v a10 a11 a12 a13 a14 a15.
Definition set_lowPowerStatus (v : bool) (c : Cache) : Cache :=
  let '(mkCache a1 a2 a3 a4 a5 a6 a7 a8 a9 _ a11 a12 a13 a14 a15) := c in
  mkCache a1 a2 a3 a4 a5 a6 a7 a8 a9 v a11 a12 a13 a14 a15.
Definition set_telemetryProviderType (v : Telemetry.Provider) (c : Cache) : Cache :=
  let '(mkCache a1 a2 a3 a4 a5 a6 a7 a8 a9 a10 _ a12 a13 a14 a15) := c in
  mkCache a1 a2 a3 a4 a5 a6 a7 a8 a9 a10 v a12 a13 a14 a15.
Definition set_telemetryProviderName (v : string) (c : Cache) : Cache :=
  let '(mkCache a1 a2 a3 a4 a5 a6 a7 a8 a9 a10 a11 _ a13 a14 a15) := c in
  mkCache a1 a2 a3 a4 a5 a6 a7 a8 a9 a10 a11 v a13 a14 a15.
Definition set_telemetryHandle (v : Z) (c : Cache) : Cache :=
  let '(mkCache a1 a2 a3 a4 a5 a6 a7 a8 a9 a10 a11 a12 _ a14 a15) := c in
  mkCache a1 a2 a3 a4 a5 a6 a7 a8 a9 a10 a11 a12 v a14 a15.
Definition set_telemetryLibraryInitialized (v : bool) (c : Cache) : Cache :=
  let '(mkCache a1 a2 a3 a4 a5 a6 a7 a8 a9 a10 a11 a12 a13 _ a15) := c in
  mkCache a1 a2 a3 a4 a5 a6 a7 a8 a9 a10 a11 a12 a13 v a15.
Definition set_toolingInfoFn (v : bool) (c : Cache) : Cache :=
  let '(mkCache a1 a2 a3 a4 a5 a6 a7 a8 a9 a10 a11 a12 a13 a14 _) := c in
  mkCache a1 a2 a3 a4 a5 a6 a7 a8 a9 a10 a11 a12 a13 a14 v.

Definition set_running (v : bool) (r : TelemetryRuntime) : TelemetryRuntime :=
  let '(mkTelemetryRuntime _ b c) := r in mkTelemetryRuntime v b c.
Definition set_providerErrorLogged (v : bool) (r : TelemetryRuntime)
  : TelemetryRuntime :=
  let '(mkTelemetryRuntime a _ c) := r in mkTelemetryRuntime a v c.
Definition set_worker (v : option WorkerPc) (r : TelemetryRuntime)
  : TelemetryRuntime :=
  let '(mkTelemetryRuntime a b _) := r in mkTelemetryRuntime a b v.

(** *** Control: a state monad with C++ exceptions and [std::terminate] *)

Inductive Result : Type := Result_SUCCESS | Result_ERROR | Result_FATAL.

(** What can leave the constructor: a Jetstream [Result], or the exception
    of [std::optional::value] on an empty optional. *)
Inductive Exception : Type :=
| Jetstream (r : Result)
| bad_optional_access.

Inductive Outcome (A : Type) : Type :=
| Returned (a : A)
| Thrown (r : Exception)
| Terminated.

Arguments Returned {A} a.
Arguments Thrown {A} r.
Arguments Terminated {A}.

Definition M (A : Type) : Type := State -> Outcome A * State.

Definition ret {A} (a : A) : M A := fun s => (Returned a, s).

Definition bind {A B} (m : M A) (k : A -> M B) : M B :=
  fun s =>
    match m s with
    | (Returned a, s') => k a s'
    | (Thrown r, s') => (Thrown r, s')
    | (Terminated, s') => (Terminated, s')
    end.

#[export] Instance M_ret : MRet M := @ret.
#[export] Instance M_bind : MBind M := fun A B k m => bind m k.

Definition gets {A} (f : State -> A) : M A := fun s => (Returned (f s), s).
Definition modify (f : State -> State) : M unit := fun s => (Returned tt, f s).
Definition throw {A} (r : Result) : M A := fun s => (Thrown (Jetstream r), s).
Definition value {A} (o : option A) : M A :=
  match o with
  | Some v => ret v
  | None => fun s => (Thrown bad_optional_access, s)
  end.
Definition terminate {A} : M A := fun s => (Terminated, s).

Definition when (b : bool) (m : M unit) : M unit := if b then m else ret tt.

Fixpoint for_each {A} (l : list A) (body : A -> M unit) : M unit :=
  match l with
  | [] => ret tt
  | x :: l' => bind (body x) (fun _ => for_each l' body)
  end.

Definition JST_LOG (l : Level) (fmt : string) (a : list string) : M unit :=
  modify (set_log (fun lg => lg ++ [mkEntry l fmt a])).

Definition JST_DEBUG := JST_LOG DEBUG.
Definition JST_INFO := JST_LOG INFO.
Definition JST_WARN := JST_LOG WARN.
Definition JST_ERROR := JST_LOG ERROR.
Definition JST_FATAL := JST_LOG FATAL.

(** Modelled from the spec: the macros [JST_CHECK_THROW] and
    [JST_VK_CHECK_THROW] come from headers that are not part of the sources.
    A result other than success ends the construction path with a hard
    failure; the Vulkan variant first runs the callback it is given. *)
Definition JST_CHECK_THROW (r : Result) : M unit :=
  match r with
  | Result_SUCCESS => ret tt
  | _ => throw r
  end.

Definition JST_VK_CHECK_THROW (call : M VkResult) (callback : M unit) : M unit :=
  r ← call;
  if bool_decide (r = VK_SUCCESS) then ret tt
  else callback;; throw Result_FATAL.

(** A creating call: on success the resource is held from now on. *)
Definition acquire (r : Resource) : M unit :=
  modify (set_live (fun l => l ++ [r])).

Definition release (r : Resource) : M unit :=
  modify (set_live (fun l => List.filter (fun x => negb (bool_decide (x = r))) l)).

Definition creating (answer : VkResult) (r : Resource) : M VkResult :=
  when (bool_decide (answer = VK_SUCCESS)) (acquire r);; ret answer.

(** What a sequence of calls has acquired when it stops at the first
    failing call, and whether it runs to its end. *)
Fixpoint acquiredBeforeFailure (calls : list (VkResult * option Resource))
  : list Resource :=
  match calls with
  | [] => []
  | (answer, yield) :: rest =>
      if bool_decide (answer = VK_SUCCESS)
      then match yield with Some r => [r] | None => [] end
           ++ acquiredBeforeFailure rest
      else []
  end.

Definition allSucceed (calls : list (VkResult * option Resource)) : bool :=
  forallb (fun c => bool_decide (c.1 = VK_SUCCESS)) calls.

(** What such a sequence has logged when it stops: the line of the first
    failing call, and nothing when every call succeeds. *)
Fixpoint loggedAtFailure (calls : list (VkResult * option Resource))
    (lines : list Entry) : list Entry :=
  match calls, lines with
  | (answer, _) :: rest, line :: lines' =>
      if bool_decide (answer = VK_SUCCESS)
      then loggedAtFailure rest lines'
      else [line]
  | _, _ => []
  end.

(** *** Capability sets *)

Definition insert_if (b : bool) (x : string) (s : gset string) : gset string :=
  if b then {[x]} ∪ s else s.

(** The loop shared by [checkInstanceExtensionSupport],
    [checkValidationLayerSupport] and [checkDeviceExtensionSupport]: walk
    the available names and keep those that were asked for. *)
Definition supportedAmong (available : list string) (requested : gset string)
  : gset string :=
  foldl (fun supported name =>
           if bool_decide (name ∈ requested) then {[name]} ∪ supported
           else supported)
        ∅ available.

Section Backend.

Variable build : Build.
Variable drv : Driver.

Definition getRequiredInstanceExtensions (cfg : Config) : gset string :=
  let extensions : gset string := ∅ in
  let extensions :=
    if negb (headless cfg) then
      let extensions := {[VK_KHR_SURFACE_EXTENSION_NAME]} ∪ extensions in
      let extensions :=
        if JST_OS_LINUX build then
          let extensions := {[VK_KHR_XCB_SURFACE_EXTENSION_NAME]} ∪ extensions in
          insert_if (windowMightBeWayland drv)
                    VK_KHR_WAYLAND_SURFACE_EXTENSION_NAME extensions
        else extensions in
      let extensions :=
        insert_if (JST_OS_MAC_or_IOS build)
                  VK_EXT_METAL_SURFACE_EXTENSION_NAME extensions in
      let extensions :=
        insert_if (JST_OS_WINDOWS build)
                  VK_KHR_WIN32_SURFACE_EXTENSION_NAME extensions in
      insert_if (JST_OS_ANDROID build)
                VK_KHR_ANDROID_SURFACE_EXTENSION_NAME extensions
    else extensions in
  insert_if (validationEnabled cfg) VK_EXT_DEBUG_REPORT_EXTENSION_NAME extensions.

Definition getOptionalInstanceExtensions : gset string :=
  let extensions : gset string := ∅ in
  let extensions :=
    insert_if (defined_VK_KHR_portability_enumeration build)
              VK_KHR_PORTABILITY_ENUMERATION_EXTENSION_NAME extensions in
  insert_if (defined_VK_EXT_tooling_info build)
            VK_EXT_TOOLING_INFO_EXTENSION_NAME extensions.

Definition getRequiredValidationLayers : gset string :=
  {[VK_LAYER_KHRONOS_validation]} ∪ ∅.

Definition getRequiredDeviceExtensions (cfg : Config) : gset string :=
  insert_if (negb (headless cfg)) VK_KHR_SWAPCHAIN_EXTENSION_NAME ∅.

Definition getOptionalDeviceExtensions : gset string :=
  let extensions : gset string := ∅ in
  let extensions :=
    if defined_VK_KHR_external_memory_fd build then
      {[VK_EXT_EXTERNAL_MEMORY_HOST_EXTENSION_NAME]} ∪
      ({[VK_KHR_EXTERNAL_MEMORY_FD_EXTENSION_NAME]} ∪ extensions)
    else extensions in
  insert_if (defined_VK_KHR_portability_subset build)
            VK_KHR_PORTABILITY_SUBSET_EXTENSION_NAME extensions.

Definition checkInstanceExtensionSupport (extensions : gset string) : gset string :=
  supportedAmong (availableInstanceExtensions drv) extensions.

Definition checkValidationLayerSupport (layers : gset string) : gset string :=
  supportedAmong (availableLayers drv) layers.

Definition checkDeviceExtensionSupport (device : VkPhysicalDevice)
  (extensions : gset string) : gset string :=
  supportedAmong (availableDeviceExtensions device) extensions.

(** *** The constructor, block by block *)

Definition warn_optional_instance : string :=
  "[VULKAN] Optional instance extension '{}' is not supported.".
Definition fatal_required_instance : string :=
  "[VULKAN] Required instance extensions are not supported: {}.".

(** The two debug lines that open the negotiation. *)
Definition debug_lines (required optional : gset string) : list Entry :=
  [mkEntry DEBUG "[VULKAN] Required instance extensions: {}" (elements required);
   mkEntry DEBUG "[VULKAN] Optional instance extensions: {}" (elements optional)].

(** Lines 172-203: gather instance extensions. *)
Definition gatherInstanceExtensions : M (list string) :=
  cfg ← gets config;
  let requiredExtensions := getRequiredInstanceExtensions cfg in
  let optionalExtensions := getOptionalInstanceExtensions in
  JST_DEBUG "[VULKAN] Required instance extensions: {}" (elements requiredExtensions);;
  JST_DEBUG "[VULKAN] Optional instance extensions: {}" (elements optionalExtensions);;
  modify (set_supportedInstanceExtensions
            (fun s => s ∪ checkInstanceExtensionSupport requiredExtensions));;
  supported ← gets supportedInstanceExtensions;
  let unsupportedInstanceExtensions : gset string :=
    foldl (fun unsupported extension =>
             if negb (bool_decide (extension ∈ supported))
             then {[extension]} ∪ unsupported else unsupported)
          ∅ (elements requiredExtensions) in
  when (negb (bool_decide (unsupportedInstanceExtensions = ∅)))
       (JST_FATAL fatal_required_instance (elements unsupportedInstanceExtensions);;
        JST_CHECK_THROW Result_FATAL);;
  modify (set_supportedInstanceExtensions
            (fun s => s ∪ checkInstanceExtensionSupport optionalExtensions));;
  supported ← gets supportedInstanceExtensions;
  for_each (elements optionalExtensions)
           (fun extension =>
              when (negb (bool_decide (extension ∈ supported)))
                   (JST_WARN warn_optional_instance [extension]));;
  ret (elements supported).

Definition warn_validation_layers : string :=
  "[VULKAN] Couldn't find validation layers. Disabling Vulkan debug.".

(** Lines 209-220: gather validation layers. *)
Definition gatherValidationLayers : M (list string) :=
  let requiredValidationLayers := getRequiredValidationLayers in
  let supportedValidationLayers :=
    checkValidationLayerSupport requiredValidationLayers in
  let validationLayerCheck :=
    bool_decide (size requiredValidationLayers = size supportedValidationLayers) in
  cfg ← gets config;
  when (validationEnabled cfg && negb validationLayerCheck)
       (JST_WARN warn_validation_layers [];;
        modify (set_config (set_validationEnabled false)));;
  ret (elements supportedValidationLayers).

(** Lines 224-270: create the instance.  [enabledLayers] is what ends up
    in [ppEnabledLayerNames]. *)
Definition createApplication (instanceExtensions validationLayers : list string)
  : M (list string) :=
  supported ← gets supportedInstanceExtensions;
  when (defined_VK_KHR_portability_enumeration build &&
        bool_decide (VK_KHR_PORTABILITY_ENUMERATION_EXTENSION_NAME ∈ supported))
       (JST_DEBUG "[VULKAN] Enabling portability enumeration." []);;
  cfg ← gets config;
  let enabledLayers := if validationEnabled cfg then validationLayers else [] in
  JST_VK_CHECK_THROW (creating (vkCreateInstance drv) RInstance)
                     (JST_FATAL "[VULKAN] Couldn't create instance." []);;
  ret enabledLayers.

(** Lines 274-289: register the debug callback. *)
Definition setupValidationLayers : M unit :=
  cfg ← gets config;
  when (validationEnabled cfg)
       (when (negb (has_vkCreateDebugReportCallbackEXT drv))
             (JST_FATAL "[VULKAN] Failed to create validation." [];;
              JST_CHECK_THROW Result_FATAL);;
        JST_VK_CHECK_THROW
          (creating (vkCreateDebugReportCallbackEXT drv) RDebugReportCallback)
          (JST_FATAL "[VULKAN] Failed to create validation." []);;
        modify (set_debugReportCallback true)).

Definition ok_fail (b : bool) : string := if b then "OK" else "FAIL".

(** The two checks of the loop below on one candidate. *)
Definition extensionCheckOf (cfg : Config) (candidate : VkPhysicalDevice) : bool :=
  bool_decide (size (getRequiredDeviceExtensions cfg) =
               size (checkDeviceExtensionSupport candidate
                       (getRequiredDeviceExtensions cfg))).

Definition queueFamilyCheckOf (candidate : VkPhysicalDevice) : bool :=
  isComplete (FindQueueFamilies candidate).

Definition validCandidate (cfg : Config) (candidate : VkPhysicalDevice) : bool :=
  extensionCheckOf cfg candidate && queueFamilyCheckOf candidate.

Definition candidate_line (cfg : Config) (candidate : VkPhysicalDevice) : Entry :=
  mkEntry DEBUG
    "[VULKAN] Candidate device - Extension check: {}, Queue family check: {}"
    [ok_fail (extensionCheckOf cfg candidate); ok_fail (queueFamilyCheckOf candidate)].

(** Lines 311-325: the loop over the enumerated devices. *)
Fixpoint collectValidPhysicalDevices (cfg : Config)
  (candidates validPhysicalDevices : list VkPhysicalDevice)
  : M (list VkPhysicalDevice) :=
  match candidates with
  | [] => ret validPhysicalDevices
  | candidatePhysicalDevice :: rest =>
      let requiredExtensions := getRequiredDeviceExtensions cfg in
      let supportedExtensions :=
        checkDeviceExtensionSupport candidatePhysicalDevice requiredExtensions in
      let extensionCheck :=
        bool_decide (size requiredExtensions = size supportedExtensions) in
      let queueFamilyIndices := FindQueueFamilies candidatePhysicalDevice in
      let queueFamilyCheck := isComplete queueFamilyIndices in
      JST_DEBUG "[VULKAN] Candidate device - Extension check: {}, Queue family check: {}"
                [ok_fail extensionCheck; ok_fail queueFamilyCheck];;
      collectValidPhysicalDevices cfg rest
        (if extensionCheck && queueFamilyCheck
         then validPhysicalDevices ++ [candidatePhysicalDevice]
         else validPhysicalDevices)
  end.

(** Lines 293-337: get the physical device. *)
Definition getPhysicalDevice : M VkPhysicalDevice :=
  JST_VK_CHECK_THROW (ret (vkEnumeratePhysicalDevices drv))
                     (JST_FATAL "[VULKAN] Can't enumerate physical devices." []);;
  let physicalDeviceCount := N.of_nat (length (physicalDevices drv)) in
  when (physicalDeviceCount =? 0)%N
       (JST_FATAL "[VULKAN] No physical devices found." [];;
        JST_CHECK_THROW Result_FATAL);;
  cfg ← gets config;
  when (physicalDeviceCount <=? deviceId cfg)%N
       (JST_FATAL "[VULKAN] Can't find desired device ID ({})." [];;
        JST_CHECK_THROW Result_FATAL);;
  validPhysicalDevices ← collectValidPhysicalDevices cfg (physicalDevices drv) [];
  when (N.of_nat (length validPhysicalDevices) =? 0)%N
       (JST_FATAL "[VULKAN] No valid physical devices found." [];;
        JST_CHECK_THROW Result_FATAL);;
  when (N.of_nat (length validPhysicalDevices) <=? deviceId cfg)%N
       (JST_FATAL "[VULKAN] Can't find desired device ID." [];;
        JST_CHECK_THROW Result_FATAL);;
  match validPhysicalDevices !! N.to_nat (deviceId cfg) with
  | Some d => modify (set_physicalDevice (Some d));; ret d
  | None => terminate (* not reached: the index was checked just above *)
  end.

Definition warn_optional_device : string :=
  "[VULKAN] Optional device extension '{}' is not supported.".

(** Lines 343-360: gather device extensions. *)
Definition gatherDeviceExtensions (physicalDevice : VkPhysicalDevice)
  : M (list string) :=
  cfg ← gets config;
  let requiredExtensions := getRequiredDeviceExtensions cfg in
  let optionalExtensions := getOptionalDeviceExtensions in
  JST_DEBUG "[VULKAN] Required device extensions: {}" (elements requiredExtensions);;
  JST_DEBUG "[VULKAN] Optional device extensions: {}" (elements optionalExtensions);;
  modify (set_supportedDeviceExtensions
            (fun s => s ∪ checkDeviceExtensionSupport physicalDevice requiredExtensions));;
  modify (set_supportedDeviceExtensions
            (fun s => s ∪ checkDeviceExtensionSupport physicalDevice optionalExtensions));;
  supported ← gets supportedDeviceExtensions;
  for_each (elements optionalExtensions)
           (fun extension =>
              when (negb (bool_decide (extension ∈ supported)))
                   (JST_WARN warn_optional_device [extension]));;
  ret (elements supported).

Definition VK_VERSION_MAJOR (v : Z) : Z := Z.shiftr v 22.
Definition VK_VERSION_MINOR (v : Z) : Z := Z.land (Z.shiftr v 12) 1023.
Definition VK_VERSION_PATCH (v : Z) : Z := Z.land v 4095.

Definition physicalDeviceTypeOf (t : VkPhysicalDeviceType) : PhysicalDeviceType :=
  match t with
  | VK_PHYSICAL_DEVICE_TYPE_INTEGRATED_GPU => INTEGRATED
  | VK_PHYSICAL_DEVICE_TYPE_DISCRETE_GPU => DISCRETE
  | VK_PHYSICAL_DEVICE_TYPE_VIRTUAL_GPU
  | VK_PHYSICAL_DEVICE_TYPE_CPU
  | VK_PHYSICAL_DEVICE_TYPE_OTHER => OTHER
  | VK_PHYSICAL_DEVICE_TYPE_MAX_ENUM => UNKNOWN
  end.

(** Lines 399-412: the loop over the memory heaps, on the pair
    (physicalMemory, hasUnifiedMemory). *)
Definition scanMemoryHeaps (heaps : list VkMemoryHeap) (start : Z * bool)
  : Z * bool :=
  foldl (fun '(memory, unified) memoryHeap =>
           let local := Z.land (heap_flags memoryHeap) VK_MEMORY_HEAP_DEVICE_LOCAL_BIT in
           (if negb (local =? 0)%Z
            then Int.to_U64 (memory + heap_size memoryHeap) else memory,
            negb (Z.land (Z.b2z unified) local =? 0)%Z))
        start heaps.

(** Lines 364-416: populate the information cache ([totalProcessorCount],
    read from the host, is left out). *)
Definition populateCache (physicalDevice : VkPhysicalDevice) : M unit :=
  let properties := deviceProperties physicalDevice in
  supported ← gets supportedDeviceExtensions;
  old ← gets cache;
  let '(memory, unified) :=
    scanMemoryHeaps (memoryHeaps physicalDevice) (physicalMemory old, true) in
  modify (set_cache (fun c =>
    {| cache_deviceName := deviceName properties;
       cache_apiVersion := (VK_VERSION_MAJOR (apiVersion properties),
                            VK_VERSION_MINOR (apiVersion properties),
                            VK_VERSION_PATCH (apiVersion properties));
       physicalDeviceType := physicalDeviceTypeOf (deviceType properties);
       hasUnifiedMemory := unified;
       physicalMemory := memory;
       canImportDeviceMemory :=
         bool_decide (VK_KHR_EXTERNAL_MEMORY_FD_EXTENSION_NAME ∈ supported);
       canExportDeviceMemory :=
         bool_decide (VK_KHR_EXTERNAL_MEMORY_FD_EXTENSION_NAME ∈ supported);
       canImportHostMemory :=
         bool_decide (VK_EXT_EXTERNAL_MEMORY_HOST_EXTENSION_NAME ∈ supported);
       getThermalState := 0;
       lowPowerStatus := false;
       telemetryProviderType := telemetryProviderType c;
       telemetryProviderName := "Unavailable";
       telemetryHandle := telemetryHandle c;
       telemetryLibraryInitialized := telemetryLibraryInitialized c;
       toolingInfoFn := toolingInfoFn c |})).

(** *** Telemetry provider chain and polling *)

Definition providerErrorOnce (message : string) : M unit :=
  rt ← gets telemetryRuntime;
  when (negb (providerErrorLogged rt))
       (JST_WARN message [];;
        modify (set_telemetryRuntime (set_providerErrorLogged true))).

Definition warn_nvml_power_state : string :=
  "[VULKAN] Failed to query NVML power state: {}".
Definition warn_nvml_temperature : string :=
  "[VULKAN] Failed to query NVML temperature: {}".
Definition warn_nvml_power_budget : string :=
  "[VULKAN] Failed to query NVML power budget: {}".
Definition warn_tooling_count : string :=
  "[VULKAN] vkGetPhysicalDeviceToolPropertiesEXT count failed: {}".
Definition warn_tooling_tools : string :=
  "[VULKAN] vkGetPhysicalDeviceToolPropertiesEXT failed: {}".

(** Lines 730-768. *)
Definition updateTelemetryFromNvml (q : NvmlSample) : M unit :=
  if negb (JST_BACKEND_HAS_NVML build) then ret tt
  else
    c ← gets cache;
    if bool_decide (telemetryHandle c = 0%Z) then ret tt
    else
      let '(powerStateStatus, powerState) := nvmlDeviceGetPowerState q in
      (if bool_decide (powerStateStatus = NVML_SUCCESS)
       then modify (set_cache (set_lowPowerStatus
                      (Telemetry.IsLowPowerFromPState (Int.to_U32 powerState))))
       else providerErrorOnce warn_nvml_power_state);;
      let '(temperatureStatus, temperature) := nvmlDeviceGetTemperature q in
      (if bool_decide (temperatureStatus = NVML_SUCCESS)
       then modify (set_cache (set_getThermalState
                      (Telemetry.ThermalBucketFromCelsius temperature)))
       else providerErrorOnce warn_nvml_temperature);;
      let '(usageStatus, powerUsageMw) := nvmlDeviceGetPowerUsage q in
      let '(budgetStatus, powerBudgetMw) := nvmlDeviceGetEnforcedPowerLimit q in
      if bool_decide (usageStatus = NVML_SUCCESS) &&
         bool_decide (budgetStatus = NVML_SUCCESS)
      then
        let lowPower :=
          Telemetry.IsLowPowerFromPowerBudget
            powerUsageMw powerBudgetMw Telemetry.utilizationThresholdPercent_default in
        modify (set_cache (set_lowPowerStatus lowPower))
      else providerErrorOnce warn_nvml_power_budget.

(** Lines 770-810. *)
Definition updateTelemetryFromToolingInfo (q : ToolingSample) : M unit :=
  c ← gets cache;
  if negb (toolingInfoFn c) then ret tt
  else if negb (bool_decide (countResult q = VK_SUCCESS))
  then providerErrorOnce warn_tooling_count
  else if negb (bool_decide (toolsResult q = VK_SUCCESS))
  then providerErrorOnce warn_tooling_tools
  else
    let monitoringToolPresent :=
      existsb (fun purposes =>
                 negb (Z.land purposes (VK_TOOL_PURPOSE_MONITORING_BIT_EXT build) =? 0)%Z)
              (toolPurposes q) in
    modify (set_cache (set_lowPowerStatus (negb monitoringToolPresent)));;
    modify (set_cache (set_getThermalState (if monitoringToolPresent then 1 else 0)%Z)).

(** Lines 717-728. *)
Definition pollTelemetry (q : Sample) : M unit :=
  c ← gets cache;
  match telemetryProviderType c with
  | Telemetry.NVML => updateTelemetryFromNvml (nvml q)
  | Telemetry.TOOLING_INFO => updateTelemetryFromToolingInfo (tooling q)
  | _ => ret tt
  end.

(** The warnings of the queries that fail in one poll, in program order:
    an NVML poll makes its three groups of queries whatever the earlier ones
    answered; a tooling-info poll stops at its first failing call; a poll
    without a source makes no query. *)
Definition nvmlFailures (q : NvmlSample) : list string :=
  (if bool_decide ((nvmlDeviceGetPowerState q).1 = NVML_SUCCESS)
   then [] else [warn_nvml_power_state]) ++
  (if bool_decide ((nvmlDeviceGetTemperature q).1 = NVML_SUCCESS)
   then [] else [warn_nvml_temperature]) ++
  (if bool_decide ((nvmlDeviceGetPowerUsage q).1 = NVML_SUCCESS) &&
      bool_decide ((nvmlDeviceGetEnforcedPowerLimit q).1 = NVML_SUCCESS)
   then [] else [warn_nvml_power_budget]).

Definition toolingFailures (q : ToolingSample) : list string :=
  if negb (bool_decide (countResult q = VK_SUCCESS)) then [warn_tooling_count]
  else if negb (bool_decide (toolsResult q = VK_SUCCESS)) then [warn_tooling_tools]
  else [].

Definition failedQueries (q : Sample) (s : State) : list string :=
  match telemetryProviderType (cache s) with
  | Telemetry.NVML =>
      if negb (JST_BACKEND_HAS_NVML build) || bool_decide (telemetryHandle (cache s) = 0%Z)
      then [] else nvmlFailures (nvml q)
  | Telemetry.TOOLING_INFO =>
      if negb (toolingInfoFn (cache s)) then [] else toolingFailures (tooling q)
  | _ => []
  end.

(** The first failing query of a poll, and of a sequence of polls. *)
Definition firstFailure (q : Sample) (s : State) : option string :=
  head (failedQueries q s).

Fixpoint firstFailureIn (qs : list Sample) (s : State) : option string :=
  match qs with
  | [] => None
  | q :: qs' =>
      match firstFailure q s with
      | Some message => Some message
      | None => firstFailureIn qs' s
      end
  end.

(** What is logged for a failure, given the suppression flag. *)
Definition reported (suppressed : bool) (failure : option string) : list Entry :=
  match failure with
  | Some message => if suppressed then [] else [mkEntry WARN message []]
  | None => []
  end.

(** The suppression flag after a poll that met that failure. *)
Definition suppressedAfter (suppressed : bool) (failure : option string) : bool :=
  match failure with
  | Some _ => true
  | None => suppressed
  end.

(** Lines 695-708.  Assigning to a [std::thread] that is still joinable
    ends the program. *)
Definition startTelemetryPolling : M unit :=
  rt ← gets telemetryRuntime;
  if running rt then ret tt
  else
    modify (set_telemetryRuntime (set_running true));;
    modify (set_telemetryRuntime (set_providerErrorLogged false));;
    match worker rt with
    | Some _ => terminate
    | None => modify (set_telemetryRuntime (set_worker (Some AtLoopTest)))
    end.

(** Lines 710-715, up to the point where the caller waits in [join]. The
    result tells whether the caller has to wait. *)
Definition stopTelemetryPolling_exchange : M bool :=
  rt ← gets telemetryRuntime;
  let wasRunning := running rt in
  modify (set_telemetryRuntime (set_running false));;
  ret (wasRunning && bool_decide (is_Some (worker rt))).

(** [join] returns when the worker thread has left its loop; the member
    is not joinable afterwards. *)
Definition join : M unit :=
  modify (set_telemetryRuntime (set_worker None)).

Definition stopTelemetryPolling : M unit :=
  mustJoin ← stopTelemetryPolling_exchange;
  when mustJoin join.

(** Lines 667-693. *)
Definition setupNvmlTelemetry : M bool :=
  if negb (JST_BACKEND_HAS_NVML build) then ret false
  else if negb (bool_decide (nvmlInit_v2 drv = NVML_SUCCESS))
  then JST_ERROR "[VULKAN] NVML initialization failed: {}" [];; ret false
  else
    acquire RNvmlLibrary;;
    cfg ← gets config;
    let '(nvmlStatus, deviceHandle) :=
      nvmlDeviceGetHandleByIndex drv (deviceId cfg mod 2 ^ 32)%N in
    if negb (bool_decide (nvmlStatus = NVML_SUCCESS))
    then
      JST_ERROR "[VULKAN] NVML cannot access device {}: {}" [];;
      release RNvmlLibrary;;
      ret false
    else
      modify (set_cache (set_telemetryProviderType Telemetry.NVML));;
      modify (set_cache (set_telemetryProviderName "NVML"));;
      modify (set_cache (set_telemetryHandle deviceHandle));;
      modify (set_cache (set_telemetryLibraryInitialized true));;
      modify (set_cache (set_toolingInfoFn false));;
      ret true.

Definition warn_telemetry_unavailable : string :=
  "[VULKAN] Telemetry data is unavailable for '{}'.".

(** Lines 628-665. *)
Definition initializeTelemetry (physicalDevice : VkPhysicalDevice) : M unit :=
  let properties := deviceProperties physicalDevice in
  modify (set_cache (set_telemetryProviderType Telemetry.NONE));;
  modify (set_cache (set_telemetryProviderName "Unavailable"));;
  modify (set_cache (set_telemetryHandle 0%Z));;
  modify (set_cache (set_telemetryLibraryInitialized false));;
  modify (set_cache (set_toolingInfoFn false));;
  telemetryReady ←
    (if JST_BACKEND_HAS_NVML build && bool_decide (vendorID properties = 0x10DE%Z)
     then setupNvmlTelemetry else ret false);
  supported ← gets supportedInstanceExtensions;
  telemetryReady ←
    (if negb telemetryReady &&
        bool_decide (VK_EXT_TOOLING_INFO_EXTENSION_NAME ∈ supported)
     then
       if has_vkGetPhysicalDeviceToolPropertiesEXT drv then
         modify (set_cache (set_telemetryProviderType Telemetry.TOOLING_INFO));;
         modify (set_cache (set_telemetryProviderName "VK_EXT_tooling_info"));;
         modify (set_cache (set_telemetryHandle (Z.of_N (handle physicalDevice))));;
         modify (set_cache (set_toolingInfoFn true));;
         ret true
       else ret telemetryReady
     else ret telemetryReady);
  if negb telemetryReady
  then
    c ← gets cache;
    JST_WARN warn_telemetry_unavailable [cache_deviceName c]
  else
    pollTelemetry (firstSample drv);;
    startTelemetryPolling;;
    c ← gets cache;
    JST_INFO "[VULKAN] Telemetry provider: {}" [telemetryProviderName c].

(** *** Logical device and pooled resources *)

(** Lines 422-476: create the logical device. *)
Definition createLogicalDevice (physicalDevice : VkPhysicalDevice) : M unit :=
  let indices := FindQueueFamilies physicalDevice in
  _ ← value (graphicFamily indices);
  _ ← value (computeFamily indices);
  _ ← value (presentFamily indices);
  JST_VK_CHECK_THROW (creating (vkCreateDevice drv) RDevice)
                     (JST_FATAL "[VULKAN] Can't create logical device." []).

Definition maxSamplesOf (counts : Z) : N :=
  if negb (Z.land counts VK_SAMPLE_COUNT_64_BIT =? 0)%Z then 64
  else if negb (Z.land counts VK_SAMPLE_COUNT_32_BIT =? 0)%Z then 32
  else if negb (Z.land counts VK_SAMPLE_COUNT_16_BIT =? 0)%Z then 16
  else if negb (Z.land counts VK_SAMPLE_COUNT_8_BIT =? 0)%Z then 8
  else if negb (Z.land counts VK_SAMPLE_COUNT_4_BIT =? 0)%Z then 4
  else if negb (Z.land counts VK_SAMPLE_COUNT_2_BIT =? 0)%Z then 2
  else 1.

(** Lines 480-495: validate the multisampling level. *)
Definition validateMultisampling (physicalDevice : VkPhysicalDevice) : M unit :=
  let properties := deviceProperties physicalDevice in
  let counts := Z.land (framebufferColorSampleCounts properties)
                       (framebufferDepthSampleCounts properties) in
  let maxSamples := maxSamplesOf counts in
  cfg ← gets config;
  when (maxSamples <? multisampling cfg)%N
       (JST_WARN "[VULKAN] Requested multisampling level ({}) is not supported. Using {} instead." [];;
        modify (set_config (set_multisampling maxSamples))).

(** Lines 499-524. *)
Definition createDescriptorPool : M unit :=
  JST_VK_CHECK_THROW (creating (vkCreateDescriptorPool drv) RDescriptorPool)
                     (JST_FATAL "[VULKAN] Can't create descriptor pool." []).

(** Lines 528-562.  [Backend::FindMemoryType] (helpers.hh) only computes
    the memory type index passed to the allocation. *)
Definition createStagingBuffer : M unit :=
  JST_VK_CHECK_THROW (creating (vkCreateBuffer drv) RStagingBuffer)
                     (JST_FATAL "[VULKAN] Failed to create staging buffer." []);;
  JST_VK_CHECK_THROW (creating (vkAllocateMemory drv) RStagingBufferMemory)
                     (JST_FATAL "[VULKAN] Failed to allocate staging buffer memory." []);;
  JST_VK_CHECK_THROW (ret (vkBindBufferMemory drv))
                     (JST_FATAL "[VULKAN] Failed to bind memory to staging buffer." []);;
  JST_VK_CHECK_THROW (creating (vkMapMemory drv) RStagingBufferMapping)
                     (JST_FATAL "[VULKAN] Failed to map staging buffer memory." []).

(** Lines 566-578. *)
Definition createDefaultCommandPool (physicalDevice : VkPhysicalDevice) : M unit :=
  let indices := FindQueueFamilies physicalDevice in
  _ ← value (computeFamily indices);
  JST_VK_CHECK_THROW (creating (vkCreateCommandPool drv) RDefaultCommandPool)
                     (JST_FATAL "[VULKAN] Failed to create default command pool." []).

(** Lines 582-592. *)
Definition createDefaultCommandBuffer : M unit :=
  JST_VK_CHECK_THROW (creating (vkAllocateCommandBuffers drv) RDefaultCommandBuffer)
                     (JST_ERROR "[VULKAN] Failed to create default command buffer." []).

(** Lines 596-603. *)
Definition createDefaultFence : M unit :=
  JST_VK_CHECK_THROW (creating (vkCreateFence drv) RDefaultFence)
                     (JST_ERROR "[VULKAN] Failed to create default fence." []).

(** Lines 497-603: the pooled resources, in allocation order. *)
Definition bootstrapResources (physicalDevice : VkPhysicalDevice) : M unit :=
  createDescriptorPool;;
  createStagingBuffer;;
  createDefaultCommandPool physicalDevice;;
  createDefaultCommandBuffer;;
  createDefaultFence.

(** The native calls of [bootstrapResources] in program order, each with
    the driver's answer and the resource it yields on success (binding
    the buffer memory yields none). *)
Definition bootstrapCalls : list (VkResult * option Resource) :=
  [(vkCreateDescriptorPool drv, Some RDescriptorPool);
   (vkCreateBuffer drv, Some RStagingBuffer);
   (vkAllocateMemory drv, Some RStagingBufferMemory);
   (vkBindBufferMemory drv, None);
   (vkMapMemory drv, Some RStagingBufferMapping);
   (vkCreateCommandPool drv, Some RDefaultCommandPool);
   (vkAllocateCommandBuffers drv, Some RDefaultCommandBuffer);
   (vkCreateFence drv, Some RDefaultFence)].

(** The line each of these calls logs when it fails, in the same
    order. *)
Definition bootstrapFailureLines : list Entry :=
  [mkEntry FATAL "[VULKAN] Can't create descriptor pool." [];
   mkEntry FATAL "[VULKAN] Failed to create staging buffer." [];
   mkEntry FATAL "[VULKAN] Failed to allocate staging buffer memory." [];
   mkEntry FATAL "[VULKAN] Failed to bind memory to staging buffer." [];
   mkEntry FATAL "[VULKAN] Failed to map staging buffer memory." [];
   mkEntry FATAL "[VULKAN] Failed to create default command pool." [];
   mkEntry ERROR "[VULKAN] Failed to create default command buffer." [];
   mkEntry ERROR "[VULKAN] Failed to create default fence." []].

(** Lines 611-625. *)
Definition printDeviceInformation : M unit :=
  c ← gets cache;
  JST_INFO "-----------------------------------------------------" [];;
  JST_INFO "Jetstream Heterogeneous Backend [VULKAN]" [];;
  JST_INFO "-----------------------------------------------------" [];;
  JST_INFO "Device Name:      {}" [cache_deviceName c];;
  JST_INFO "Device Type:      {}" [];;
  JST_INFO "API Version:      {}" [];;
  JST_INFO "Unified Memory:   {}" [if hasUnifiedMemory c then "YES" else "NO"];;
  JST_INFO "Processor Count:  {}" [];;
  JST_INFO "Device Memory:    {:.2f} GB" [];;
  JST_INFO "Staging Buffer:   {:.2f} MB" [];;
  JST_INFO "Interoperability:" [];;
  JST_INFO "  - Can Import Device Memory: {}"
           [if canImportDeviceMemory c then "YES" else "NO"];;
  JST_INFO "  - Can Export Device Memory: {}"
           [if canExportDeviceMemory c then "YES" else "NO"];;
  JST_INFO "  - Can Export Host Memory:   {}"
           [if canImportHostMemory c then "YES" else "NO"];;
  JST_INFO "-----------------------------------------------------" [].

(** [Vulkan::Vulkan], lines 167-626. The telemetry worker started by
    [initializeTelemetry] runs beside the remaining blocks; its steps are
    those of the scheduler further down. *)
Definition Vulkan_ctor : M unit :=
  instanceExtensions ← gatherInstanceExtensions;
  validationLayers ← gatherValidationLayers;
  _ ← createApplication instanceExtensions validationLayers;
  setupValidationLayers;;
  physicalDevice ← getPhysicalDevice;
  _ ← gatherDeviceExtensions physicalDevice;
  populateCache physicalDevice;;
  initializeTelemetry physicalDevice;;
  createLogicalDevice physicalDevice;;
  validateMultisampling physicalDevice;;
  bootstrapResources physicalDevice;;
  modify (set_isAvailable true);;
  printDeviceInformation.

(** The blocks of the constructor that follow the two negotiations on
    instance level (lines 224-626), given what those have returned. *)
Definition afterNegotiation (instanceExtensions validationLayers : list string)
  : M unit :=
  _ ← createApplication instanceExtensions validationLayers;
  setupValidationLayers;;
  physicalDevice ← getPhysicalDevice;
  _ ← gatherDeviceExtensions physicalDevice;
  populateCache physicalDevice;;
  initializeTelemetry physicalDevice;;
  createLogicalDevice physicalDevice;;
  validateMultisampling physicalDevice;;
  bootstrapResources physicalDevice;;
  modify (set_isAvailable true);;
  printDeviceInformation.

(** [Vulkan::~Vulkan], lines 812-839. *)
Definition Vulkan_dtor : M unit :=
  stopTelemetryPolling;;
  c ← gets cache;
  when (JST_BACKEND_HAS_NVML build &&
        bool_decide (telemetryProviderType c = Telemetry.NVML) &&
        telemetryLibraryInitialized c)
       (release RNvmlLibrary;;
        modify (set_cache (set_telemetryLibraryInitialized false)));;
  release RDefaultFence;;
  release RDefaultCommandBuffer;;
  release RDefaultCommandPool;;
  release RStagingBufferMapping;;
  release RStagingBuffer;;
  release RStagingBufferMemory;;
  release RDescriptorPool;;
  callback ← gets debugReportCallback;
  when callback (release RDebugReportCallback);;
  release RDevice;;
  release RInstance.

End Backend.

(** [Vulkan::getMultisampling], lines 841-852: the sample-count flag bit
    for the configured level ([VK_SAMPLE_COUNT_n_BIT] has the value n). *)
Definition VK_SAMPLE_COUNT_1_BIT : Z := 1%Z.

Definition getMultisampling (cfg : Config) : Z :=
  match multisampling cfg with
  | 1%N => VK_SAMPLE_COUNT_1_BIT
  | 2%N => VK_SAMPLE_COUNT_2_BIT
  | 4%N => VK_SAMPLE_COUNT_4_BIT
  | 8%N => VK_SAMPLE_COUNT_8_BIT
  | 16%N => VK_SAMPLE_COUNT_16_BIT
  | 32%N => VK_SAMPLE_COUNT_32_BIT
  | 64%N => VK_SAMPLE_COUNT_64_BIT
  | _ => VK_SAMPLE_COUNT_1_BIT
  end.

(** The object before the constructor body runs: [config(_config)],
    [cache({})], empty capability sets, no native resource, empty log.

    Modelled from the spec: the class declaration (vulkan/base.hh) is not
    part of the sources; the scheduler starts in the state Stopped, with
    no warning suppressed and no worker. *)
Definition cache_zero : Cache :=
  {| cache_deviceName := ""; cache_apiVersion := (0, 0, 0)%Z;
     physicalDeviceType := INTEGRATED; hasUnifiedMemory := false;
     physicalMemory := 0; canImportDeviceMemory := false;
     canExportDeviceMemory := false; canImportHostMemory := false;
     getThermalState := 0; lowPowerStatus := false;
     telemetryProviderType := Telemetry.NONE; telemetryProviderName := "";
     telemetryHandle := 0; telemetryLibraryInitialized := false;
     toolingInfoFn := false |}.

Definition telemetryRuntime_initial : TelemetryRuntime :=
  {| running := false; providerErrorLogged := false; worker := None |}.

Definition initial (_config : Config) : State :=
  {| config := _config;
     supportedInstanceExtensions := ∅;
     supportedDeviceExtensions := ∅;
     debugReportCallback := false;
     physicalDevice := None;
     cache := cache_zero;
     telemetryRuntime := telemetryRuntime_initial;
     _isAvailable := false;
     live := [];
     log := [] |}.

(** A constructor that throws unwinds the members it has built.  The
    worker is a [std::thread] member (lines 702 and 712): when it is still
    joinable its destructor ends the program ([std::terminate]), and the
    exception is never seen by the caller. *)
Definition unwind {A} (r : Outcome A * State) : Outcome A * State :=
  match r with
  | (Thrown e, s) =>
      if bool_decide (is_Some (worker (telemetryRuntime s)))
      then (Terminated, s)
      else (Thrown e, s)
  | _ => r
  end.

(** What the caller of [Vulkan::Vulkan] observes: the constructor body
    run on the member initialisers, and the unwinding when it throws. *)
Definition construct (build : Build) (drv : Driver) (cfg : Config)
  : Outcome unit * State :=
  unwind (Vulkan_ctor build drv (initial cfg)).

(** *** The native scheduler: caller thread and worker thread

    The atomics are sequentially consistent, so the two threads are an
    interleaving of steps on one state.  The caller is either outside the
    telemetry calls or waiting in [join]; the worker moves around its
    loop.  [polls] counts the polls the worker has begun. *)

Inductive CallerPc : Type := Idle | Joining.

Record Sched : Type := mkSched {
  obj : State;
  caller : CallerPc;
  polls : nat;
  terminated : bool
}.

Inductive Event : Type :=
| CallStart               (* the caller runs startTelemetryPolling *)
| CallStop                (* the caller enters stopTelemetryPolling *)
| JoinReturns             (* join, and with it stopTelemetryPolling, returns *)
| WorkerStep (q : Sample) (* the worker thread makes its next step *).

(** What one poll may do to the log and to the suppression flag: nothing
    once the flag is set; otherwise it either logs nothing and leaves the
    flag clear, or logs exactly one warning and sets the flag. *)
Definition log_step (s s' : State) : Prop :=
  if providerErrorLogged (telemetryRuntime s)
  then log s' = log s /\ providerErrorLogged (telemetryRuntime s') = true
  else (log s' = log s /\ providerErrorLogged (telemetryRuntime s') = false) \/
       (exists msg, log s' = log s ++ [mkEntry WARN msg []] /\
                    providerErrorLogged (telemetryRuntime s') = true).

Section Scheduler.

Variable build : Build.

Definition workerStep (q : Sample) (x : Sched) : option Sched :=
  let rt := telemetryRuntime (obj x) in
  match worker rt with
  | Some AtLoopTest =>
      if running rt
      then Some (mkSched (set_telemetryRuntime (set_worker (Some InPoll)) (obj x))
                         (caller x) (S (polls x)) (terminated x))
      else Some (mkSched (set_telemetryRuntime (set_worker (Some Finished)) (obj x))
                         (caller x) (polls x) (terminated x))
  | Some InPoll =>
      match pollTelemetry build q (obj x) with
      | (Returned _, s') =>
          Some (mkSched (set_telemetryRuntime (set_worker (Some InSleep)) s')
                        (caller x) (polls x) (terminated x))
      | (_, s') => Some (mkSched s' (caller x) (polls x) true)
      end
  | Some InSleep =>
      Some (mkSched (set_telemetryRuntime (set_worker (Some AtLoopTest)) (obj x))
                    (caller x) (polls x) (terminated x))
  | Some Finished | None => None
  end.

Definition step (e : Event) (x : Sched) : option Sched :=
  if terminated x then None
  else
    match e, caller x with
    | CallStart, Idle =>
        match startTelemetryPolling (obj x) with
        | (Returned _, s') => Some (mkSched s' Idle (polls x) false)
        | (_, s') => Some (mkSched s' Idle (polls x) true)
        end
    | CallStop, Idle =>
        match stopTelemetryPolling_exchange (obj x) with
        | (Returned mustJoin, s') =>
            Some (mkSched s' (if mustJoin then Joining else Idle) (polls x) false)
        | (_, s') => Some (mkSched s' Idle (polls x) true)
        end
    | JoinReturns, Joining =>
        match worker (telemetryRuntime (obj x)) with
        | Some Finished =>
            match join (obj x) with
            | (Returned _, s') => Some (mkSched s' Idle (polls x) false)
            | (_, s') => Some (mkSched s' Idle (polls x) true)
            end
        | _ => None
        end
    | WorkerStep q, _ => workerStep q x
    | _, _ => None
    end.

Fixpoint run (es : list Event) (x : Sched) : option Sched :=
  match es with
  | [] => Some x
  | e :: es' =>
      match step e x with
      | Some x' => run es' x'
      | None => None
      end
  end.



(** A session: the polls made one after the other with the given answers. *)
Definition session (qs : list Sample) : M unit :=
  for_each qs (pollTelemetry build).

End Scheduler.


(** *** Predicates used to state what the constructor and the destructor keep *)

(** A heap is device-local when bit 0 of its flags is set; the sizes of a
    list of heaps added up. *)
Definition deviceLocal (h : VkMemoryHeap) : bool := Z.testbit (heap_flags h) 0.

Definition totalSize (heaps : list VkMemoryHeap) : Z :=
  fold_right Z.add 0%Z (map heap_size heaps).

(** The sample counts a device supports for colour and depth together. *)
Definition sampleCounts (d : VkPhysicalDevice) : Z :=
  Z.land (framebufferColorSampleCounts (deviceProperties d))
         (framebufferDepthSampleCounts (deviceProperties d)).

(** A state predicate kept by a computation, whatever its outcome. *)
Definition preserved {A} (P : State -> Prop) (m : M A) : Prop :=
  forall s, P s -> P (m s).2.

(** The conditional releases of the destructor will fire for what is
    held: a held debug callback is recorded in [debugReportCallback], a
    held vendor library is recorded as the NVML provider, initialised. *)
Definition releasable (build : Build) (s : State) : Prop :=
  (RDebugReportCallback ∈ live s -> debugReportCallback s = true) /\
  (RNvmlLibrary ∈ live s ->
   JST_BACKEND_HAS_NVML build = true /\
   telemetryProviderType (cache s) = Telemetry.NVML /\
   telemetryLibraryInitialized (cache s) = true).

(** The same before the telemetry chain has run: no vendor library yet. *)
Definition before_telemetry (s : State) : Prop :=
  (RDebugReportCallback ∈ live s -> debugReportCallback s = true) /\
  RNvmlLibrary ∉ live s.

(** A computation run from a state where [P] holds: it does not end the
    program; when it returns, [Q] holds of its result and of the state;
    when it throws, the exception carries [Result::FATAL] and [R] holds of
    the state. *)
Definition triple {A} (P : State -> Prop) (m : M A)
  (Q : A -> State -> Prop) (R : State -> Prop) : Prop :=
  forall s, P s ->
    match m s with
    | (Returned a, s') => Q a s'
    | (Thrown e, s') => e = Jetstream Result_FATAL /\ R s'
    | (Terminated, _) => False
    end.

(** The resources whose release in the destructor is conditional, as the
    object records them; the resources of [bootstrapResources] in
    allocation order. *)
Definition optionalResources (s : State) : list Resource :=
  (if debugReportCallback s then [RDebugReportCallback] else []) ++
  (if telemetryLibraryInitialized (cache s) then [RNvmlLibrary] else []).

Definition pooledResources : list Resource :=
  [RDescriptorPool; RStagingBuffer; RStagingBufferMemory; RStagingBufferMapping;
   RDefaultCommandPool; RDefaultCommandBuffer; RDefaultFence].

(** The scheduler owns a worker thread exactly while [running] is set. *)
Definition worker_matches_running (s : State) : Prop :=
  running (telemetryRuntime s) = true <-> is_Some (worker (telemetryRuntime s)).

(** The log of a constructor that is under way holds no fatal line; the
    last line of one that has failed is a fatal or an error line, the only
    one that may be fatal. *)
Definition no_fatal (s : State) : Prop := at_level FATAL (log s) = [].

Definition failure_logged (s : State) : Prop :=
  exists lines line,
    log s = lines ++ [line] /\ at_level FATAL lines = [] /\
    (level line = FATAL \/ level line = ERROR).

Definition constructing (s : State) : Prop := _isAvailable s = false /\ no_fatal s.

Definition failed (s : State) : Prop := _isAvailable s = false /\ failure_logged s.

(** The constructor before the instance exists. *)
Definition not_started (s : State) : Prop :=
  constructing s /\ live s = [] /\ debugReportCallback s = false /\
  telemetryLibraryInitialized (cache s) = false /\
  running (telemetryRuntime s) = false /\ worker (telemetryRuntime s) = None.

(** What the object holds once the instance exists, [rest] being what was
    acquired after the telemetry chain: the held resources are the ones the
    object records, and a vendor library is recorded only for the NVML
    provider. *)
Definition holding (build : Build) (rest : list Resource) (s : State) : Prop :=
  live s = [RInstance] ++ optionalResources s ++ rest /\
  (telemetryLibraryInitialized (cache s) = true ->
   JST_BACKEND_HAS_NVML build = true /\
   telemetryProviderType (cache s) = Telemetry.NVML) /\
  worker_matches_running s.

Definition under_construction (build : Build) (rest : list Resource) (s : State)
  : Prop :=
  constructing s /\ holding build rest s.

(** The constructor has returned. *)
Definition completed (build : Build) (s : State) : Prop :=
  _isAvailable s = true /\ no_fatal s /\
  holding build ([RDevice] ++ pooledResources) s.

(** The same before the telemetry chain has run. *)
Definition selecting (build : Build) (s : State) : Prop :=
  under_construction build [] s /\
  telemetryLibraryInitialized (cache s) = false /\
  running (telemetryRuntime s) = false /\ worker (telemetryRuntime s) = None.

(** What the destructor (lines 812-839) passes over: a vendor library
    that is not recorded as the initialised NVML provider, and a debug
    callback that the object does not record. *)
Definition unreleased (build : Build) (s : State) (x : Resource) : bool :=
  bool_decide (x = RNvmlLibrary) &&
    negb (JST_BACKEND_HAS_NVML build &&
          bool_decide (telemetryProviderType (cache s) = Telemetry.NVML) &&
          telemetryLibraryInitialized (cache s))
  || bool_decide (x = RDebugReportCallback) && negb (debugReportCallback s).

(** Whether the vendor library binds ([setupNvmlTelemetry], lines
    667-693): it is built in, it initialises, and it hands out a handle for
    the configured device index. *)
Definition nvmlBinds (build : Build) (drv : Driver) (cfg : Config) : bool :=
  JST_BACKEND_HAS_NVML build &&
  bool_decide (nvmlInit_v2 drv = NVML_SUCCESS) &&
  bool_decide ((nvmlDeviceGetHandleByIndex drv (deviceId cfg mod 2 ^ 32)%N).1
               = NVML_SUCCESS).

(** Whether the tooling-info provider is usable ([initializeTelemetry],
    lines 645-656): the optional instance extension was negotiated and its
    entry point resolves. *)
Definition toolingUsable (drv : Driver) (s : State) : bool :=
  bool_decide (VK_EXT_TOOLING_INFO_EXTENSION_NAME ∈ supportedInstanceExtensions s) &&
  has_vkGetPhysicalDeviceToolPropertiesEXT drv.

(** Two states of the object that differ at most in the lines logged and
    in the instance extensions recorded as supported, and agree on the two
    extensions the blocks after the negotiation look up. *)
Definition sameObject (s s' : State) : Prop :=
  config s = config s' /\
  (forall e, e = VK_KHR_PORTABILITY_ENUMERATION_EXTENSION_NAME \/
             e = VK_EXT_TOOLING_INFO_EXTENSION_NAME ->
             (e ∈ supportedInstanceExtensions s <-> e ∈ supportedInstanceExtensions s')) /\
  supportedDeviceExtensions s = supportedDeviceExtensions s' /\
  debugReportCallback s = debugReportCallback s' /\
  physicalDevice s = physicalDevice s' /\
  cache s = cache s' /\
  telemetryRuntime s = telemetryRuntime s' /\
  _isAvailable s = _isAvailable s' /\
  live s = live s'.

(** Two such states whose logs are the given lines followed by the same
    lines. *)
Definition sameRun (before before' : list Entry) (s s' : State) : Prop :=
  sameObject s s' /\
  exists lines, log s = before ++ lines /\ log s' = before' ++ lines.

(** Two computations that end alike from such states: same outcome, and
    states of that kind again. *)
Definition alike {A} (before before' : list Entry) (m m' : M A) : Prop :=
  forall s s', sameRun before before' s s' ->
    (m s).1 = (m' s').1 /\ sameRun before before' (m s).2 (m' s').2.

End Vulkan.

(** ** webgpu/base.cc *)

Module WebGPU.

Import Log.

(** The answers of the two browser queries of one refresh. *)
Record Hints : Type := mkHints {
  jetstream_webgpu_query_low_power_hint : Z;
  jetstream_webgpu_query_thermal_bucket : Z
}.

(** The telemetry part of the object, the log, and the host event loop:
    [pending] is the number of callbacks handed to [emscripten_async_call]
    that have not fired yet, [polls] the number of [refreshTelemetry] calls
    made so far. *)
Record State : Type := mkState {
  lowPowerStatus : bool;
  getThermalState : Z;
  telemetryProviderType : Telemetry.Provider;
  telemetryProviderName : string;
  telemetryActive : bool;
  lowPowerWarningLogged : bool;
  thermalWarningLogged : bool;
  log : list Entry;
  pending : nat;
  polls : nat
}.

Definition set_lowPowerStatus (v : bool) (s : State) : State :=
  let '(mkState _ b c d e f g h i j) := s in mkState v b c d e f g h i j.
Definition set_getThermalState (v : Z) (s : State) : State :=
  let '(mkState a _ c d e f g h i j) := s in mkState a v c d e f g h i j.
Definition set_telemetryProvider (t : Telemetry.Provider) (n : string) (s : State)
  : State :=
  let '(mkState a b _ _ e f g h i j) := s in mkState a b t n e f g h i j.
Definition set_telemetryActive (v : bool) (s : State) : State :=
  let '(mkState a b c d _ f g h i j) := s in mkState a b c d v f g h i j.
Definition set_lowPowerWarningLogged (v : bool) (s : State) : State :=
  let '(mkState a b c d e _ g h i j) := s in mkState a b c d e v g h i j.
Definition set_thermalWarningLogged (v : bool) (s : State) : State :=
  let '(mkState a b c d e f _ h i j) := s in mkState a b c d e f v h i j.
Definition JST_WARN (fmt : string) (s : State) : State :=
  let '(mkState a b c d e f g h i j) := s in
  mkState a b c d e f g (h ++ [mkEntry WARN fmt []]) i j.
Definition JST_INFO (fmt : string) (s : State) : State :=
  let '(mkState a b c d e f g h i j) := s in
  mkState a b c d e f g (h ++ [mkEntry INFO fmt []]) i j.
Definition emscripten_async_call (s : State) : State :=
  let '(mkState a b c d e f g h i j) := s in mkState a b c d e f g h (S i) j.
Definition callback_fires (s : State) : State :=
  let '(mkState a b c d e f g h i j) := s in mkState a b c d e f g h (pred i) j.
Definition count_poll (s : State) : State :=
  let '(mkState a b c d e f g h i j) := s in mkState a b c d e f g h i (S j).

Definition warn_power_hints : string :=
  "[WebGPU] Browser telemetry does not expose power hints.".
Definition warn_thermal_hints : string :=
  "[WebGPU] Browser telemetry does not expose thermal hints.".

(** Lines 139-155. *)
Definition refreshTelemetry (q : Hints) (s : State) : State :=
  let s := count_poll s in
  let lowPowerHint := jetstream_webgpu_query_low_power_hint q in
  let s :=
    if (0 <=? lowPowerHint)%Z
    then set_lowPowerStatus (lowPowerHint =? 1)%Z s
    else if negb (lowPowerWarningLogged s)
    then set_lowPowerWarningLogged true (JST_WARN warn_power_hints s)
    else s in
  let thermalBucket := jetstream_webgpu_query_thermal_bucket q in
  if (0 <=? thermalBucket)%Z
  then set_getThermalState (Int.to_U64 thermalBucket) s
  else if negb (thermalWarningLogged s)
  then set_thermalWarningLogged true (JST_WARN warn_thermal_hints s)
  else s.

(** Lines 123-128. *)
Definition scheduleTelemetryRefresh (s : State) : State :=
  if negb (telemetryActive s) then s
  else emscripten_async_call s.

(** The [userData] pointer of the callback. *)
Inductive Ptr : Type := nullptr | this.

(** Lines 130-137. *)
Definition TelemetryPump (userData : Ptr) (q : Hints) (s : State) : State :=
  match userData with
  | nullptr => s
  | this =>
      if negb (telemetryActive s) then s
      else scheduleTelemetryRefresh (refreshTelemetry q s)
  end.

(** The object before the constructor body: the member initialisers of
    webgpu/base.hh. *)
Definition initial : State :=
  {| lowPowerStatus := false; getThermalState := 0;
     telemetryProviderType := Telemetry.NONE; telemetryProviderName := "";
     telemetryActive := false; lowPowerWarningLogged := false;
     thermalWarningLogged := false; log := []; pending := 0; polls := 0 |}.

(** [WebGPU::WebGPU], lines 56-85, without the banner of INFO lines. *)
Definition WebGPU_ctor (s : State) : State :=
  let s := set_lowPowerStatus false s in
  let s := set_getThermalState 0 s in
  let s := set_telemetryProvider Telemetry.BROWSER "Navigator" s in
  let s := set_telemetryActive true s in
  let s := scheduleTelemetryRefresh s in
  JST_WARN "Due to current Emscripten limitations the device values are inaccurate." s.

(** [WebGPU::~WebGPU], lines 87-89. *)
Definition WebGPU_dtor (s : State) : State := set_telemetryActive false s.

(** The host loop: a queued callback fires with the object as its user
    data, or the owner destroys the object.  The storage of the object is
    taken to stay readable for a callback that fires after that. *)
Inductive Event : Type :=
| Fire (q : Hints)
| Destroy.

Definition step (e : Event) (s : State) : option State :=
  match e with
  | Fire q =>
      match pending s with
      | O => None
      | S _ => Some (TelemetryPump this q (callback_fires s))
      end
  | Destroy => Some (WebGPU_dtor s)
  end.

Fixpoint run (es : list Event) (s : State) : option State :=
  match es with
  | [] => Some s
  | e :: es' =>
      match step e s with
      | Some s' => run es' s'
      | None => None
      end
  end.

Definition constructed : State := WebGPU_ctor initial.

(** A session: the refreshes made one after the other. *)
Definition session (qs : list Hints) (s : State) : State :=
  foldl (fun s q => refreshTelemetry q s) s qs.

End WebGPU.

(** ** store.cc *)

Module Store.

(** [std::tolower] on one [unsigned char], in the "C" locale: the letters
    A-Z move to a-z, every other byte stays. *)
Definition tolower (c : Ascii.ascii) : Ascii.ascii :=
  let n := Ascii.N_of_ascii c in
  if (65 <=? n)%N && (n <=? 90)%N then Ascii.ascii_of_N (n + 32) else c.

(** Lines 17-21: [std::transform] over the string, in place. *)
Fixpoint ToLowerInPlace (value : string) : string :=
  match value with
  | EmptyString => EmptyString
  | String c rest => String (tolower c) (ToLowerInPlace rest)
  end.

Fixpoint starts_with (needle hay : string) : bool :=
  match needle, hay with
  | EmptyString, _ => true
  | String a needle', String b hay' => bool_decide (a = b) && starts_with needle' hay'
  | String _ _, EmptyString => false
  end.

(** [std::string::find]: the first position at which [needle] occurs in
    [hay]; [None] is [npos]. *)
Fixpoint find (hay needle : string) : option nat :=
  if starts_with needle hay then Some 0
  else match hay with
       | EmptyString => None
       | String _ rest => option_map S (find rest needle)
       end.

(** [needle] occurs in [hay] as a run of consecutive characters. *)
Definition occurs_in (needle hay : string) : Prop :=
  exists before after, hay = before +:+ needle +:+ after.

(** The metadata records, with the fields the filters read. *)
Module Block.
Record Metadata : Type := mkMetadata {
  title : string;
  summary : string;
  description : string
}.
#[global] Instance Metadata_eq_dec : EqDecision Metadata.
Proof. solve_decision. Defined.
End Block.

Module Flowgraph.
Record Metadata : Type := mkMetadata {
  title : string;
  description : string
}.
#[global] Instance Metadata_eq_dec : EqDecision Metadata.
Proof. solve_decision. Defined.
End Flowgraph.

Section Lists.

(** The key type of the lists is declared in store.hh; any type usable
    as a map key will do. *)
Context {K : Type} `{Countable K}.

Record State : Type := mkState {
  blockMetadataList : gmap K Block.Metadata;
  blockFilteredMetadataList : gmap K Block.Metadata;
  lastBlockFilter : string;
  flowgraphMetadataList : gmap K Flowgraph.Metadata;
  filteredFlowgraphMetadataList : gmap K Flowgraph.Metadata;
  lastFlowgraphFilter : string
}.

(** The condition of the [if] at lines 62-65. *)
Definition blockMatches (filter : string) (value : Block.Metadata) : bool :=
  let filterLower := ToLowerInPlace filter in
  let titleLower := ToLowerInPlace (Block.title value) in
  let smallLower := ToLowerInPlace (Block.summary value) in
  let detailedLower := ToLowerInPlace (Block.description value) in
  bool_decide (find titleLower filterLower <> None) ||
  bool_decide (find smallLower filterLower <> None) ||
  bool_decide (find detailedLower filterLower <> None) ||
  bool_decide (filter = EmptyString).

(** The condition of the [if] at lines 95-96. *)
Definition flowgraphMatches (filter : string) (value : Flowgraph.Metadata) : bool :=
  let filterLower := ToLowerInPlace filter in
  let titleLower := ToLowerInPlace (Flowgraph.title value) in
  let descriptionLower := ToLowerInPlace (Flowgraph.description value) in
  bool_decide (find titleLower filterLower <> None) ||
  bool_decide (find descriptionLower filterLower <> None).

(** The loop shared by both functions: walk the entries of [source] and
    store those that match into [target]. *)
Definition collect {V} (matches : V -> bool) (source target : gmap K V) : gmap K V :=
  foldl (fun filtered '(key, value) =>
           if matches value then <[key := value]> filtered else filtered)
        target (map_to_list source).

(** Lines 37-71. *)
Definition _blockList (filter : string) (st : State) : Vulkan.Result * State :=
  if bool_decide (filter = lastBlockFilter st) &&
     negb (bool_decide (blockFilteredMetadataList st = ∅))
  then (Vulkan.Result_SUCCESS, st)
  else
    (Vulkan.Result_SUCCESS,
     {| blockMetadataList := blockMetadataList st;
        blockFilteredMetadataList :=
          collect (blockMatches filter) (blockMetadataList st) ∅;
        lastBlockFilter := filter;
        flowgraphMetadataList := flowgraphMetadataList st;
        filteredFlowgraphMetadataList := filteredFlowgraphMetadataList st;
        lastFlowgraphFilter := lastFlowgraphFilter st |}).

(** Lines 73-102. *)
Definition _flowgraphList (filter : string) (st : State) : Vulkan.Result * State :=
  if bool_decide (filter = lastFlowgraphFilter st) &&
     negb (bool_decide (filteredFlowgraphMetadataList st = ∅))
  then (Vulkan.Result_SUCCESS, st)
  else
    (Vulkan.Result_SUCCESS,
     {| blockMetadataList := blockMetadataList st;
        blockFilteredMetadataList := blockFilteredMetadataList st;
        lastBlockFilter := lastBlockFilter st;
        flowgraphMetadataList := flowgraphMetadataList st;
        filteredFlowgraphMetadataList :=
          collect (flowgraphMatches filter) (flowgraphMetadataList st) ∅;
        lastFlowgraphFilter := filter |}).

(** [Store::Store], lines 32-35: the two manifests fill the lists; the
    filtered lists and the last filters start empty. *)
Definition Store_ctor (blocks : gmap K Block.Metadata)
  (flowgraphs : gmap K Flowgraph.Metadata) : State :=
  {| blockMetadataList := blocks;
     blockFilteredMetadataList := ∅;
     lastBlockFilter := EmptyString;
     flowgraphMetadataList := flowgraphs;
     filteredFlowgraphMetadataList := ∅;
     lastFlowgraphFilter := EmptyString |}.

(** The filtered block list is either empty or the answer to the last
    filter. *)
Definition block_cache_consistent (st : State) : Prop :=
  blockFilteredMetadataList st = ∅ \/
  blockFilteredMetadataList st =
    filter (fun kv => blockMatches (lastBlockFilter st) kv.2 = true)
           (blockMetadataList st).

Definition flowgraph_cache_consistent (st : State) : Prop :=
  filteredFlowgraphMetadataList st = ∅ \/
  filteredFlowgraphMetadataList st =
    filter (fun kv => flowgraphMatches (lastFlowgraphFilter st) kv.2 = true)
           (flowgraphMetadataList st).

(** The two list queries, and a sequence of them on one store. *)
Inductive Query : Type :=
| BlockList (filter : string)
| FlowgraphList (filter : string).

Definition query (q : Query) (st : State) : State :=
  match q with
  | BlockList filter => (_blockList filter st).2
  | FlowgraphList filter => (_flowgraphList filter st).2
  end.

Definition queries (qs : list Query) (st : State) : State :=
  foldl (fun st q => query q st) st qs.

End Lists.

Arguments State K {_ _}.

End Store.

(** ** Concrete machines used in the examples below *)

Module Fixtures.

Import Vulkan.
Local Open Scope Z_scope.

(** A Linux build with every optional header present and NVML. *)
Definition linux_build : Build :=
  {| JST_OS_LINUX := true; JST_OS_MAC_or_IOS := false; JST_OS_WINDOWS := false;
     JST_OS_ANDROID := false;
     defined_VK_KHR_portability_enumeration := true;
     defined_VK_EXT_tooling_info := true;
     defined_VK_KHR_external_memory_fd := true;
     defined_VK_KHR_portability_subset := true;
     JST_BACKEND_HAS_NVML := true;
     VK_TOOL_PURPOSE_MONITORING_BIT_EXT := 8 |}.

Definition all_queues : QueueFamilyIndices :=
  {| graphicFamily := Some 0%N; computeFamily := Some 0%N; presentFamily := Some 0%N |}.

Definition no_present_queue : QueueFamilyIndices :=
  {| graphicFamily := Some 0%N; computeFamily := Some 0%N; presentFamily := None |}.

Definition gpu_properties (name : string) (vendor : Z) : VkPhysicalDeviceProperties :=
  {| deviceName := name; vendorID := vendor;
     deviceType := VK_PHYSICAL_DEVICE_TYPE_DISCRETE_GPU;
     apiVersion := 4206592; framebufferColorSampleCounts := 15;
     framebufferDepthSampleCounts := 15 |}.

Definition gpu (h : N) (name : string) (exts : list string) (q : QueueFamilyIndices)
  : VkPhysicalDevice :=
  {| handle := h; availableDeviceExtensions := exts; queueFamilies := q;
     deviceProperties := gpu_properties name 0x1002;
     memoryHeaps := [mkHeap 1 8589934592; mkHeap 0 17179869184] |}.

Definition gpu_a : VkPhysicalDevice := gpu 1 "A" ["VK_KHR_swapchain"] all_queues.
Definition gpu_b : VkPhysicalDevice := gpu 2 "B" [] all_queues.
Definition gpu_c : VkPhysicalDevice :=
  gpu 3 "C" ["VK_KHR_swapchain"; "VK_KHR_external_memory_fd"] all_queues.
Definition gpu_d : VkPhysicalDevice := gpu 4 "D" ["VK_KHR_swapchain"] no_present_queue.
Definition gpu_e : VkPhysicalDevice := gpu 5 "E" ["VK_KHR_swapchain"] all_queues.

Definition quiet_sample : Sample :=
  {| nvml := {| nvmlDeviceGetPowerState := (0, 2)%Z;
                nvmlDeviceGetTemperature := (0, 60)%Z;
                nvmlDeviceGetPowerUsage := (0, 40000)%Z;
                nvmlDeviceGetEnforcedPowerLimit := (0, 60000)%Z |};
     tooling := {| countResult := 0; toolsResult := 0; toolPurposes := [] |} |}.

(** A driver on which every call succeeds: five devices, of which [gpu_a],
    [gpu_c] and [gpu_e] pass both filters; no validation layer installed,
    no telemetry source. *)
Definition good_driver : Driver :=
  {| windowMightBeWayland := false;
     availableInstanceExtensions :=
       ["VK_KHR_surface"; "VK_KHR_xcb_surface"; "VK_EXT_debug_report"];
     availableLayers := [];
     vkCreateInstance := 0;
     has_vkCreateDebugReportCallbackEXT := true;
     vkCreateDebugReportCallbackEXT := 0;
     vkEnumeratePhysicalDevices := 0;
     physicalDevices := [gpu_a; gpu_b; gpu_c; gpu_d; gpu_e];
     vkCreateDevice := 0;
     vkCreateDescriptorPool := 0;
     vkCreateBuffer := 0;
     vkAllocateMemory := 0;
     vkBindBufferMemory := 0;
     vkMapMemory := 0;
     vkCreateCommandPool := 0;
     vkAllocateCommandBuffers := 0;
     vkCreateFence := 0;
     nvmlInit_v2 := 1;
     nvmlDeviceGetHandleByIndex := fun _ => (1, 0)%Z;
     has_vkGetPhysicalDeviceToolPropertiesEXT := false;
     firstSample := quiet_sample |}.

Definition with_fence (r : VkResult) (d : Driver) : Driver :=
  let '(mkDriver a1 a2 a3 a4 a5 a6 a7 a8 a9 a10 a11 a12 a13 a14 a15 a16 _
                 a18 a19 a20 a21) := d in
  mkDriver a1 a2 a3 a4 a5 a6 a7 a8 a9 a10 a11 a12 a13 a14 a15 a16 r a18 a19 a20 a21.

Definition with_buffer (r : VkResult) (d : Driver) : Driver :=
  let '(mkDriver a1 a2 a3 a4 a5 a6 a7 a8 a9 a10 _ a12 a13 a14 a15 a16 a17
                 a18 a19 a20 a21) := d in
  mkDriver a1 a2 a3 a4 a5 a6 a7 a8 a9 a10 r a12 a13 a14 a15 a16 a17 a18 a19 a20 a21.

Definition with_instance_extensions (l : list string) (d : Driver) : Driver :=
  let '(mkDriver a1 _ a3 a4 a5 a6 a7 a8 a9 a10 a11 a12 a13 a14 a15 a16 a17
                 a18 a19 a20 a21) := d in
  mkDriver a1 l a3 a4 a5 a6 a7 a8 a9 a10 a11 a12 a13 a14 a15 a16 a17 a18 a19 a20 a21.

(** One NVIDIA device with the vendor library present but every query
    failing from the first poll on. *)
Definition gpu_nv : VkPhysicalDevice :=
  {| handle := 7; availableDeviceExtensions := ["VK_KHR_swapchain"];
     queueFamilies := all_queues;
     deviceProperties := gpu_properties "NV" 0x10DE;
     memoryHeaps := [mkHeap 1 8589934592] |}.

Definition nvml_failing : Sample :=
  {| nvml := {| nvmlDeviceGetPowerState := (999, 0);
                nvmlDeviceGetTemperature := (999, 0);
                nvmlDeviceGetPowerUsage := (999, 0);
                nvmlDeviceGetEnforcedPowerLimit := (999, 0) |};
     tooling := {| countResult := 0; toolsResult := 0; toolPurposes := [] |} |}.

Definition nvidia_driver : Driver :=
  let '(mkDriver a1 a2 a3 a4 a5 a6 a7 _ a9 a10 a11 a12 a13 a14 a15 a16 a17
                 _ _ a20 _) := good_driver in
  mkDriver a1 a2 a3 a4 a5 a6 a7 [gpu_nv] a9 a10 a11 a12 a13 a14 a15 a16 a17
           0 (fun _ => (0, 1)) a20 nvml_failing.

Definition plain_config : Config :=
  {| deviceId := 1%N; headless := false; validationEnabled := false;
     multisampling := 4%N; stagingBufferSize := 67108864%N |}.

Definition debug_config : Config :=
  {| deviceId := 0%N; headless := false; validationEnabled := true;
     multisampling := 4%N; stagingBufferSize := 67108864%N |}.

Definition config_with_device (n : N) : Config :=
  {| deviceId := n; headless := false; validationEnabled := false;
     multisampling := 4%N; stagingBufferSize := 67108864%N |}.

(** An object bound to an NVML device, the suppression flag clear. *)
Definition nvml_state : State :=
  set_cache (set_telemetryHandle 1)
    (set_cache (set_telemetryProviderType Telemetry.NVML) (initial plain_config)).

(** Power state P8 under a load of two thirds of the power budget. *)
Definition p8_under_load : NvmlSample :=
  {| nvmlDeviceGetPowerState := (0, 8);
     nvmlDeviceGetTemperature := (0, 88);
     nvmlDeviceGetPowerUsage := (0, 40000);
     nvmlDeviceGetEnforcedPowerLimit := (0, 60000) |}.

(** Every NVML query fails (999 is NVML_ERROR_UNKNOWN). *)
Definition nvml_down : Sample := nvml_failing.

(** The vendor library answering every query but one. *)
Definition power_state_failing : Sample :=
  {| nvml := {| nvmlDeviceGetPowerState := (999, 0);
                nvmlDeviceGetTemperature := (0, 60);
                nvmlDeviceGetPowerUsage := (0, 40000);
                nvmlDeviceGetEnforcedPowerLimit := (0, 60000) |};
     tooling := {| countResult := 0; toolsResult := 0; toolPurposes := [] |} |}.

Definition temperature_failing : Sample :=
  {| nvml := {| nvmlDeviceGetPowerState := (0, 2);
                nvmlDeviceGetTemperature := (999, 0);
                nvmlDeviceGetPowerUsage := (0, 40000);
                nvmlDeviceGetEnforcedPowerLimit := (0, 60000) |};
     tooling := {| countResult := 0; toolsResult := 0; toolPurposes := [] |} |}.

(** A browser that exposes neither hint. *)
Definition no_hints : WebGPU.Hints :=
  {| WebGPU.jetstream_webgpu_query_low_power_hint := -1;
     WebGPU.jetstream_webgpu_query_thermal_bucket := -1 |}.

End Fixtures.

(** * Properties *)

Section TelemetryRules.

Import Telemetry.
Local Open Scope Z_scope.

(** The cases of tests/backend_telemetry.cc. *)
Example test_thermal_buckets :
  ThermalBucketFromCelsius 60 = 0 /\ ThermalBucketFromCelsius 76 = 1 /\
  ThermalBucketFromCelsius 88 = 2 /\ ThermalBucketFromCelsius 100 = 3.
Proof. repeat split; reflexivity. Qed.

Example test_low_power :
  IsLowPowerFromPState 2 = false /\ IsLowPowerFromPState 9 = true /\
  IsLowPowerFromPowerBudget 10000 60000 30 = true /\
  IsLowPowerFromPowerBudget 40000 60000 30 = false.
Proof. repeat split; reflexivity. Qed.

Lemma ThermalBucketFromCelsius_range t :
  0 <= ThermalBucketFromCelsius t <= 3.
Proof.
  unfold ThermalBucketFromCelsius.
  repeat (case (Z.leb_spec _ t); intros); lia.
Qed.

Lemma ThermalBucketFromCelsius_mono t1 t2 :
  t1 <= t2 -> ThermalBucketFromCelsius t1 <= ThermalBucketFromCelsius t2.
Proof.
  intros Hle. unfold ThermalBucketFromCelsius.
  repeat (case (Z.leb_spec _ t1); intros);
  repeat (case (Z.leb_spec _ t2); intros); lia.
Qed.

(** C6. For every temperature [t] the bucket is 3 from 95 up, 2 on
    [85, 95), 1 on [75, 85) and 0 below; 60, 76, 88 and 100 map to 0, 1, 2
    and 3; 75, 85 and 95 fall in the higher bucket; and the bucket never
    decreases when the temperature grows. *)
Theorem ThermalBucketFromCelsius_spec :
  (forall t, 95 <= t -> ThermalBucketFromCelsius t = 3) /\
  (forall t, 85 <= t < 95 -> ThermalBucketFromCelsius t = 2) /\
  (forall t, 75 <= t < 85 -> ThermalBucketFromCelsius t = 1) /\
  (forall t, t < 75 -> ThermalBucketFromCelsius t = 0) /\
  (ThermalBucketFromCelsius 60 = 0 /\ ThermalBucketFromCelsius 76 = 1 /\
   ThermalBucketFromCelsius 88 = 2 /\ ThermalBucketFromCelsius 100 = 3) /\
  (ThermalBucketFromCelsius 75 = 1 /\ ThermalBucketFromCelsius 85 = 2 /\
   ThermalBucketFromCelsius 95 = 3) /\
  (forall t1 t2, t1 <= t2 ->
     ThermalBucketFromCelsius t1 <= ThermalBucketFromCelsius t2).
Proof.
  repeat split; try reflexivity;
    try (intros t Ht; unfold ThermalBucketFromCelsius;
         repeat (case (Z.leb_spec _ t); intros); lia).
  apply ThermalBucketFromCelsius_mono.
Qed.

Lemma ThermalBucketFromCelsius_spec_witness :
  ThermalBucketFromCelsius 94 = 2 /\
  ThermalBucketFromCelsius 74 <= ThermalBucketFromCelsius 75.
Proof.
  destruct ThermalBucketFromCelsius_spec as (_ & H2 & _ & _ & _ & _ & Hm).
  split; [apply (H2 94); lia | apply (Hm 74 75); lia].
Defined.

(** A zero budget is never low power. *)
Lemma IsLowPowerFromPowerBudget_zero_budget x thr :
  IsLowPowerFromPowerBudget x 0 thr = false.
Proof. reflexivity. Qed.

(** Where the utilisation percentage fits 32 bits, the result is the
    comparison of the exact integer quotient with the threshold. *)
Lemma IsLowPowerFromPowerBudget_in_range x b thr :
  Int.is_U32 x -> Int.is_U32 b -> b <> 0 -> (x * 100) / b < 2 ^ 32 ->
  IsLowPowerFromPowerBudget x b thr = ((x * 100) / b <? thr).
Proof.
  unfold Int.is_U32. intros Hx Hb Hb0 Hq. unfold IsLowPowerFromPowerBudget.
  destruct (Z.eqb_spec b 0) as [|_]; [contradiction|].
  unfold Int.to_U64, Int.to_U32.
  rewrite (Z.mod_small (x * 100)) by lia.
  rewrite Z.mod_small; [reflexivity|].
  split; [apply Z.div_pos; lia | exact Hq].
Qed.

(** C7. At a current draw of 42949673 mW against a budget of 1 mW the
    exact quotient (42949673 * 100) / 1 = 4294967300 is not below 30, yet
    the function answers [true]: the quotient is narrowed to 32 bits
    (leaving 4) before it is compared. *)
Theorem IsLowPowerFromPowerBudget_narrowing :
  Int.is_U32 42949673 /\ Int.is_U32 1 /\
  ((42949673 * 100) / 1 <? 30) = false /\
  IsLowPowerFromPowerBudget 42949673 1 30 = true.
Proof. unfold Int.is_U32. repeat split; try reflexivity; lia. Qed.

End TelemetryRules.

(** ** Running the monad *)

Ltac unfold_monad :=
  unfold Vulkan.session, Vulkan.pollTelemetry, Vulkan.updateTelemetryFromNvml,
    Vulkan.updateTelemetryFromToolingInfo, Vulkan.providerErrorOnce,
    Vulkan.JST_WARN, Vulkan.JST_LOG, Vulkan.when,
    mbind, Vulkan.M_bind, Vulkan.bind, Vulkan.gets, Vulkan.modify, Vulkan.ret in *.

Section TelemetryPolls.

Import Vulkan.
Local Open Scope Z_scope.

Variable build : Build.

Lemma warnings_app l1 l2 :
  Log.warnings (l1 ++ l2) = (Log.warnings l1 + Log.warnings l2)%nat.
Proof. unfold Log.warnings, Log.at_level. by rewrite List.filter_app, length_app. Qed.

Ltac crush_poll :=
  repeat match goal with
         | |- context [bool_decide ?P] => destruct (bool_decide P); simpl
         | |- context [if ?b then _ else _] => destruct b; simpl
         | |- context [match ?x with _ => _ end] => destruct x; simpl
         end.

Lemma pollTelemetry_returns q s : (pollTelemetry build q s).1 = Returned tt.
Proof.
  destruct s as [cfg sie sde drc pd c rt av lv lg].
  destruct c, rt as [rn pel wk], q as [[[ps psv] [ts tsv] [us usv] [ls lsv]] [cr tr tp]].
  unfold_monad; simpl. crush_poll; reflexivity.
Qed.

Lemma pollTelemetry_log_step q s : log_step s (pollTelemetry build q s).2.
Proof.
  destruct s as [cfg sie sde drc pd c rt av lv lg].
  destruct c, rt as [rn pel wk], q as [[[ps psv] [ts tsv] [us usv] [ls lsv]] [cr tr tp]].
  unfold log_step. unfold_monad; simpl.
  destruct pel; simpl; crush_poll; eauto.
Qed.

(** The fields a poll does not touch. *)
Lemma pollTelemetry_frame q s :
  let s' := (pollTelemetry build q s).2 in
  live s' = live s /\ config s' = config s /\
  running (telemetryRuntime s') = running (telemetryRuntime s) /\
  worker (telemetryRuntime s') = worker (telemetryRuntime s) /\
  telemetryProviderType (cache s') = telemetryProviderType (cache s).
Proof.
  destruct s as [cfg sie sde drc pd c rt av lv lg].
  destruct c, rt as [rn pel wk], q as [[[ps psv] [ts tsv] [us usv] [ls lsv]] [cr tr tp]].
  unfold_monad; simpl. crush_poll; auto.
Qed.

Lemma session_cons q qs s :
  session build (q :: qs) s = session build qs (pollTelemetry build q s).2.
Proof.
  unfold session. simpl. unfold bind.
  pose proof (pollTelemetry_returns q s) as Hr.
  destruct (pollTelemetry build q s) as [o s1]. simpl in Hr. by subst o.
Qed.

Lemma session_returns qs s : (session build qs s).1 = Returned tt.
Proof.
  revert s. induction qs as [|q qs IH]; intros s; [reflexivity|].
  rewrite session_cons. apply IH.
Qed.

Lemma session_warnings qs s :
  (Log.warnings (log (session build qs s).2) <=
   Log.warnings (log s) +
   (if providerErrorLogged (telemetryRuntime s) then 0 else 1))%nat.
Proof.
  revert s. induction qs as [|q qs IH]; intros s.
  - simpl. lia.
  - rewrite session_cons. specialize (IH (pollTelemetry build q s).2).
    pose proof (pollTelemetry_log_step q s) as Hs. unfold log_step in Hs.
    destruct (providerErrorLogged (telemetryRuntime s)).
    + destruct Hs as [Hl Hf]. rewrite Hf, Hl in IH. exact IH.
    + destruct Hs as [[Hl Hf]|(msg & Hl & Hf)]; rewrite Hf, Hl in IH.
      * exact IH.
      * rewrite warnings_app in IH. change (Log.warnings [_]) with 1%nat in IH. lia.
Qed.

(** What decides which queries a poll makes is left as it was. *)
Lemma pollTelemetry_source q s :
  let s' := (pollTelemetry build q s).2 in
  telemetryProviderType (cache s') = telemetryProviderType (cache s) /\
  telemetryHandle (cache s') = telemetryHandle (cache s) /\
  toolingInfoFn (cache s') = toolingInfoFn (cache s).
Proof.
  destruct s as [cfg sie sde drc pd c rt av lv lg].
  destruct c, rt as [rn pel wk], q as [[[ps psv] [ts tsv] [us usv] [ls lsv]] [cr tr tp]].
  unfold_monad; simpl. crush_poll; auto.
Qed.

Ltac crush_atoms :=
  repeat first
    [ progress (match goal with
                | H : bool_decide _ = _ |- _ => rewrite H
                end; simpl)
    | match goal with
      | |- context [bool_decide ?P] => destruct (bool_decide P) eqn:?; simpl
      | |- context [JST_BACKEND_HAS_NVML build] =>
          destruct (JST_BACKEND_HAS_NVML build); simpl
      | |- context [if ?b then _ else _] => is_var b; destruct b; simpl
      | |- context [negb ?b] => is_var b; destruct b; simpl
      end ].

(** One poll: the log grows by the warning of the first failing query,
    unless the flag suppresses it, and by nothing else; the flag is set
    from then on when a query failed; the queries of later polls are the
    same. *)
Lemma pollTelemetry_reports q s :
  let s' := (pollTelemetry build q s).2 in
  log s' = log s ++ reported (providerErrorLogged (telemetryRuntime s))
                             (firstFailure build q s) /\
  providerErrorLogged (telemetryRuntime s') =
    suppressedAfter (providerErrorLogged (telemetryRuntime s))
                    (firstFailure build q s) /\
  (forall q', failedQueries build q' s' = failedQueries build q' s).
Proof.
  cbv zeta. split; [|split].
  3:{ intros q'. unfold failedQueries.
      destruct (pollTelemetry_source q s) as (-> & -> & ->). reflexivity. }
  all: destruct s as [cfg sie sde drc pd c rt av lv lg];
    destruct c, rt as [rn pel wk], q as [[[ps psv] [ts tsv] [us usv] [ls lsv]] [cr tr tp]];
    unfold firstFailure, failedQueries, nvmlFailures, toolingFailures, reported,
      suppressedAfter;
    unfold_monad;
    destruct telemetryProviderType0, pel; simpl; crush_atoms;
    by rewrite ?app_nil_r.
Qed.

Lemma reported_suppressed failure : reported true failure = [].
Proof. by destruct failure. Qed.

Lemma firstFailureIn_frame qs s s' :
  (forall q, failedQueries build q s' = failedQueries build q s) ->
  firstFailureIn build qs s' = firstFailureIn build qs s.
Proof.
  intros H. induction qs as [|q qs IH]; [reflexivity|].
  cbn [firstFailureIn]. unfold firstFailure. by rewrite H, IH.
Qed.

(** A sequence of polls: exactly the first failing query of the sequence
    is reported, unless the flag was set before. *)
Lemma session_reports qs s :
  let s' := (session build qs s).2 in
  log s' = log s ++ reported (providerErrorLogged (telemetryRuntime s))
                             (firstFailureIn build qs s) /\
  providerErrorLogged (telemetryRuntime s') =
    suppressedAfter (providerErrorLogged (telemetryRuntime s))
                    (firstFailureIn build qs s) /\
  (forall q, failedQueries build q s' = failedQueries build q s).
Proof.
  revert s. induction qs as [|q qs IH]; intros s.
  - cbn. by rewrite app_nil_r.
  - cbv zeta. rewrite session_cons.
    destruct (pollTelemetry_reports q s) as (Hl & Hf & Hq).
    destruct (IH (pollTelemetry build q s).2) as (Hl' & Hf' & Hq').
    rewrite Hl', Hf', Hl, Hf, (firstFailureIn_frame qs _ _ Hq).
    cbn [firstFailureIn].
    split; [|split].
    + destruct (firstFailure build q s) as [message|]; cbn [suppressedAfter].
      * by rewrite reported_suppressed, app_nil_r.
      * cbn [reported]. by rewrite app_nil_r.
    + destruct (firstFailure build q s); cbn [suppressedAfter]; [|done].
      by destruct (firstFailureIn build qs s).
    + intros q'. by rewrite Hq', Hq.
Qed.

Lemma at_level_WARN_snoc lg e :
  Log.at_level Log.WARN (lg ++ [e]) =
  Log.at_level Log.WARN lg ++ (if Log.has_level Log.WARN e then [e] else []).
Proof. unfold Log.at_level. by rewrite List.filter_app. Qed.

Lemma at_level_WARN_reported lg suppressed failure :
  Log.at_level Log.WARN (lg ++ reported suppressed failure) =
  Log.at_level Log.WARN lg ++ reported suppressed failure.
Proof.
  unfold Log.at_level. rewrite List.filter_app. f_equal.
  destruct failure as [message|]; [|reflexivity]. by destruct suppressed.
Qed.

(** A poll on a stopped scheduler, and the start that follows it. *)
Lemma poll_then_start q s :
  running (telemetryRuntime s) = false ->
  worker (telemetryRuntime s) = None ->
  exists s1,
    pollTelemetry build q s = (Returned tt, s1) /\
    startTelemetryPolling s1 =
      (Returned tt,
       set_telemetryRuntime (fun _ => mkTelemetryRuntime true false (Some AtLoopTest)) s1) /\
    log s1 = log s ++ reported (providerErrorLogged (telemetryRuntime s))
                               (firstFailure build q s) /\
    (forall q', failedQueries build q' s1 = failedQueries build q' s) /\
    telemetryProviderType (cache s1) = telemetryProviderType (cache s).
Proof.
  intros Hr Hw.
  pose proof (pollTelemetry_returns q s) as Hret.
  destruct (pollTelemetry_reports q s) as (Hl & _ & Hq).
  destruct (pollTelemetry_frame q s) as (_ & _ & Hr' & Hw' & Ht).
  destruct (pollTelemetry build q s) as [o s1]. cbn [fst snd] in *. subst o.
  exists s1. split; [reflexivity|]. split; [|by repeat split].
  rewrite Hr in Hr'. rewrite Hw in Hw'.
  destruct s1 as [cfg sie sde drc pd c rt av lv lg]. destruct rt as [rn pel wk].
  cbn in Hr', Hw'. subst rn wk. reflexivity.
Qed.

Lemma failedQueries_cache q s s' :
  cache s' = cache s -> failedQueries build q s' = failedQueries build q s.
Proof. intros H. unfold failedQueries. by rewrite H. Qed.

(** The poll the constructor makes comes before the first start: it
    reports its first failing query under the flag as it stands, and the
    start that follows clears the flag. *)
Lemma initializeTelemetry_reports (drv : Driver) (d : VkPhysicalDevice) (s : State) :
  running (telemetryRuntime s) = false ->
  worker (telemetryRuntime s) = None ->
  let r := initializeTelemetry build drv d s in
  telemetryProviderType (cache r.2) <> Telemetry.NONE ->
  Log.at_level Log.WARN (log r.2) =
    Log.at_level Log.WARN (log s) ++
    reported (providerErrorLogged (telemetryRuntime s))
             (firstFailure build (firstSample drv) r.2) /\
  providerErrorLogged (telemetryRuntime r.2) = false /\
  running (telemetryRuntime r.2) = true.
Proof.
  intros Hrun Hwk. cbv zeta.
  destruct s as [cfg sie sde drc pd c rt av lv lg].
  destruct c, rt as [rn pel wk]. cbn in Hrun, Hwk. subst rn wk.
  unfold initializeTelemetry, setupNvmlTelemetry, acquire, release,
    JST_INFO, JST_WARN, JST_ERROR, JST_LOG, mbind, M_bind, bind, gets, modify, ret.
  cbn [config supportedInstanceExtensions set_cache cache set_telemetryProviderType
       set_telemetryProviderName set_telemetryHandle set_telemetryLibraryInitialized
       set_toolingInfoFn].
  destruct (JST_BACKEND_HAS_NVML build); cbn [negb andb orb];
    [destruct (bool_decide (vendorID (deviceProperties d) = 4318)); cbn [negb andb orb];
     [destruct (bool_decide (nvmlInit_v2 drv = NVML_SUCCESS)); cbn [negb andb orb];
      [cbn [set_live config];
       destruct (nvmlDeviceGetHandleByIndex drv (deviceId cfg mod 2 ^ 32)%N) as [st hd];
       destruct (bool_decide (st = NVML_SUCCESS)); cbn [negb andb orb]|]|]|];
    cbn [set_live set_log set_cache cache supportedInstanceExtensions
         set_telemetryProviderType set_telemetryProviderName set_telemetryHandle
         set_telemetryLibraryInitialized set_toolingInfoFn negb andb orb];
    try (destruct (bool_decide (VK_EXT_TOOLING_INFO_EXTENSION_NAME ∈ sie));
         cbn [negb andb orb];
         [destruct (has_vkGetPhysicalDeviceToolPropertiesEXT drv); cbn [negb andb orb]|]);
    cbn [set_live set_log set_cache cache supportedInstanceExtensions
         set_telemetryProviderType set_telemetryProviderName set_telemetryHandle
         set_telemetryLibraryInitialized set_toolingInfoFn negb andb orb].
  all: try (intros Hnone; exfalso; apply Hnone; reflexivity).
  all: match goal with
       | |- context [pollTelemetry build ?q ?st] =>
           destruct (poll_then_start q st eq_refl eq_refl)
             as (s1 & Hp & Hs & Hl & Hq & Ht);
           rewrite Hp, Hs; clear Hp Hs
       end.
  all: intros _; destruct s1 as [cfg1 sie1 sde1 drc1 pd1 c1 rt1 av1 lv1 lg1];
    cbn [fst snd log cache telemetryRuntime set_log set_telemetryRuntime
         providerErrorLogged running] in *;
    subst lg1; (split; [|by split]);
    rewrite at_level_WARN_snoc, at_level_WARN_reported, ?at_level_WARN_snoc;
    unfold Log.has_level; cbn [Log.level];
    rewrite !bool_decide_eq_false_2 by discriminate;
    rewrite ?app_nil_r; f_equal;
    unfold firstFailure; rewrite <- (Hq (firstSample drv)); reflexivity.
Qed.

(** A start from Stopped clears the flag and touches neither the log nor
    the provider: the polls of the session that follows report exactly
    their first failing query. *)
Lemma started_session_reports qs s :
  running (telemetryRuntime s) = false ->
  worker (telemetryRuntime s) = None ->
  let s1 := (startTelemetryPolling s).2 in
  providerErrorLogged (telemetryRuntime s1) = false /\
  log (session build qs s1).2 = log s ++ reported false (firstFailureIn build qs s).
Proof.
  intros Hr Hw. cbv zeta.
  destruct s as [cfg sie sde drc pd c rt av lv lg]. destruct rt as [rn pel wk].
  cbn in Hr, Hw. subst rn wk.
  change (startTelemetryPolling _) with
    (Returned tt,
     mkState cfg sie sde drc pd c (mkTelemetryRuntime true false (Some AtLoopTest))
             av lv lg).
  cbn [snd]. split; [reflexivity|].
  destruct (session_reports qs
    (mkState cfg sie sde drc pd c (mkTelemetryRuntime true false (Some AtLoopTest))
             av lv lg)) as (Hl & _).
  rewrite Hl. cbn [log telemetryRuntime providerErrorLogged]. do 2 f_equal.
  apply firstFailureIn_frame. by intros q.
Qed.

(** The three NVML stores of one poll, and what a failed query leaves. *)
Lemma updateTelemetryFromNvml_fields (q : NvmlSample) (s : State) :
  JST_BACKEND_HAS_NVML build = true ->
  telemetryHandle (cache s) <> 0 ->
  let s' := (updateTelemetryFromNvml build q s).2 in
  getThermalState (cache s') =
    (if bool_decide ((nvmlDeviceGetTemperature q).1 = NVML_SUCCESS)
     then Telemetry.ThermalBucketFromCelsius (nvmlDeviceGetTemperature q).2
     else getThermalState (cache s)) /\
  lowPowerStatus (cache s') =
    (if bool_decide ((nvmlDeviceGetPowerUsage q).1 = NVML_SUCCESS) &&
        bool_decide ((nvmlDeviceGetEnforcedPowerLimit q).1 = NVML_SUCCESS)
     then Telemetry.IsLowPowerFromPowerBudget
            (nvmlDeviceGetPowerUsage q).2 (nvmlDeviceGetEnforcedPowerLimit q).2
            Telemetry.utilizationThresholdPercent_default
     else if bool_decide ((nvmlDeviceGetPowerState q).1 = NVML_SUCCESS)
     then Telemetry.IsLowPowerFromPState (Int.to_U32 (nvmlDeviceGetPowerState q).2)
     else lowPowerStatus (cache s)).
Proof.
  intros Hb Hh s'. subst s'.
  destruct s as [cfg sie sde drc pd c rt av lv lg].
  destruct c, rt as [rn pel wk], q as [[ps psv] [ts tsv] [us usv] [ls lsv]].
  simpl in *. unfold_monad. rewrite Hb. simpl.
  rewrite bool_decide_eq_false_2 by assumption.
  destruct pel; crush_poll; auto.
Qed.

(** The tooling-info poll: a failed call stores nothing. *)
Lemma updateTelemetryFromToolingInfo_failed (q : ToolingSample) (s : State) :
  countResult q <> VK_SUCCESS \/ toolsResult q <> VK_SUCCESS ->
  let s' := (updateTelemetryFromToolingInfo build q s).2 in
  getThermalState (cache s') = getThermalState (cache s) /\
  lowPowerStatus (cache s') = lowPowerStatus (cache s).
Proof.
  intros Hf s'. subst s'.
  destruct s as [cfg sie sde drc pd c rt av lv lg].
  destruct c, rt as [rn pel wk], q as [cr tr tp].
  simpl in *. unfold_monad. simpl.
  destruct toolingInfoFn0; simpl; [|auto].
  case_bool_decide; simpl.
  - case_bool_decide; simpl; [tauto|]. destruct pel; auto.
  - destruct pel; auto.
Qed.

(** C10. In one NVML poll on a bound device: when the usage and the
    budget queries both succeed the published [lowPowerStatus] is the
    power-budget classification, whatever the power-state query stored
    before it in the same poll; the power-state classification is the
    final value when the power-state query succeeds and the usage or the
    budget query fails. *)
Theorem updateTelemetryFromNvml_lowPowerStatus (q : NvmlSample) (s : State) :
  JST_BACKEND_HAS_NVML build = true ->
  telemetryHandle (cache s) <> 0 ->
  let s' := (updateTelemetryFromNvml build q s).2 in
  ((nvmlDeviceGetPowerUsage q).1 = NVML_SUCCESS ->
   (nvmlDeviceGetEnforcedPowerLimit q).1 = NVML_SUCCESS ->
   lowPowerStatus (cache s') =
     Telemetry.IsLowPowerFromPowerBudget
       (nvmlDeviceGetPowerUsage q).2 (nvmlDeviceGetEnforcedPowerLimit q).2 30) /\
  ((nvmlDeviceGetPowerState q).1 = NVML_SUCCESS ->
   (nvmlDeviceGetPowerUsage q).1 <> NVML_SUCCESS \/
   (nvmlDeviceGetEnforcedPowerLimit q).1 <> NVML_SUCCESS ->
   lowPowerStatus (cache s') =
     Telemetry.IsLowPowerFromPState (Int.to_U32 (nvmlDeviceGetPowerState q).2)).
Proof.
  intros Hb Hh s'.
  destruct (updateTelemetryFromNvml_fields q s Hb Hh) as [_ Hl].
  fold s' in Hl. rewrite Hl. split.
  - intros Hu Hlim. rewrite !bool_decide_eq_true_2 by assumption. reflexivity.
  - intros Hp [Hu|Hlim].
    + rewrite (bool_decide_eq_false_2 _ Hu). simpl.
      rewrite bool_decide_eq_true_2 by assumption. reflexivity.
    + rewrite (bool_decide_eq_false_2 _ Hlim), andb_false_r.
      rewrite bool_decide_eq_true_2 by assumption. reflexivity.
Qed.

End TelemetryPolls.

Section BrowserPolls.

Import WebGPU.
Local Open Scope Z_scope.

Lemma warnings_saying_app fmt l1 l2 :
  Log.warnings_saying fmt (l1 ++ l2) =
  (Log.warnings_saying fmt l1 + Log.warnings_saying fmt l2)%nat.
Proof. unfold Log.warnings_saying. by rewrite List.filter_app, length_app. Qed.

(** One refresh: the log grows by the power warning when the power hint
    is missing and was not reported before, then by the thermal warning
    under the same condition; each flag records that its warning is out. *)
Lemma refreshTelemetry_log (q : Hints) (s : State) :
  let s' := refreshTelemetry q s in
  log s' =
    log s
    ++ (if negb (0 <=? jetstream_webgpu_query_low_power_hint q) &&
           negb (lowPowerWarningLogged s)
        then [Log.mkEntry Log.WARN warn_power_hints []] else [])
    ++ (if negb (0 <=? jetstream_webgpu_query_thermal_bucket q) &&
           negb (thermalWarningLogged s)
        then [Log.mkEntry Log.WARN warn_thermal_hints []] else []) /\
  lowPowerWarningLogged s' =
    lowPowerWarningLogged s || negb (0 <=? jetstream_webgpu_query_low_power_hint q) /\
  thermalWarningLogged s' =
    thermalWarningLogged s || negb (0 <=? jetstream_webgpu_query_thermal_bucket q).
Proof.
  destruct s as [lp th pt pn act lw tw lg pe po], q as [h b].
  unfold refreshTelemetry. simpl.
  destruct (0 <=? h), (0 <=? b), lw, tw; simpl;
    rewrite ?app_nil_r, <- ?app_assoc; auto.
Qed.

Lemma said_nil fmt : Log.warnings_saying fmt [] = 0%nat.
Proof. reflexivity. Qed.

Lemma said_power_power :
  Log.warnings_saying warn_power_hints [Log.mkEntry Log.WARN warn_power_hints []] = 1%nat.
Proof. vm_compute. reflexivity. Qed.

Lemma said_power_thermal :
  Log.warnings_saying warn_power_hints [Log.mkEntry Log.WARN warn_thermal_hints []] = 0%nat.
Proof. vm_compute. reflexivity. Qed.

Lemma said_thermal_power :
  Log.warnings_saying warn_thermal_hints [Log.mkEntry Log.WARN warn_power_hints []] = 0%nat.
Proof. vm_compute. reflexivity. Qed.

Lemma said_thermal_thermal :
  Log.warnings_saying warn_thermal_hints [Log.mkEntry Log.WARN warn_thermal_hints []] = 1%nat.
Proof. vm_compute. reflexivity. Qed.

Lemma session_snoc qs q s :
  session (qs ++ [q]) s = refreshTelemetry q (session qs s).
Proof. unfold session. by rewrite foldl_app. Qed.

Lemma session_power_warnings qs s :
  (Log.warnings_saying warn_power_hints (log (session qs s)) <=
   Log.warnings_saying warn_power_hints (log s) +
   (if lowPowerWarningLogged s then 0 else 1))%nat.
Proof.
  revert s. induction qs as [|q qs IH]; intros s; [cbn [session foldl]; lia|].
  change (session (q :: qs) s) with (session qs (refreshTelemetry q s)).
  specialize (IH (refreshTelemetry q s)).
  destruct (refreshTelemetry_log q s) as (Hl & Hp & _).
  rewrite Hl, Hp in IH. rewrite !warnings_saying_app in IH.
  destruct (0 <=? jetstream_webgpu_query_low_power_hint q),
    (0 <=? jetstream_webgpu_query_thermal_bucket q),
    (lowPowerWarningLogged s), (thermalWarningLogged s);
    cbn [negb andb orb] in IH;
    rewrite ?said_power_power, ?said_power_thermal, ?said_thermal_power,
      ?said_thermal_thermal, ?said_nil in IH; lia.
Qed.

Lemma session_thermal_warnings qs s :
  (Log.warnings_saying warn_thermal_hints (log (session qs s)) <=
   Log.warnings_saying warn_thermal_hints (log s) +
   (if thermalWarningLogged s then 0 else 1))%nat.
Proof.
  revert s. induction qs as [|q qs IH]; intros s; [cbn [session foldl]; lia|].
  change (session (q :: qs) s) with (session qs (refreshTelemetry q s)).
  specialize (IH (refreshTelemetry q s)).
  destruct (refreshTelemetry_log q s) as (Hl & _ & Ht).
  rewrite Hl, Ht in IH. rewrite !warnings_saying_app in IH.
  destruct (0 <=? jetstream_webgpu_query_low_power_hint q),
    (0 <=? jetstream_webgpu_query_thermal_bucket q),
    (lowPowerWarningLogged s), (thermalWarningLogged s);
    cbn [negb andb orb] in IH;
    rewrite ?said_power_power, ?said_power_thermal, ?said_thermal_power,
      ?said_thermal_thermal, ?said_nil in IH; lia.
Qed.

(** A session of refreshes: the power warning is logged exactly once when
    some refresh of the session misses the power hint and the flag was
    clear, and not at all otherwise; the flag is never cleared.  The same
    for the thermal warning and its own flag. *)
Lemma session_power_reports qs s :
  Log.warnings_saying warn_power_hints (log (session qs s)) =
  (Log.warnings_saying warn_power_hints (log s) +
   (if negb (lowPowerWarningLogged s) &&
       existsb (fun q => negb (0 <=? jetstream_webgpu_query_low_power_hint q)%Z) qs
    then 1 else 0))%nat /\
  lowPowerWarningLogged (session qs s) =
  lowPowerWarningLogged s ||
  existsb (fun q => negb (0 <=? jetstream_webgpu_query_low_power_hint q)) qs.
Proof.
  revert s. induction qs as [|q qs IH]; intros s.
  { cbn [session foldl existsb]. rewrite andb_false_r, orb_false_r. split; [lia|done]. }
  change (session (q :: qs) s) with (session qs (refreshTelemetry q s)).
  destruct (IH (refreshTelemetry q s)) as [IHl IHf]. rewrite IHl, IHf. clear IHl IHf.
  destruct (refreshTelemetry_log q s) as (Hl & Hp & _).
  rewrite Hl, Hp. rewrite !warnings_saying_app. cbn [existsb].
  destruct (0 <=? jetstream_webgpu_query_low_power_hint q),
    (0 <=? jetstream_webgpu_query_thermal_bucket q),
    (lowPowerWarningLogged s), (thermalWarningLogged s),
    (existsb (fun q => negb (0 <=? jetstream_webgpu_query_low_power_hint q)) qs);
    cbn [negb andb orb];
    rewrite ?said_power_power, ?said_power_thermal, ?said_thermal_power,
      ?said_thermal_thermal, ?said_nil; split; first [lia|reflexivity].
Qed.

Lemma session_thermal_reports qs s :
  Log.warnings_saying warn_thermal_hints (log (session qs s)) =
  (Log.warnings_saying warn_thermal_hints (log s) +
   (if negb (thermalWarningLogged s) &&
       existsb (fun q => negb (0 <=? jetstream_webgpu_query_thermal_bucket q)%Z) qs
    then 1 else 0))%nat /\
  thermalWarningLogged (session qs s) =
  thermalWarningLogged s ||
  existsb (fun q => negb (0 <=? jetstream_webgpu_query_thermal_bucket q)) qs.
Proof.
  revert s. induction qs as [|q qs IH]; intros s.
  { cbn [session foldl existsb]. rewrite andb_false_r, orb_false_r. split; [lia|done]. }
  change (session (q :: qs) s) with (session qs (refreshTelemetry q s)).
  destruct (IH (refreshTelemetry q s)) as [IHl IHf]. rewrite IHl, IHf. clear IHl IHf.
  destruct (refreshTelemetry_log q s) as (Hl & _ & Ht).
  rewrite Hl, Ht. rewrite !warnings_saying_app. cbn [existsb].
  destruct (0 <=? jetstream_webgpu_query_low_power_hint q),
    (0 <=? jetstream_webgpu_query_thermal_bucket q),
    (lowPowerWarningLogged s), (thermalWarningLogged s),
    (existsb (fun q => negb (0 <=? jetstream_webgpu_query_thermal_bucket q)) qs);
    cbn [negb andb orb];
    rewrite ?said_power_power, ?said_power_thermal, ?said_thermal_power,
      ?said_thermal_thermal, ?said_nil; split; first [lia|reflexivity].
Qed.

(** The two stores of one refresh. *)
Lemma refreshTelemetry_fields (q : Hints) (s : State) :
  let s' := refreshTelemetry q s in
  lowPowerStatus s' =
    (if 0 <=? jetstream_webgpu_query_low_power_hint q
     then jetstream_webgpu_query_low_power_hint q =? 1
     else lowPowerStatus s) /\
  getThermalState s' =
    (if 0 <=? jetstream_webgpu_query_thermal_bucket q
     then Int.to_U64 (jetstream_webgpu_query_thermal_bucket q)
     else getThermalState s).
Proof.
  destruct s as [lp th pt pn act lw tw lg pe po], q as [h b].
  unfold refreshTelemetry. simpl.
  destruct (0 <=? h), (0 <=? b), lw, tw; simpl; auto.
Qed.

End BrowserPolls.

Section ProviderErrors.

Local Open Scope Z_scope.

(** C4 (as the code has it). A failed provider query never escalates:
    every poll, and every sequence of polls, returns normally.  On the
    native side one suppression flag serves every query of the provider: a
    poll logs the warning of its first failing query when the flag is
    clear, and nothing otherwise, and sets the flag when a query failed;
    so a sequence of polls logs exactly the warning of the first query
    that fails in it, unless the flag was set before, and at most one
    warning in all.  A start from Stopped clears the flag: the polls that
    follow it report exactly their first failing query.  The poll the
    constructor makes when a provider commits comes before that start: it
    reports its own first failing query, and the flag is clear again when
    the constructor is done.  On the browser side
    each hint has a flag of its own that is never cleared: the warning of a
    hint is logged exactly once when some refresh misses the hint and the
    flag was clear, and not at all otherwise.  A failed query stores
    nothing: the thermal bucket is kept when the temperature query fails,
    the low-power status is kept when the power-state query and the usage or
    budget query fail, both are kept when a tooling-info call fails, and
    the browser fields are kept when their hint is missing. *)
Theorem provider_errors_logged_once_and_local
  (build : Vulkan.Build) (qs : list Vulkan.Sample) (s : Vulkan.State)
  (hs : list WebGPU.Hints) (w : WebGPU.State) :
  let suppressed := Vulkan.providerErrorLogged (Vulkan.telemetryRuntime s) in
  (* never escalated, never fatal *)
  (Vulkan.session build qs s).1 = Vulkan.Returned tt /\
  (forall q, (Vulkan.pollTelemetry build q s).1 = Vulkan.Returned tt) /\
  (* one poll *)
  (forall q,
     let s' := (Vulkan.pollTelemetry build q s).2 in
     Vulkan.log s' =
       Vulkan.log s ++ Vulkan.reported suppressed (Vulkan.firstFailure build q s) /\
     Vulkan.providerErrorLogged (Vulkan.telemetryRuntime s') =
       Vulkan.suppressedAfter suppressed (Vulkan.firstFailure build q s)) /\
  (* a sequence of polls *)
  (let s' := (Vulkan.session build qs s).2 in
   Vulkan.log s' =
     Vulkan.log s ++ Vulkan.reported suppressed (Vulkan.firstFailureIn build qs s) /\
   Vulkan.providerErrorLogged (Vulkan.telemetryRuntime s') =
     Vulkan.suppressedAfter suppressed (Vulkan.firstFailureIn build qs s)) /\
  (Log.warnings (Vulkan.log (Vulkan.session build qs s).2) <=
   Log.warnings (Vulkan.log s) + (if suppressed then 0 else 1))%nat /\
  (* the polls after a start *)
  (Vulkan.running (Vulkan.telemetryRuntime s) = false ->
   Vulkan.worker (Vulkan.telemetryRuntime s) = None ->
   let s1 := (Vulkan.startTelemetryPolling s).2 in
   Vulkan.providerErrorLogged (Vulkan.telemetryRuntime s1) = false /\
   Vulkan.log (Vulkan.session build qs s1).2 =
     Vulkan.log s ++ Vulkan.reported false (Vulkan.firstFailureIn build qs s)) /\
  (* the poll the constructor makes before the first start *)
  (forall drv d,
     Vulkan.running (Vulkan.telemetryRuntime s) = false ->
     Vulkan.worker (Vulkan.telemetryRuntime s) = None ->
     let r := Vulkan.initializeTelemetry build drv d s in
     Vulkan.telemetryProviderType (Vulkan.cache r.2) <> Telemetry.NONE ->
     Log.at_level Log.WARN (Vulkan.log r.2) =
       Log.at_level Log.WARN (Vulkan.log s) ++
       Vulkan.reported suppressed
         (Vulkan.firstFailure build (Vulkan.firstSample drv) r.2) /\
     Vulkan.providerErrorLogged (Vulkan.telemetryRuntime r.2) = false /\
     Vulkan.running (Vulkan.telemetryRuntime r.2) = true) /\
  (* the browser hints *)
  (Log.warnings_saying WebGPU.warn_power_hints (WebGPU.log (WebGPU.session hs w)) =
   (Log.warnings_saying WebGPU.warn_power_hints (WebGPU.log w) +
    (if negb (WebGPU.lowPowerWarningLogged w) &&
        existsb (fun q => negb (0 <=? WebGPU.jetstream_webgpu_query_low_power_hint q)%Z) hs
     then 1 else 0))%nat /\
   WebGPU.lowPowerWarningLogged (WebGPU.session hs w) =
   WebGPU.lowPowerWarningLogged w ||
   existsb (fun q => negb (0 <=? WebGPU.jetstream_webgpu_query_low_power_hint q)) hs) /\
  (Log.warnings_saying WebGPU.warn_thermal_hints (WebGPU.log (WebGPU.session hs w)) =
   (Log.warnings_saying WebGPU.warn_thermal_hints (WebGPU.log w) +
    (if negb (WebGPU.thermalWarningLogged w) &&
        existsb (fun q => negb (0 <=? WebGPU.jetstream_webgpu_query_thermal_bucket q)%Z) hs
     then 1 else 0))%nat /\
   WebGPU.thermalWarningLogged (WebGPU.session hs w) =
   WebGPU.thermalWarningLogged w ||
   existsb (fun q => negb (0 <=? WebGPU.jetstream_webgpu_query_thermal_bucket q)) hs) /\
  (* the snapshot keeps its last known value *)
  (forall q : Vulkan.NvmlSample,
     Vulkan.JST_BACKEND_HAS_NVML build = true ->
     Vulkan.telemetryHandle (Vulkan.cache s) <> 0 ->
     let s' := (Vulkan.updateTelemetryFromNvml build q s).2 in
     ((Vulkan.nvmlDeviceGetTemperature q).1 <> Vulkan.NVML_SUCCESS ->
      Vulkan.getThermalState (Vulkan.cache s') =
      Vulkan.getThermalState (Vulkan.cache s)) /\
     ((Vulkan.nvmlDeviceGetPowerState q).1 <> Vulkan.NVML_SUCCESS ->
      (Vulkan.nvmlDeviceGetPowerUsage q).1 <> Vulkan.NVML_SUCCESS \/
      (Vulkan.nvmlDeviceGetEnforcedPowerLimit q).1 <> Vulkan.NVML_SUCCESS ->
      Vulkan.lowPowerStatus (Vulkan.cache s') =
      Vulkan.lowPowerStatus (Vulkan.cache s))) /\
  (forall q : Vulkan.ToolingSample,
     Vulkan.countResult q <> Vulkan.VK_SUCCESS \/
     Vulkan.toolsResult q <> Vulkan.VK_SUCCESS ->
     let s' := (Vulkan.updateTelemetryFromToolingInfo build q s).2 in
     Vulkan.getThermalState (Vulkan.cache s') =
     Vulkan.getThermalState (Vulkan.cache s) /\
     Vulkan.lowPowerStatus (Vulkan.cache s') =
     Vulkan.lowPowerStatus (Vulkan.cache s)) /\
  (forall q : WebGPU.Hints,
     (WebGPU.jetstream_webgpu_query_low_power_hint q < 0 ->
      WebGPU.lowPowerStatus (WebGPU.refreshTelemetry q w) = WebGPU.lowPowerStatus w) /\
     (WebGPU.jetstream_webgpu_query_thermal_bucket q < 0 ->
      WebGPU.getThermalState (WebGPU.refreshTelemetry q w) =
      WebGPU.getThermalState w)).
Proof.
  intros suppressed. subst suppressed.
  split; [apply session_returns|].
  split; [intros q; apply pollTelemetry_returns|].
  split.
  { intros q. destruct (pollTelemetry_reports build q s) as (Hl & Hf & _). by split. }
  split.
  { destruct (session_reports build qs s) as (Hl & Hf & _). by split. }
  split; [apply session_warnings|].
  split; [apply started_session_reports|].
  split; [intros drv d; apply initializeTelemetry_reports|].
  split; [apply session_power_reports|].
  split; [apply session_thermal_reports|].
  split; [|split].
  - intros q Hb Hh s'.
    destruct (updateTelemetryFromNvml_fields build q s Hb Hh) as [Ht Hl].
    fold s' in Ht, Hl. split.
    + intros Hf. by rewrite Ht, bool_decide_eq_false_2.
    + intros Hp [Hu|Hlim]; rewrite Hl.
      * rewrite (bool_decide_eq_false_2 _ Hu). simpl.
        by rewrite bool_decide_eq_false_2.
      * rewrite (bool_decide_eq_false_2 _ Hlim), andb_false_r.
        by rewrite bool_decide_eq_false_2.
  - intros q Hf. apply updateTelemetryFromToolingInfo_failed; assumption.
  - intros q. destruct (refreshTelemetry_fields q w) as [Hl Ht]. split; intros Hneg.
    + rewrite Hl. destruct (Z.leb_spec 0 (WebGPU.jetstream_webgpu_query_low_power_hint q)); [lia|done].
    + rewrite Ht. destruct (Z.leb_spec 0 (WebGPU.jetstream_webgpu_query_thermal_bucket q)); [lia|done].
Qed.

End ProviderErrors.

Ltac unfold_telemetry_setup :=
  unfold Vulkan.initializeTelemetry, Vulkan.setupNvmlTelemetry, Vulkan.populateCache,
    Vulkan.startTelemetryPolling, Vulkan.acquire, Vulkan.release,
    Vulkan.JST_ERROR, Vulkan.JST_INFO, Vulkan.JST_WARN, Vulkan.JST_LOG, Vulkan.when,
    mbind, Vulkan.M_bind, Vulkan.bind, Vulkan.gets, Vulkan.modify, Vulkan.ret in *.

Section ProviderChain.

Import Vulkan.
Local Open Scope Z_scope.

Variable build : Build.
Variable drv : Driver.

(** C9. When neither provider commits - the vendor library is not built
    in, the device is not of the vendor, the library fails to initialise or
    to bind the device; and the tooling-info capability was not negotiated
    or its entry point is missing - the cache population followed by
    [initializeTelemetry] returns with [lowPowerStatus = false] and
    [thermalBucket = 0], the provider recorded as none, and the scheduler
    state untouched: no poll is made and no worker is started. *)
Theorem initializeTelemetry_no_provider (d : VkPhysicalDevice) (s : State) :
  (JST_BACKEND_HAS_NVML build = false \/
   vendorID (deviceProperties d) <> 0x10DE \/
   nvmlInit_v2 drv <> NVML_SUCCESS \/
   (nvmlDeviceGetHandleByIndex drv (deviceId (config s) mod 2 ^ 32)%N).1
     <> NVML_SUCCESS) ->
  (VK_EXT_TOOLING_INFO_EXTENSION_NAME ∉ supportedInstanceExtensions s \/
   has_vkGetPhysicalDeviceToolPropertiesEXT drv = false) ->
  let r := (populateCache d;; initializeTelemetry build drv d) s in
  r.1 = Returned tt /\
  lowPowerStatus (cache r.2) = false /\
  getThermalState (cache r.2) = 0 /\
  telemetryProviderType (cache r.2) = Telemetry.NONE /\
  telemetryProviderName (cache r.2) = "Unavailable" /\
  telemetryRuntime r.2 = telemetryRuntime s /\
  Log.at_level Log.INFO (log r.2) = Log.at_level Log.INFO (log s).
Proof.
  intros Hnvml Htool r. subst r.
  destruct s as [cfg sie sde drc pd c rt av lv lg].
  destruct c, rt as [rn pel wk]. simpl in Hnvml, Htool.
  unfold_telemetry_setup. simpl.
  destruct (scanMemoryHeaps _ _) as [memory unified]. simpl.
  assert (Hlog : forall l e, Log.level e <> Log.INFO ->
            Log.at_level Log.INFO (l ++ [e]) = Log.at_level Log.INFO l).
  { intros l e He. unfold Log.at_level. rewrite List.filter_app. simpl.
    unfold Log.has_level. rewrite bool_decide_eq_false_2 by assumption.
    apply app_nil_r. }
  assert (Htool' :
    bool_decide (VK_EXT_TOOLING_INFO_EXTENSION_NAME ∈ sie) &&
    has_vkGetPhysicalDeviceToolPropertiesEXT drv = false).
  { destruct Htool as [Ht|Ht].
    - by rewrite bool_decide_eq_false_2.
    - rewrite Ht. apply andb_false_r. }
  apply andb_false_iff in Htool'.
  destruct (JST_BACKEND_HAS_NVML build) eqn:Hb; simpl;
    [destruct (bool_decide_reflect (vendorID (deviceProperties d) = 4318)) as [Hv|Hv];
     simpl;
     [destruct (bool_decide_reflect (nvmlInit_v2 drv = NVML_SUCCESS)) as [Hi|Hi];
      simpl;
      [destruct (nvmlDeviceGetHandleByIndex drv (deviceId cfg mod 2 ^ 32)%N)
         as [st hd] eqn:Hq; simpl in Hnvml;
       destruct (bool_decide_reflect (st = NVML_SUCCESS)) as [Hs|Hs]; simpl;
       [exfalso; destruct Hnvml as [?|[?|[?|?]]]; congruence|]|]|]|];
    (destruct Htool' as [Ht|Ht]; rewrite Ht; simpl;
     [|destruct (bool_decide _); simpl];
     repeat split; try reflexivity;
     rewrite ?Hlog by discriminate; reflexivity).
Qed.

End ProviderChain.

(** ** Capability negotiation *)

Section Capabilities.

Import Vulkan.

Lemma elem_of_supportedAmong_acc (available : list string) (requested acc : gset string) x :
  x ∈ foldl (fun supported name =>
               if bool_decide (name ∈ requested) then {[name]} ∪ supported
               else supported) acc available
  <-> x ∈ acc \/ (x ∈ available /\ x ∈ requested).
Proof.
  revert acc. induction available as [|a l IH]; intros acc; simpl.
  - rewrite elem_of_nil. tauto.
  - rewrite IH, elem_of_cons. case_bool_decide; set_solver.
Qed.

Lemma elem_of_supportedAmong available requested x :
  x ∈ supportedAmong available requested <-> x ∈ available /\ x ∈ requested.
Proof.
  unfold supportedAmong. rewrite elem_of_supportedAmong_acc. set_solver.
Qed.

Lemma supportedAmong_subseteq available requested :
  supportedAmong available requested ⊆ requested.
Proof. intros x Hx. apply elem_of_supportedAmong in Hx. tauto. Qed.

(** Comparing sizes, as the code does, decides whether everything
    requested is available. *)
Lemma supportedAmong_size available (requested : gset string) :
  size requested = size (supportedAmong available requested)
  <-> forall x, x ∈ requested -> x ∈ available.
Proof.
  pose proof (supportedAmong_subseteq available requested) as Hsub.
  split.
  - intros Hsz x Hx.
    assert (supportedAmong available requested = requested) as Heq.
    { apply set_eq. apply set_subseteq_size_equiv; [exact Hsub|lia]. }
    rewrite <- Heq in Hx. apply elem_of_supportedAmong in Hx. tauto.
  - intros Hall. f_equal. apply set_eq. intros x.
    rewrite elem_of_supportedAmong. naive_solver.
Qed.

Lemma elem_of_unsupported_acc (supported acc : gset string) (l : list string) x :
  x ∈ foldl (fun unsupported extension =>
               if negb (bool_decide (extension ∈ supported))
               then {[extension]} ∪ unsupported else unsupported) acc l
  <-> x ∈ acc \/ (x ∈ l /\ x ∉ supported).
Proof.
  revert acc. induction l as [|a l IH]; intros acc; simpl.
  - rewrite elem_of_nil. tauto.
  - rewrite IH, elem_of_cons. case_bool_decide; simpl; set_solver.
Qed.

(** The loop that warns about each element of [l] failing [P]. *)
Lemma for_each_warn (P : string -> bool) fmt (l : list string) (s : State) :
  for_each l (fun e => when (P e) (JST_WARN fmt [e])) s =
  (Returned tt,
   set_log (fun lg => lg ++ map (fun e => Log.mkEntry Log.WARN fmt [e])
                                (List.filter P l)) s).
Proof.
  revert s. induction l as [|a l IH]; intros s.
  - destruct s. simpl. unfold ret. by rewrite app_nil_r.
  - simpl. unfold bind. destruct (P a); simpl.
    + unfold JST_WARN, JST_LOG, modify. rewrite IH. destruct s. simpl.
      by rewrite <- app_assoc.
    + unfold ret. apply IH.
Qed.

Lemma occurrences_app e l1 l2 :
  Log.occurrences e (l1 ++ l2) = Log.occurrences e l1 + Log.occurrences e l2.
Proof. unfold Log.occurrences. by rewrite List.filter_app, length_app. Qed.

(** In a duplicate-free list of names, the warning for [x] occurs once
    when [x] is listed, and not at all otherwise. *)
Lemma occurrences_warn_NoDup fmt (l : list string) x :
  NoDup l ->
  Log.occurrences (Log.mkEntry Log.WARN fmt [x])
                  (map (fun e => Log.mkEntry Log.WARN fmt [e]) l)
  = if bool_decide (x ∈ l) then 1 else 0.
Proof.
  induction 1 as [|a l Hnotin Hnd IH].
  - reflexivity.
  - change (map ?f (a :: l)) with ([f a] ++ map f l).
    rewrite occurrences_app, IH. unfold Log.occurrences at 1. simpl.
    destruct (decide (a = x)) as [->|Hne].
    + rewrite bool_decide_eq_true_2 by reflexivity.
      rewrite (bool_decide_eq_false_2 (x ∈ l)) by assumption.
      rewrite bool_decide_eq_true_2 by (left). reflexivity.
    + rewrite bool_decide_eq_false_2 by congruence. simpl.
      destruct (decide (x ∈ l)).
      * rewrite !bool_decide_eq_true_2; [reflexivity|by right|assumption].
      * rewrite !bool_decide_eq_false_2; [reflexivity| |assumption].
        rewrite elem_of_cons. naive_solver.
Qed.

Variable build : Build.
Variable drv : Driver.

Lemma gatherInstanceExtensions_missing (s : State) :
  let required := getRequiredInstanceExtensions build drv (config s) in
  let optional := getOptionalInstanceExtensions build in
  supportedInstanceExtensions s = ∅ ->
  (exists e, e ∈ required /\ e ∉ availableInstanceExtensions drv) ->
  exists unsupported : gset string,
    (forall e, e ∈ unsupported <->
               e ∈ required /\ e ∉ availableInstanceExtensions drv) /\
    gatherInstanceExtensions build drv s =
    (Thrown (Jetstream Result_FATAL),
     set_log (fun lg => lg ++ debug_lines required optional ++
                        [Log.mkEntry Log.FATAL fatal_required_instance
                                     (elements unsupported)])
       (set_supportedInstanceExtensions
          (fun _ => ∅ ∪ checkInstanceExtensionSupport drv required) s)).
Proof.
  intros required optional Hempty (e & Hreq & Hav).
  destruct s as [cfg sie sde drc pd c rt av lv lg]. simpl in *. subst sie.
  set (supported := ∅ ∪ checkInstanceExtensionSupport drv required).
  set (unsupported := foldl (fun unsupported extension =>
             if negb (bool_decide (extension ∈ supported))
             then {[extension]} ∪ unsupported else unsupported)
          (∅ : gset string) (elements required)).
  assert (Hun : forall x, x ∈ unsupported <->
                          x ∈ required /\ x ∉ availableInstanceExtensions drv).
  { intros x. unfold unsupported. rewrite elem_of_unsupported_acc.
    unfold supported, checkInstanceExtensionSupport.
    rewrite elem_of_elements, elem_of_union, elem_of_supportedAmong.
    set_solver. }
  exists unsupported. split; [exact Hun|].
  unfold gatherInstanceExtensions, JST_DEBUG, JST_FATAL, JST_CHECK_THROW, JST_LOG,
    when, throw, mbind, M_bind, bind, gets, modify, ret.
  cbn [config set_supportedInstanceExtensions set_log supportedInstanceExtensions log].
  fold required. fold supported. fold unsupported.
  rewrite (bool_decide_eq_false_2 (unsupported = ∅)).
  - cbn [negb set_log]. unfold debug_lines. rewrite <- !app_assoc. reflexivity.
  - intros Heq. assert (e ∈ unsupported) as Hin by (apply Hun; auto).
    rewrite Heq in Hin. set_solver.
Qed.

Lemma gatherInstanceExtensions_supported (s : State) :
  let required := getRequiredInstanceExtensions build drv (config s) in
  let optional := getOptionalInstanceExtensions build in
  let supported := checkInstanceExtensionSupport drv required ∪
                   checkInstanceExtensionSupport drv optional in
  supportedInstanceExtensions s = ∅ ->
  (forall e, e ∈ required -> e ∈ availableInstanceExtensions drv) ->
  gatherInstanceExtensions build drv s =
  (Returned (elements supported),
   set_log (fun lg => lg ++ debug_lines required optional ++
              map (fun e => Log.mkEntry Log.WARN warn_optional_instance [e])
                  (List.filter (fun e => negb (bool_decide (e ∈ supported)))
                               (elements optional)))
     (set_supportedInstanceExtensions (fun _ => supported) s)).
Proof.
  intros required optional supported Hempty Hall.
  destruct s as [cfg sie sde drc pd c rt av lv lg]. simpl in *. subst sie.
  set (supported0 := ∅ ∪ checkInstanceExtensionSupport drv required).
  set (unsupported := foldl (fun unsupported extension =>
             if negb (bool_decide (extension ∈ supported0))
             then {[extension]} ∪ unsupported else unsupported)
          (∅ : gset string) (elements required)).
  assert (Hun : unsupported = ∅).
  { apply set_eq. intros x. unfold unsupported. rewrite elem_of_unsupported_acc.
    unfold supported0, checkInstanceExtensionSupport.
    rewrite elem_of_elements, elem_of_union, elem_of_supportedAmong.
    set_solver. }
  assert (Hsup : supported0 ∪ checkInstanceExtensionSupport drv optional = supported).
  { unfold supported0, supported. set_solver. }
  unfold gatherInstanceExtensions, JST_DEBUG, JST_FATAL, JST_CHECK_THROW, JST_LOG,
    throw, mbind, M_bind, bind, gets, modify.
  cbn [config set_supportedInstanceExtensions set_log supportedInstanceExtensions log].
  fold required. fold supported0. fold unsupported.
  rewrite (bool_decide_eq_true_2 (unsupported = ∅)) by exact Hun.
  cbn [negb when ret set_supportedInstanceExtensions supportedInstanceExtensions].
  fold optional. rewrite Hsup.
  rewrite for_each_warn.
  cbn [set_log supportedInstanceExtensions]. unfold debug_lines, ret.
  rewrite <- !app_assoc. reflexivity.
Qed.

Lemma occurrences_debug_lines required optional fmt a :
  Log.occurrences (Log.mkEntry Log.WARN fmt a) (debug_lines required optional) = 0.
Proof.
  unfold Log.occurrences, debug_lines. cbn [List.filter].
  rewrite !bool_decide_eq_false_2 by discriminate. reflexivity.
Qed.

Lemma warnings_debug_lines required optional :
  Log.warnings (debug_lines required optional) = 0.
Proof. reflexivity. Qed.

Lemma warnings_map_warn fmt (l : list string) :
  Log.warnings (map (fun e => Log.mkEntry Log.WARN fmt [e]) l) = length l.
Proof.
  unfold Log.warnings, Log.at_level.
  induction l as [|a l IH]; [reflexivity|].
  simpl. by rewrite IH.
Qed.

Lemma bind_thrown {A B} (m : M A) (k : A -> M B) s e s' :
  m s = (Thrown e, s') -> (m ≫= k) s = (Thrown e, s').
Proof. intros H. unfold mbind, M_bind, bind. by rewrite H. Qed.

Lemma bind_returned {A B} (m : M A) (k : A -> M B) s a s' :
  m s = (Returned a, s') -> (m ≫= k) s = k a s'.
Proof. intros H. unfold mbind, M_bind, bind. by rewrite H. Qed.

Lemma elem_of_filter_list (P : string -> bool) (l : list string) x :
  x ∈ List.filter P l <-> x ∈ l /\ P x = true.
Proof. rewrite !list_elem_of_In. apply List.filter_In. Qed.

(** C3. Whatever the build, the driver and the configuration: if a
    required instance capability is not among the supported ones, the
    constructor throws the fatal result while no native resource is held
    (no instance was created), after the fatal line naming the missing
    capabilities; if all required ones are supported, the negotiation
    returns the supported required and optional capabilities, and the log
    holds exactly one warning for each optional capability that is absent
    and none for any other. *)
Theorem instance_capability_negotiation (cfg : Config) :
  let required := getRequiredInstanceExtensions build drv cfg in
  let optional := getOptionalInstanceExtensions build in
  let available := availableInstanceExtensions drv in
  ((exists e, e ∈ required /\ e ∉ available) ->
   let r := construct build drv cfg in
   r.1 = Thrown (Jetstream Result_FATAL) /\
   live r.2 = [] /\
   exists unsupported : gset string,
     (forall e, e ∈ unsupported <-> e ∈ required /\ e ∉ available) /\
     Log.at_level Log.FATAL (log r.2) =
       [Log.mkEntry Log.FATAL fatal_required_instance (elements unsupported)]) /\
  ((forall e, e ∈ required -> e ∈ available) ->
   let g := gatherInstanceExtensions build drv (initial cfg) in
   (exists enabled,
      g.1 = Returned enabled /\
      forall e, e ∈ enabled <-> e ∈ available /\ (e ∈ required \/ e ∈ optional)) /\
   (forall e,
      Log.occurrences (Log.mkEntry Log.WARN warn_optional_instance [e]) (log g.2) =
      if bool_decide (e ∈ optional /\ e ∉ available) then 1 else 0) /\
   Log.warnings (log g.2) =
     length (List.filter (fun e => negb (bool_decide (e ∈ available)))
                         (elements optional)) /\
   live g.2 = []).
Proof.
  intros required optional available. split.
  - intros Hmissing r.
    destruct (gatherInstanceExtensions_missing (initial cfg) eq_refl Hmissing)
      as (unsupported & Hun & Hg).
    assert (Hr : r = (Thrown (Jetstream Result_FATAL),
                      set_log (fun lg => lg ++ debug_lines required optional ++
                        [Log.mkEntry Log.FATAL fatal_required_instance
                                     (elements unsupported)])
                       (set_supportedInstanceExtensions
                          (fun _ => ∅ ∪ checkInstanceExtensionSupport drv required)
                          (initial cfg)))).
    { unfold r, construct, Vulkan_ctor.
      rewrite (bind_thrown _ _ _ _ _ Hg). reflexivity. }
    rewrite Hr. cbn [fst snd initial set_log set_supportedInstanceExtensions live log].
    split; [reflexivity|]. split; [reflexivity|].
    exists unsupported. split; [exact Hun|]. reflexivity.
  - intros Hall g.
    pose proof (gatherInstanceExtensions_supported (initial cfg) eq_refl Hall) as Hg.
    cbn [config initial] in Hg. fold required optional in Hg. fold g in Hg.
    set (supported := checkInstanceExtensionSupport drv required ∪
                      checkInstanceExtensionSupport drv optional) in Hg.
    assert (Hsup : forall e, e ∈ supported <->
                             e ∈ available /\ (e ∈ required \/ e ∈ optional)).
    { intros e. unfold supported, checkInstanceExtensionSupport.
      rewrite elem_of_union, !elem_of_supportedAmong. fold available. tauto. }
    assert (Hfilter :
      List.filter (fun e => negb (bool_decide (e ∈ supported))) (elements optional) =
      List.filter (fun e => negb (bool_decide (e ∈ available))) (elements optional)).
    { apply List.filter_ext_in. intros e He.
      apply list_elem_of_In, elem_of_elements in He. f_equal.
      apply bool_decide_ext. rewrite Hsup. tauto. }
    rewrite Hfilter in Hg. rewrite Hg.
    cbn [fst snd initial set_log set_supportedInstanceExtensions live log app].
    split; [|split; [|split; [|reflexivity]]].
    + exists (elements supported). split; [reflexivity|].
      intros e. rewrite elem_of_elements. apply Hsup.
    + intros e. rewrite occurrences_app, occurrences_debug_lines.
      rewrite occurrences_warn_NoDup.
      2:{ apply NoDup_ListNoDup, List.NoDup_filter, NoDup_ListNoDup, NoDup_elements. }
      cbn [plus]. apply (f_equal (fun b : bool => if b then 1 else 0)).
      apply bool_decide_ext. rewrite elem_of_filter_list, elem_of_elements.
      rewrite negb_true_iff, bool_decide_eq_false. tauto.
    + rewrite warnings_app, warnings_debug_lines, warnings_map_warn. reflexivity.
Qed.

End Capabilities.

(** ** Validation layers *)

Section Validation.

Import Vulkan.

Variable build : Build.
Variable drv : Driver.

Lemma no_validation_layer_supported :
  VK_LAYER_KHRONOS_validation ∉ availableLayers drv ->
  checkValidationLayerSupport drv getRequiredValidationLayers = ∅.
Proof.
  intros Hno. apply set_eq. intros x.
  unfold checkValidationLayerSupport, getRequiredValidationLayers.
  rewrite elem_of_supportedAmong. set_solver.
Qed.

(** *** Runs that differ in the log and in the recorded instance extensions *)

Section Alike.

Variables before before' : list Log.Entry.

Lemma sameObject_refl s : sameObject s s.
Proof. by repeat split. Qed.

Lemma alike_ret {A} (a : A) : alike before before' (ret a) (ret a).
Proof. intros s s' H. by split. Qed.

Lemma alike_throw {A} r : alike before before' (@throw A r) (throw r).
Proof. intros s s' H. by split. Qed.

Lemma alike_terminate {A} : alike before before' (@terminate A) terminate.
Proof. intros s s' H. by split. Qed.

Lemma alike_value {A} (o : option A) : alike before before' (value o) (value o).
Proof. destruct o; intros s s' H; by split. Qed.

Lemma alike_bind {A B} (m m' : M A) (k k' : A -> M B) :
  alike before before' m m' -> (forall a, alike before before' (k a) (k' a)) -> alike before before' (m ≫= k) (m' ≫= k').
Proof.
  intros Hm Hk s s' H. destruct (Hm s s' H) as [Ho Hs].
  unfold mbind, M_bind, bind.
  destruct (m s) as [[a|e|] s1], (m' s') as [[a'|e'|] s1']; cbn [fst snd] in *;
    try discriminate Ho.
  - injection Ho as <-. by apply Hk.
  - injection Ho as ->. cbn. by split.
  - cbn. by split.
Qed.

Lemma alike_gets {A} (f : State -> A) :
  (forall s s', sameObject s s' -> f s = f s') -> alike before before' (gets f) (gets f).
Proof.
  intros Hf s s' H. cbn. split; [|exact H]. f_equal. apply Hf, H.
Qed.

Lemma alike_modify (f : State -> State) :
  (forall s s', sameObject s s' -> sameObject (f s) (f s')) ->
  (forall s, log (f s) = log s) ->
  alike before before' (modify f) (modify f).
Proof.
  intros Hf Hl s s' [Ho (lines & H1 & H2)]. cbn. split; [reflexivity|].
  split; [by apply Hf|]. exists lines. by rewrite !Hl.
Qed.

Lemma alike_log l fmt a : alike before before' (JST_LOG l fmt a) (JST_LOG l fmt a).
Proof.
  intros s s' [Ho (lines & H1 & H2)]. cbn. split; [reflexivity|]. split.
  - destruct s, s'. exact Ho.
  - exists (lines ++ [Log.mkEntry l fmt a]).
    destruct s, s'. cbn in *. subst. by rewrite !app_assoc.
Qed.

Lemma alike_when (b : bool) (m m' : M unit) :
  alike before before' m m' -> alike before before' (when b m) (when b m').
Proof. intros H. destruct b; [exact H|apply alike_ret]. Qed.

Lemma alike_for_each {A} (l : list A) (body body' : A -> M unit) :
  (forall x, alike before before' (body x) (body' x)) -> alike before before' (for_each l body) (for_each l body').
Proof.
  intros H. induction l as [|x l IH]; [apply alike_ret|].
  cbn [for_each]. apply (alike_bind (body x) (body' x)); [apply H|intros _; exact IH].
Qed.

(** The recorded instance extensions are looked up for two names only. *)
Lemma alike_supportedInstanceExtensions {A} (k k' : gset string -> M A) :
  (forall X X',
     (forall e, e = VK_KHR_PORTABILITY_ENUMERATION_EXTENSION_NAME \/
                e = VK_EXT_TOOLING_INFO_EXTENSION_NAME -> (e ∈ X <-> e ∈ X')) ->
     alike before before' (k X) (k' X')) ->
  alike before before' (gets supportedInstanceExtensions ≫= k) (gets supportedInstanceExtensions ≫= k').
Proof.
  intros Hk s s' H. unfold mbind, M_bind, bind, gets.
  apply Hk; [|exact H]. apply H.
Qed.

End Alike.

Ltac same_field :=
  let s := fresh "s" in let s' := fresh "s'" in
  let Hc := fresh in let Hsie := fresh in let Hsde := fresh in let Hdrc := fresh in
  let Hpd := fresh in let Hca := fresh in let Hrt := fresh in let Hav := fresh in
  let Hlv := fresh in
  intros s s' (Hc & Hsie & Hsde & Hdrc & Hpd & Hca & Hrt & Hav & Hlv);
  destruct s, s'; unfold sameObject;
  cbn [config supportedInstanceExtensions supportedDeviceExtensions debugReportCallback
       physicalDevice cache telemetryRuntime _isAvailable live log
       set_config set_supportedInstanceExtensions set_supportedDeviceExtensions
       set_debugReportCallback set_physicalDevice set_cache set_telemetryRuntime
       set_isAvailable set_live set_log] in *;
  subst;
  first [ reflexivity
        | split; [reflexivity|split; [exact Hsie|repeat split; reflexivity]] ].

Ltac alike_step :=
  lazymatch goal with
  | |- alike _ _ (ret _) _ => apply alike_ret
  | |- alike _ _ (JST_LOG _ _ _) _ => apply alike_log
  | |- alike _ _ (throw _) _ => apply alike_throw
  | |- alike _ _ terminate _ => apply alike_terminate
  | |- alike _ _ (value _) _ => apply alike_value
  | |- alike _ _ (gets supportedInstanceExtensions ≫= _) _ =>
      apply alike_supportedInstanceExtensions;
      let X := fresh "X" in let X' := fresh "X'" in let HX := fresh "HX" in
      intros X X' HX;
      rewrite ?(bool_decide_ext _ _ (HX _ (or_introl eq_refl))),
              ?(bool_decide_ext _ _ (HX _ (or_intror eq_refl)))
  | |- alike _ _ (_ ≫= _) _ => apply alike_bind; [|intros ?]
  | |- alike _ _ (gets _) _ => apply alike_gets; same_field
  | |- alike _ _ (modify _) _ =>
      apply alike_modify; [same_field|intros []; reflexivity]
  | |- alike _ _ (when _ _) _ => apply alike_when
  | |- alike _ _ (for_each _ _) _ => apply alike_for_each; intros ?
  | |- alike _ _ (match ?x with _ => _ end) _ => destruct x
  end.

Ltac alike_auto := repeat alike_step.

Ltac unfold_macros :=
  unfold JST_VK_CHECK_THROW, JST_CHECK_THROW, creating, acquire, release,
    JST_DEBUG, JST_INFO, JST_WARN, JST_ERROR, JST_FATAL.

Lemma alike_setupValidationLayers P P' :
  alike P P' (setupValidationLayers drv) (setupValidationLayers drv).
Proof. unfold setupValidationLayers. unfold_macros. alike_auto. Qed.

Lemma alike_collectValidPhysicalDevices P P' cfg candidates acc :
  alike P P' (collectValidPhysicalDevices cfg candidates acc)
             (collectValidPhysicalDevices cfg candidates acc).
Proof.
  revert acc. induction candidates as [|d l IH]; intros acc; cbn [collectValidPhysicalDevices].
  - apply alike_ret.
  - unfold_macros. apply alike_bind; [apply alike_log|intros _; apply IH].
Qed.

Lemma alike_getPhysicalDevice P P' :
  alike P P' (getPhysicalDevice drv) (getPhysicalDevice drv).
Proof.
  unfold getPhysicalDevice. unfold_macros.
  repeat lazymatch goal with
         | |- alike _ _ (collectValidPhysicalDevices _ _ _) _ =>
             apply alike_collectValidPhysicalDevices
         | |- _ => alike_step
         end.
Qed.

Lemma alike_gatherDeviceExtensions P P' d :
  alike P P' (gatherDeviceExtensions build d) (gatherDeviceExtensions build d).
Proof. unfold gatherDeviceExtensions. unfold_macros. alike_auto. Qed.

Lemma alike_populateCache P P' d :
  alike P P' (populateCache d) (populateCache d).
Proof. unfold populateCache. unfold_macros. alike_auto. Qed.

Lemma alike_setupNvmlTelemetry P P' :
  alike P P' (setupNvmlTelemetry build drv) (setupNvmlTelemetry build drv).
Proof. unfold setupNvmlTelemetry. unfold_macros. alike_auto. Qed.

Lemma alike_pollTelemetry P P' q :
  alike P P' (pollTelemetry build q) (pollTelemetry build q).
Proof.
  unfold pollTelemetry, updateTelemetryFromNvml, updateTelemetryFromToolingInfo,
    providerErrorOnce. unfold_macros. alike_auto.
Qed.

Lemma alike_startTelemetryPolling P P' :
  alike P P' startTelemetryPolling startTelemetryPolling.
Proof. unfold startTelemetryPolling. alike_auto. Qed.

Lemma alike_createApplication P P' e e' v :
  alike P P' (createApplication build drv e v) (createApplication build drv e' v).
Proof. unfold createApplication. unfold_macros. alike_auto. Qed.

Lemma alike_initializeTelemetry P P' d :
  alike P P' (initializeTelemetry build drv d) (initializeTelemetry build drv d).
Proof.
  unfold initializeTelemetry. unfold_macros.
  repeat lazymatch goal with
         | |- alike _ _ (setupNvmlTelemetry _ _) _ => apply alike_setupNvmlTelemetry
         | |- alike _ _ (pollTelemetry _ _) _ => apply alike_pollTelemetry
         | |- alike _ _ startTelemetryPolling _ => apply alike_startTelemetryPolling
         | |- _ => alike_step
         end.
Qed.

Lemma alike_createLogicalDevice P P' d :
  alike P P' (createLogicalDevice drv d) (createLogicalDevice drv d).
Proof. unfold createLogicalDevice. unfold_macros. alike_auto. Qed.

Lemma alike_validateMultisampling P P' d :
  alike P P' (validateMultisampling d) (validateMultisampling d).
Proof. unfold validateMultisampling. unfold_macros. alike_auto. Qed.

Lemma alike_bootstrapResources P P' d :
  alike P P' (bootstrapResources drv d) (bootstrapResources drv d).
Proof.
  unfold bootstrapResources, createDescriptorPool, createStagingBuffer,
    createDefaultCommandPool, createDefaultCommandBuffer, createDefaultFence.
  unfold_macros. alike_auto.
Qed.

Lemma alike_printDeviceInformation P P' :
  alike P P' printDeviceInformation printDeviceInformation.
Proof. unfold printDeviceInformation. unfold_macros. alike_auto. Qed.

(** The blocks after the negotiation end alike from such states, whatever
    list of instance extensions they are given. *)
Lemma alike_afterNegotiation P P' e e' v :
  alike P P' (afterNegotiation build drv e v) (afterNegotiation build drv e' v).
Proof.
  unfold afterNegotiation.
  repeat lazymatch goal with
         | |- alike _ _ (createApplication _ _ _ _) _ => apply alike_createApplication
         | |- alike _ _ (setupValidationLayers _) _ => apply alike_setupValidationLayers
         | |- alike _ _ (getPhysicalDevice _) _ => apply alike_getPhysicalDevice
         | |- alike _ _ (gatherDeviceExtensions _ _) _ =>
             apply alike_gatherDeviceExtensions
         | |- alike _ _ (populateCache _) _ => apply alike_populateCache
         | |- alike _ _ (initializeTelemetry _ _ _) _ => apply alike_initializeTelemetry
         | |- alike _ _ (createLogicalDevice _ _) _ => apply alike_createLogicalDevice
         | |- alike _ _ (validateMultisampling _) _ => apply alike_validateMultisampling
         | |- alike _ _ (bootstrapResources _ _) _ => apply alike_bootstrapResources
         | |- alike _ _ printDeviceInformation _ => apply alike_printDeviceInformation
         | |- _ => alike_step
         end.
Qed.

(** *** The downgrade *)

Lemma required_with_validation cfg :
  validationEnabled cfg = true ->
  getRequiredInstanceExtensions build drv cfg =
  {[VK_EXT_DEBUG_REPORT_EXTENSION_NAME]} ∪
  getRequiredInstanceExtensions build drv (set_validationEnabled false cfg).
Proof. destruct cfg as [di hl ve ms sb]. intros H. cbn in H. subst ve. reflexivity. Qed.

Lemma gatherValidationLayers_downgrade s :
  VK_LAYER_KHRONOS_validation ∉ availableLayers drv ->
  gatherValidationLayers drv s =
  (Returned [],
   if validationEnabled (config s)
   then set_config (set_validationEnabled false)
          (set_log (fun lg => lg ++ [Log.mkEntry Log.WARN warn_validation_layers []]) s)
   else s).
Proof.
  intros Hno. destruct s as [cfg sie sde drc pd c rt av lv lg].
  destruct cfg as [di hl ve ms sb].
  unfold gatherValidationLayers.
  rewrite (no_validation_layer_supported Hno).
  rewrite bool_decide_eq_false_2.
  2:{ unfold getRequiredValidationLayers. rewrite size_empty, union_empty_r_L, size_singleton.
      discriminate. }
  rewrite elements_empty.
  unfold JST_WARN, JST_LOG, when, mbind, M_bind, bind, gets, modify, ret.
  by destruct ve.
Qed.

Lemma unwind_alike {A} (r r' : Outcome A * State) :
  r.1 = r'.1 -> telemetryRuntime r.2 = telemetryRuntime r'.2 ->
  (unwind r).1 = (unwind r').1 /\ (unwind r).2 = r.2 /\ (unwind r').2 = r'.2.
Proof.
  destruct r as [[a|e|] s], r' as [[a'|e'|] s']; cbn [fst snd unwind];
    intros Ho Hrt; try discriminate Ho; try by repeat split.
  rewrite <- Hrt. destruct (bool_decide (is_Some (worker (telemetryRuntime s))));
    by repeat split.
Qed.

Lemma Vulkan_ctor_blocks s :
  Vulkan_ctor build drv s =
  (instanceExtensions ← gatherInstanceExtensions build drv;
   validationLayers ← gatherValidationLayers drv;
   afterNegotiation build drv instanceExtensions validationLayers) s.
Proof. reflexivity. Qed.

(** With every required extension available, a construction with the
    validation request ends as one without it: same outcome, same object
    apart from the log and the recorded instance extensions, and a log
    that has the warning of the downgrade as its one additional line. *)
Lemma construct_downgraded cfg :
  validationEnabled cfg = true ->
  VK_LAYER_KHRONOS_validation ∉ availableLayers drv ->
  (forall e, e ∈ getRequiredInstanceExtensions build drv cfg ->
             e ∈ availableInstanceExtensions drv) ->
  let off := set_validationEnabled false cfg in
  let optional := getOptionalInstanceExtensions build in
  let r := construct build drv cfg in
  let r' := construct build drv off in
  r.1 = r'.1 /\ sameObject r.2 r'.2 /\
  exists front back,
    log r'.2 = debug_lines (getRequiredInstanceExtensions build drv off) optional
               ++ front ++ back /\
    log r.2 = debug_lines (getRequiredInstanceExtensions build drv cfg) optional
              ++ front ++ [Log.mkEntry Log.WARN warn_validation_layers []] ++ back.
Proof.
  intros Hen Hno Hall off optional r r'.
  pose proof (required_with_validation cfg Hen) as Hreq. fold off in Hreq.
  set (required := getRequiredInstanceExtensions build drv cfg) in *.
  set (required' := getRequiredInstanceExtensions build drv off) in *.
  assert (Hall' : forall e, e ∈ required' -> e ∈ availableInstanceExtensions drv).
  { intros e He. apply Hall. rewrite Hreq. set_solver. }
  pose proof (gatherInstanceExtensions_supported build drv (initial cfg) eq_refl Hall) as Hg.
  pose proof (gatherInstanceExtensions_supported build drv (initial off) eq_refl Hall')
    as Hg'.
  cbn [config initial] in Hg, Hg'. fold required optional in Hg.
  fold required' optional in Hg'.
  set (supported := checkInstanceExtensionSupport drv required ∪
                    checkInstanceExtensionSupport drv optional) in *.
  set (supported' := checkInstanceExtensionSupport drv required' ∪
                     checkInstanceExtensionSupport drv optional) in *.
  assert (Hopt : forall e, e ∈ optional -> (e ∈ supported <-> e ∈ supported')).
  { intros e He. unfold supported, supported', checkInstanceExtensionSupport.
    rewrite !elem_of_union, !elem_of_supportedAmong. rewrite Hreq. clear -He.
    set_solver. }
  assert (Hne : forall e, e <> VK_EXT_DEBUG_REPORT_EXTENSION_NAME ->
                          (e ∈ supported <-> e ∈ supported')).
  { intros e He. unfold supported, supported', checkInstanceExtensionSupport.
    rewrite !elem_of_union, !elem_of_supportedAmong. rewrite Hreq. clear -He.
    set_solver. }
  assert (Hfilter :
    List.filter (fun e => negb (bool_decide (e ∈ supported))) (elements optional) =
    List.filter (fun e => negb (bool_decide (e ∈ supported'))) (elements optional)).
  { apply List.filter_ext_in. intros e He.
    apply list_elem_of_In, elem_of_elements in He. f_equal.
    apply bool_decide_ext, Hopt, He. }
  rewrite Hfilter in Hg.
  set (front := map (fun e => Log.mkEntry Log.WARN warn_optional_instance [e])
                    (List.filter (fun e => negb (bool_decide (e ∈ supported')))
                                 (elements optional))) in *.
  set (s1 := set_log (fun lg => lg ++ debug_lines required optional ++ front)
               (set_supportedInstanceExtensions (fun _ => supported) (initial cfg))) in *.
  set (s1' := set_log (fun lg => lg ++ debug_lines required' optional ++ front)
                (set_supportedInstanceExtensions (fun _ => supported') (initial off))) in *.
  set (s2 := set_config (set_validationEnabled false)
               (set_log (fun lg => lg ++ [Log.mkEntry Log.WARN warn_validation_layers []])
                        s1)).
  assert (Hbody : Vulkan_ctor build drv (initial cfg) =
                  afterNegotiation build drv (elements supported) [] s2).
  { rewrite Vulkan_ctor_blocks. rewrite (bind_returned _ _ _ _ _ Hg).
    rewrite (bind_returned _ _ _ _ _ (gatherValidationLayers_downgrade s1 Hno)).
    unfold s1 at 1. cbn [config set_log set_supportedInstanceExtensions initial].
    by rewrite Hen. }
  assert (Hbody' : Vulkan_ctor build drv (initial off) =
                   afterNegotiation build drv (elements supported') [] s1').
  { rewrite Vulkan_ctor_blocks. rewrite (bind_returned _ _ _ _ _ Hg').
    rewrite (bind_returned _ _ _ _ _ (gatherValidationLayers_downgrade s1' Hno)).
    unfold s1' at 1. cbn [config set_log set_supportedInstanceExtensions initial].
    unfold off. by destruct cfg. }
  assert (Hsame : sameRun (log s2) (log s1') s2 s1').
  { split; [|exists []; by rewrite !app_nil_r].
    unfold s2, s1, s1', sameObject.
    cbn [config supportedInstanceExtensions supportedDeviceExtensions debugReportCallback
         physicalDevice cache telemetryRuntime _isAvailable live log initial
         set_config set_log set_supportedInstanceExtensions].
    split; [reflexivity|]. split; [|by repeat split].
    intros e He. apply Hne. by destruct He as [-> | ->]. }
  destruct (alike_afterNegotiation (log s2) (log s1') (elements supported)
              (elements supported') [] s2 s1' Hsame) as [Ho [Hobj (back & Hl & Hl')]].
  rewrite <- Hbody in Ho, Hobj, Hl. rewrite <- Hbody' in Ho, Hobj, Hl'.
  destruct (unwind_alike _ _ Ho (proj1 (proj2 (proj2 (proj2 (proj2 (proj2 (proj2 Hobj))))))))
    as (Hu & Hs & Hs').
  unfold r, r', construct. rewrite Hs, Hs'.
  split; [exact Hu|]. split; [exact Hobj|].
  exists front, back. rewrite Hl, Hl'. unfold s2, s1, s1'.
  cbn [log set_config set_log set_supportedInstanceExtensions initial app].
  by rewrite <- !app_assoc.
Qed.

(** With validation off, no layer is handed to the instance and the
    callback block does nothing. *)
Lemma setupValidationLayers_off s :
  validationEnabled (config s) = false ->
  setupValidationLayers drv s = (Returned tt, s).
Proof.
  destruct s as [c sie sde drc pd ca rt av lv lg]. destruct c as [di hl ve ms sb].
  cbn. by intros ->.
Qed.

Lemma createApplication_off e v s :
  validationEnabled (config s) = false ->
  (createApplication build drv e v s).1 = Returned [] \/
  (createApplication build drv e v s).1 = Thrown (Jetstream Result_FATAL).
Proof.
  destruct s as [c sie sde drc pd ca rt av lv lg]. destruct c as [di hl ve ms sb].
  cbn [config validationEnabled]. intros ->.
  unfold createApplication, JST_VK_CHECK_THROW, creating, acquire, JST_DEBUG, JST_FATAL,
    JST_LOG, when, throw, mbind, M_bind, bind, gets, modify, ret.
  cbn [supportedInstanceExtensions config validationEnabled].
  destruct (defined_VK_KHR_portability_enumeration build &&
            bool_decide (VK_KHR_PORTABILITY_ENUMERATION_EXTENSION_NAME ∈ sie));
    destruct (bool_decide (vkCreateInstance drv = VK_SUCCESS)) eqn:E;
    cbn; rewrite ?E; cbn; auto.
Qed.

(** A required instance extension that is not available ends the
    construction before anything is created. *)
Lemma construct_refused cfg :
  (exists e, e ∈ getRequiredInstanceExtensions build drv cfg /\
             e ∉ availableInstanceExtensions drv) ->
  (construct build drv cfg).1 = Thrown (Jetstream Result_FATAL) /\
  live (construct build drv cfg).2 = [].
Proof.
  intros Hmissing.
  destruct (gatherInstanceExtensions_missing build drv (initial cfg) eq_refl Hmissing)
    as (unsupported & _ & Hg).
  unfold construct, Vulkan_ctor. rewrite (bind_thrown _ _ _ _ _ Hg). by split.
Qed.

(** C5 (as the code has it). When validation is requested and the
    validation layer is not installed, the validation block does not fail:
    it returns with no layer to enable, turns [validationEnabled] off,
    holds the same native resources, and adds exactly one line to the log,
    the warning that validation is being disabled; the blocks that follow
    find validation off: the instance is created with no layer and the
    debug callback block does nothing.  The request has made the debug
    report extension a required instance extension all the same: when the
    driver lacks that extension the constructor throws the fatal result
    with nothing created.  When the driver has it, the construction has
    the outcome of a construction without the request and holds the same
    resources; and when every required extension is available, the object
    is the same apart from the log and the recorded instance extensions,
    and the log differs by its first line, which lists the required
    extensions, and by the one warning of the downgrade. *)
Theorem validation_unavailable_is_downgraded_with_warning (cfg : Config) :
  validationEnabled cfg = true ->
  VK_LAYER_KHRONOS_validation ∉ availableLayers drv ->
  let off := set_validationEnabled false cfg in
  let required := getRequiredInstanceExtensions build drv cfg in
  let optional := getOptionalInstanceExtensions build in
  let available := availableInstanceExtensions drv in
  let warning := Log.mkEntry Log.WARN warn_validation_layers [] in
  let r := construct build drv cfg in
  let r' := construct build drv off in
  (* the validation block *)
  (forall s, validationEnabled (config s) = true ->
     let g := gatherValidationLayers drv s in
     g.1 = Returned [] /\
     g.2 = set_config (set_validationEnabled false)
             (set_log (fun lg => lg ++ [warning]) s) /\
     validationEnabled (config g.2) = false /\
     log g.2 = log s ++ [warning] /\
     live g.2 = live s /\
     setupValidationLayers drv g.2 = (Returned tt, g.2)) /\
  (forall s, validationEnabled (config s) = false ->
     setupValidationLayers drv s = (Returned tt, s) /\
     forall instanceExtensions validationLayers,
       let a := createApplication build drv instanceExtensions validationLayers s in
       a.1 = Returned [] \/ a.1 = Thrown (Jetstream Result_FATAL)) /\
  (* the request makes the debug report extension a required one *)
  required = {[VK_EXT_DEBUG_REPORT_EXTENSION_NAME]} ∪
             getRequiredInstanceExtensions build drv off /\
  (VK_EXT_DEBUG_REPORT_EXTENSION_NAME ∉ available ->
   r.1 = Thrown (Jetstream Result_FATAL) /\ live r.2 = []) /\
  (* with that extension, the construction ends as without the request *)
  (VK_EXT_DEBUG_REPORT_EXTENSION_NAME ∈ available ->
   r.1 = r'.1 /\ live r.2 = live r'.2) /\
  ((forall e, e ∈ required -> e ∈ available) ->
   r.1 = r'.1 /\ sameObject r.2 r'.2 /\
   exists front back,
     log r'.2 = debug_lines (getRequiredInstanceExtensions build drv off) optional
                ++ front ++ back /\
     log r.2 = debug_lines required optional ++ front ++ [warning] ++ back).
Proof.
  intros Hen Hno off required optional available warning r r'.
  pose proof (required_with_validation cfg Hen) as Hreq. fold off required in Hreq.
  split; [|split; [|split; [exact Hreq|split; [|split]]]].
  2:{ intros s Hs. split; [by apply setupValidationLayers_off|].
      intros e v. by apply createApplication_off. }
  - intros s Hs g. subst g. rewrite (gatherValidationLayers_downgrade s Hno), Hs.
    cbn [fst snd].
    destruct s as [c sie sde drc pd ca rt av lv lg]. destruct c as [di hl ve ms sb].
    cbn in Hs. subst ve. by repeat split.
  - intros Hmissing. apply construct_refused.
    exists VK_EXT_DEBUG_REPORT_EXTENSION_NAME. split; [|exact Hmissing].
    fold required. rewrite Hreq. set_solver.
  - intros Hdebug.
    destruct (decide (set_Forall (fun e => e ∈ available) required)) as [Hall|Hnot].
    + destruct (construct_downgraded cfg Hen Hno Hall) as (Ho & Hobj & _).
      split; [exact Ho|]. apply Hobj.
    + apply not_set_Forall_Exists in Hnot; [|apply _].
      destruct Hnot as (e & He & Hav). cbn in Hav.
      assert (He' : e ∈ getRequiredInstanceExtensions build drv off).
      { rewrite Hreq in He. apply elem_of_union in He as [He|He]; [|exact He].
        apply elem_of_singleton in He. subst e. contradiction. }
      destruct (construct_refused cfg) as [H1 H2]; [by exists e|].
      destruct (construct_refused off) as [H1' H2']; [by exists e|].
      unfold r, r'. by rewrite H1, H1', H2, H2'.
  - intros Hall. apply (construct_downgraded cfg Hen Hno Hall).
Qed.

End Validation.

(** ** Device selection *)

Section Selection.

Import Vulkan.

Variable drv : Driver.

Lemma collectValidPhysicalDevices_spec cfg candidates acc s :
  collectValidPhysicalDevices cfg candidates acc s =
  (Returned (acc ++ List.filter (validCandidate cfg) candidates),
   set_log (fun lg => lg ++ map (candidate_line cfg) candidates) s).
Proof.
  revert acc s. induction candidates as [|d l IH]; intros acc s.
  - destruct s. simpl. unfold ret. by rewrite !app_nil_r.
  - cbn [collectValidPhysicalDevices].
    unfold JST_DEBUG, JST_LOG, mbind, M_bind, bind, modify.
    rewrite IH. destruct s. cbn [set_log map List.filter].
    fold (extensionCheckOf cfg d). fold (queueFamilyCheckOf d).
    fold (candidate_line cfg d). unfold validCandidate at 2.
    destruct (extensionCheckOf cfg d && queueFamilyCheckOf d);
      rewrite <- ?app_assoc; reflexivity.
Qed.

(** A candidate passes the filters exactly when each required device
    extension is available on it and the three queue roles are present. *)
Lemma validCandidate_spec cfg d :
  validCandidate cfg d = true <->
  (forall e, e ∈ getRequiredDeviceExtensions cfg -> e ∈ availableDeviceExtensions d) /\
  is_Some (graphicFamily (queueFamilies d)) /\
  is_Some (computeFamily (queueFamilies d)) /\
  is_Some (presentFamily (queueFamilies d)).
Proof.
  unfold validCandidate, extensionCheckOf, queueFamilyCheckOf, isComplete,
    FindQueueFamilies, checkDeviceExtensionSupport.
  rewrite !andb_true_iff, !bool_decide_eq_true, supportedAmong_size. tauto.
Qed.

Lemma filter_length_le {A} (P : A -> bool) (l : list A) :
  length (List.filter P l) <= length l.
Proof. induction l as [|a l IH]; simpl; [lia|]. destruct (P a); simpl; lia. Qed.

(** A failing enumeration call is fatal as well. *)
Lemma getPhysicalDevice_enumeration_failure (s : State) :
  vkEnumeratePhysicalDevices drv <> VK_SUCCESS ->
  let r := getPhysicalDevice drv s in
  r.1 = Thrown (Jetstream Result_FATAL) /\
  physicalDevice r.2 = physicalDevice s /\ live r.2 = live s.
Proof.
  intros Henum r. subst r. destruct s as [cfg sie sde drc pd c rt av lv lg].
  unfold getPhysicalDevice, JST_VK_CHECK_THROW, JST_FATAL, JST_LOG, throw,
    mbind, M_bind, bind, modify, ret.
  rewrite bool_decide_eq_false_2 by assumption. by repeat split.
Qed.

(** C2. Once the devices are enumerated, selection throws the fatal
    result, leaving the object without a physical device and the held
    resources as they were, exactly when no device was enumerated, or no
    candidate passes both filters, or [deviceId] is not an index of the
    enumerated list, or it is not an index of the list of valid candidates;
    otherwise it returns, and stores, the element at index [deviceId] of the
    list of valid candidates, which keeps the enumeration order. *)
Theorem getPhysicalDevice_selects_by_index (s : State) :
  vkEnumeratePhysicalDevices drv = VK_SUCCESS ->
  let devices := physicalDevices drv in
  let valid := List.filter (validCandidate (config s)) devices in
  let id := N.to_nat (deviceId (config s)) in
  let r := getPhysicalDevice drv s in
  (devices = [] \/ valid = [] \/ length devices <= id \/ length valid <= id ->
   r.1 = Thrown (Jetstream Result_FATAL) /\
   physicalDevice r.2 = physicalDevice s /\ live r.2 = live s) /\
  (~ (devices = [] \/ valid = [] \/ length devices <= id \/ length valid <= id) ->
   exists d, valid !! id = Some d /\ r.1 = Returned d /\
             physicalDevice r.2 = Some d /\ live r.2 = live s).
Proof.
  destruct s as [cfg sie sde drc pd c rt av lv lg].
  intros Henum. cbv zeta. cbn [config physicalDevice live].
  set (devices := physicalDevices drv).
  set (valid := List.filter (validCandidate cfg) devices).
  set (id := N.to_nat (deviceId cfg)).
  set (r := getPhysicalDevice drv _).
  pose proof (filter_length_le (validCandidate cfg) devices) as Hle.
  fold valid in Hle.
  set (lg' := lg ++ map (candidate_line cfg) devices).
  set (st := fun (p : option VkPhysicalDevice) (l : list Log.Entry) =>
               mkState cfg sie sde drc p c rt av lv l).
  assert (Hr : r =
    if (N.of_nat (length devices) =? 0)%N
    then (Thrown (Jetstream Result_FATAL),
          st pd (lg ++ [Log.mkEntry Log.FATAL "[VULKAN] No physical devices found." []]))
    else if (N.of_nat (length devices) <=? deviceId cfg)%N
    then (Thrown (Jetstream Result_FATAL),
          st pd (lg ++ [Log.mkEntry Log.FATAL
                          "[VULKAN] Can't find desired device ID ({})." []]))
    else if (N.of_nat (length valid) =? 0)%N
    then (Thrown (Jetstream Result_FATAL),
          st pd (lg' ++ [Log.mkEntry Log.FATAL
                           "[VULKAN] No valid physical devices found." []]))
    else if (N.of_nat (length valid) <=? deviceId cfg)%N
    then (Thrown (Jetstream Result_FATAL),
          st pd (lg' ++ [Log.mkEntry Log.FATAL
                           "[VULKAN] Can't find desired device ID." []]))
    else match valid !! id with
         | Some d => (Returned d, st (Some d) lg')
         | None => (Terminated, st pd lg')
         end).
  { unfold r, getPhysicalDevice, JST_VK_CHECK_THROW, JST_CHECK_THROW, JST_FATAL,
      JST_LOG, when, throw, terminate, mbind, M_bind, bind, gets, modify, ret.
    rewrite Henum, bool_decide_eq_true_2 by reflexivity.
    fold devices. cbn [config set_log].
    destruct (N.of_nat (length devices) =? 0)%N; [reflexivity|cbn [config set_log]].
    destruct (N.of_nat (length devices) <=? deviceId cfg)%N;
      [reflexivity|cbn [config set_log]].
    rewrite collectValidPhysicalDevices_spec. cbn [app set_log]. fold valid. fold lg'.
    destruct (N.of_nat (length valid) =? 0)%N; [reflexivity|cbn [config set_log]].
    destruct (N.of_nat (length valid) <=? deviceId cfg)%N;
      [reflexivity|cbn [config set_log]].
    fold id. destruct (valid !! id); reflexivity. }
  rewrite Hr. clear Hr. split.
  - intros Hfail.
    destruct (N.eqb_spec (N.of_nat (length devices)) 0); [done|].
    destruct (N.leb_spec (N.of_nat (length devices)) (deviceId cfg)); [done|].
    destruct (N.eqb_spec (N.of_nat (length valid)) 0); [done|].
    destruct (N.leb_spec (N.of_nat (length valid)) (deviceId cfg)); [done|].
    exfalso. destruct Hfail as [Hf|[Hf|[Hf|Hf]]].
    + rewrite Hf in *. simpl in *. lia.
    + rewrite Hf in *. simpl in *. lia.
    + unfold id in Hf. lia.
    + unfold id in Hf. lia.
  - intros Hok.
    assert (id < length valid) as Hlt by (unfold id in *; lia).
    destruct (N.eqb_spec (N.of_nat (length devices)) 0); [lia|].
    destruct (N.leb_spec (N.of_nat (length devices)) (deviceId cfg));
      [unfold id in *; lia|].
    destruct (N.eqb_spec (N.of_nat (length valid)) 0); [lia|].
    destruct (N.leb_spec (N.of_nat (length valid)) (deviceId cfg));
      [unfold id in *; lia|].
    destruct (lookup_lt_is_Some_2 valid id Hlt) as [d Hd].
    exists d. rewrite Hd. done.
Qed.

End Selection.

(** ** Resource bootstrap *)

Section Bootstrap.

Import Vulkan.

Variable drv : Driver.

Lemma bind_returns {A B} (m : M A) (k : A -> M B) s b s' :
  (m ≫= k) s = (Returned b, s') ->
  exists a s1, m s = (Returned a, s1) /\ k a s1 = (Returned b, s').
Proof.
  unfold mbind, M_bind, bind. destruct (m s) as [[a|e|] s1]; intros H;
    [by exists a, s1|discriminate H|discriminate H].
Qed.

(** The bootstrap as a whole: its result, and the state it leaves, which
    differs from the state it started in by the resources acquired and the
    line logged only. *)
Lemma bootstrapResources_result (d : VkPhysicalDevice) (s : State) :
  is_Some (computeFamily (queueFamilies d)) ->
  bootstrapResources drv d s =
    (if allSucceed (bootstrapCalls drv) then Returned tt
     else Thrown (Jetstream Result_FATAL),
     set_log (fun lg => lg ++ loggedAtFailure (bootstrapCalls drv) bootstrapFailureLines)
       (set_live (fun l => l ++ acquiredBeforeFailure (bootstrapCalls drv)) s)).
Proof.
  intros [family Hfamily].
  destruct s as [cfg sie sde drc pd c rt av lv lg].
  unfold bootstrapResources, createDescriptorPool, createStagingBuffer,
    createDefaultCommandPool, createDefaultCommandBuffer, createDefaultFence,
    FindQueueFamilies, bootstrapCalls, bootstrapFailureLines, allSucceed.
  rewrite Hfamily.
  unfold JST_VK_CHECK_THROW, creating, acquire, value, JST_FATAL, JST_ERROR, JST_LOG,
    when, throw, mbind, M_bind, bind, gets, modify, ret.
  cbn [forallb acquiredBeforeFailure loggedAtFailure fst].
  destruct (bool_decide (vkCreateDescriptorPool drv = VK_SUCCESS)) eqn:E1;
    cbn; rewrite ?E1; cbn; [|by rewrite ?app_nil_r].
  destruct (bool_decide (vkCreateBuffer drv = VK_SUCCESS)) eqn:E2;
    cbn; rewrite ?E2; cbn; [|by rewrite ?app_nil_r].
  destruct (bool_decide (vkAllocateMemory drv = VK_SUCCESS)) eqn:E3;
    cbn; rewrite ?E3; cbn; [|by rewrite <- ?app_assoc].
  destruct (bool_decide (vkBindBufferMemory drv = VK_SUCCESS)) eqn:E4;
    cbn; rewrite ?E4; cbn; [|by rewrite <- ?app_assoc].
  destruct (bool_decide (vkMapMemory drv = VK_SUCCESS)) eqn:E5;
    cbn; rewrite ?E5; cbn; [|by rewrite <- ?app_assoc].
  destruct (bool_decide (vkCreateCommandPool drv = VK_SUCCESS)) eqn:E6;
    cbn; rewrite ?E6; cbn; [|by rewrite <- ?app_assoc].
  destruct (bool_decide (vkAllocateCommandBuffers drv = VK_SUCCESS)) eqn:E7;
    cbn; rewrite ?E7; cbn; [|by rewrite <- ?app_assoc].
  destruct (bool_decide (vkCreateFence drv = VK_SUCCESS)) eqn:E8;
    cbn; rewrite ?E8; cbn; by rewrite <- ?app_assoc, ?app_nil_r.
Qed.

(** Without a compute family the bootstrap does not return either. *)
Lemma bootstrapResources_returns (d : VkPhysicalDevice) (s s' : State) :
  bootstrapResources drv d s = (Returned tt, s') ->
  allSucceed (bootstrapCalls drv) = true.
Proof.
  destruct (computeFamily (queueFamilies d)) as [family|] eqn:Hfamily.
  - rewrite bootstrapResources_result by (rewrite Hfamily; eauto).
    by destruct (allSucceed (bootstrapCalls drv)).
  - unfold bootstrapResources. intros H.
    apply bind_returns in H as (_ & s1 & _ & H).
    apply bind_returns in H as (_ & s2 & _ & H).
    apply bind_returns in H as (a & s3 & H & _).
    unfold createDefaultCommandPool, FindQueueFamilies in H. rewrite Hfamily in H.
    discriminate H.
Qed.

(** C1 (as the code has it). The resource bootstrap stops at the first
    call that fails: it logs the line of that call, a fatal or an error
    line, and throws the fatal result at once.  It makes no release call on
    that path: whatever was held before the bootstrap is still held,
    followed by the resources of the calls that succeeded before the
    failing one, and nothing else of the state changes; whatever follows
    the bootstrap is skipped.  The constructor has no handler, so the
    exception unwinds it: the caller sees the fatal result only when no
    telemetry worker was started before; when one was, the worker thread
    is still joinable and the program ends ([std::terminate]) with the
    resources held.  The bootstrap returns normally exactly when every
    call succeeds, holding all of them and having logged nothing, and the
    constructor returns only then. *)
Theorem bootstrapResources_keeps_acquired (d : VkPhysicalDevice) (s : State) :
  is_Some (computeFamily (queueFamilies d)) ->
  let r := bootstrapResources drv d s in
  let calls := bootstrapCalls drv in
  r.1 = (if allSucceed calls then Returned tt
         else Thrown (Jetstream Result_FATAL)) /\
  live r.2 = live s ++ acquiredBeforeFailure calls /\
  log r.2 = log s ++ loggedAtFailure calls bootstrapFailureLines /\
  (if allSucceed calls then loggedAtFailure calls bootstrapFailureLines = []
   else exists line,
          loggedAtFailure calls bootstrapFailureLines = [line] /\
          line ∈ bootstrapFailureLines /\
          (Log.level line = Log.FATAL \/ Log.level line = Log.ERROR)) /\
  r.2 = set_log (fun lg => lg ++ loggedAtFailure calls bootstrapFailureLines)
          (set_live (fun l => l ++ acquiredBeforeFailure calls) s) /\
  (unwind r).1 =
    (if allSucceed calls then Returned tt
     else if bool_decide (is_Some (worker (telemetryRuntime s))) then Terminated
          else Thrown (Jetstream Result_FATAL)) /\
  (unwind r).2 = r.2 /\
  (forall B (k : unit -> M B),
     allSucceed calls = false ->
     (bootstrapResources drv d ≫= k) s = (Thrown (Jetstream Result_FATAL), r.2)) /\
  (forall build cfg,
     (construct build drv cfg).1 = Returned tt -> allSucceed calls = true).
Proof.
  intros Hfamily r calls. subst r calls.
  rewrite (bootstrapResources_result d s Hfamily). cbn [fst snd].
  split; [reflexivity|]. split; [by destruct s|]. split; [by destruct s|].
  split.
  { unfold bootstrapCalls, bootstrapFailureLines, allSucceed.
    cbn [forallb loggedAtFailure fst].
    repeat (match goal with
            | |- context [bool_decide (?x = VK_SUCCESS)] =>
                destruct (bool_decide (x = VK_SUCCESS)); cbn [andb]
            end;
            [|eexists; split; [reflexivity|];
              split; [rewrite list_elem_of_In; cbn; tauto|cbn; tauto]]).
    reflexivity. }
  split; [reflexivity|]. split.
  { destruct (allSucceed (bootstrapCalls drv)); [reflexivity|]. cbn [unwind].
    destruct s as [cfg sie sde drc pd c rt av lv lg]. cbn.
    by destruct (bool_decide (is_Some (worker rt))). }
  split.
  { destruct (allSucceed (bootstrapCalls drv)); [reflexivity|]. cbn [unwind].
    match goal with |- context [bool_decide ?P] => by destruct (bool_decide P) end. }
  split.
  { intros B k Hfail. apply bind_thrown.
    rewrite (bootstrapResources_result d s Hfamily). by rewrite Hfail. }
  intros build cfg. unfold construct. intros H.
  destruct (Vulkan_ctor build drv (initial cfg)) as [[[]|e|] s9] eqn:Hbody;
    cbn [unwind fst] in H;
    [|by destruct (bool_decide (is_Some (worker (telemetryRuntime s9))))|discriminate H].
  clear H. unfold Vulkan_ctor in Hbody.
  do 10 (apply bind_returns in Hbody as (? & ? & _ & Hbody)).
  apply bind_returns in Hbody as ([] & ? & Hbody & _).
  by apply bootstrapResources_returns in Hbody.
Qed.

End Bootstrap.

(** ** The native scheduler *)

Section NativeScheduler.

Import Vulkan.

Variable build : Build.



Lemma telemetryRuntime_set_worker w (s : State) :
  telemetryRuntime (set_telemetryRuntime (set_worker w) s) =
  mkTelemetryRuntime (running (telemetryRuntime s))
                     (providerErrorLogged (telemetryRuntime s)) w.
Proof. destruct s as [cfg sie sde drc pd c rt av lv lg]. by destruct rt. Qed.










End NativeScheduler.

(** ** The cooperative scheduler *)

Section CooperativeScheduler.

Import WebGPU.

Lemma refreshTelemetry_frame q s :
  pending (refreshTelemetry q s) = pending s /\
  telemetryActive (refreshTelemetry q s) = telemetryActive s /\
  polls (refreshTelemetry q s) = S (polls s).
Proof.
  destruct s as [lp th pt pn act lw tw lg pe po], q as [h b].
  unfold refreshTelemetry. simpl.
  destruct (0 <=? h)%Z, (0 <=? b)%Z, lw, tw; simpl; auto.
Qed.





End CooperativeScheduler.

Section SchedulerStateMachine.

Variable build : Vulkan.Build.


End SchedulerStateMachine.

(** * Worked examples *)

Section Examples.

Import Vulkan Fixtures.
Local Open Scope Z_scope.

(** On [good_driver] the candidates passing both filters are A, C and E. *)
Example valid_candidates :
  List.filter (validCandidate plain_config) (physicalDevices good_driver)
  = [gpu_a; gpu_c; gpu_e].
Proof. vm_compute. reflexivity. Qed.

(** A full construction followed by destruction holds nothing. *)
Example construct_then_destroy :
  let r := construct linux_build good_driver plain_config in
  r.1 = Returned tt /\ _isAvailable r.2 = true /\
  live (Vulkan_dtor linux_build r.2).2 = [].
Proof. vm_compute. repeat split; reflexivity. Qed.

(** The poll made by [initializeTelemetry] comes before the start of the
    session: its warning is in the log when the constructor returns, the
    start has cleared the flag again, and the first poll of the session
    reports the failure once more; later polls of the session are silent. *)
Example warning_before_the_session :
  let r := construct linux_build nvidia_driver (config_with_device 0) in
  r.1 = Returned tt /\
  telemetryProviderType (cache r.2) = Telemetry.NVML /\
  telemetryRuntime r.2 = mkTelemetryRuntime true false (Some AtLoopTest) /\
  Log.warnings_saying warn_nvml_power_state (log r.2) = 1%nat /\
  Log.warnings_saying warn_nvml_power_state
    (log (session linux_build [nvml_failing; nvml_failing; nvml_failing] r.2).2) = 2%nat.
Proof. vm_compute. repeat split; reflexivity. Qed.

Lemma updateTelemetryFromNvml_lowPowerStatus_witness :
  lowPowerStatus (cache (updateTelemetryFromNvml linux_build p8_under_load nvml_state).2)
  = Telemetry.IsLowPowerFromPowerBudget 40000 60000 30 /\
  Telemetry.IsLowPowerFromPState 8 = true /\
  Telemetry.IsLowPowerFromPowerBudget 40000 60000 30 = false.
Proof.
  split; [|split; reflexivity].
  apply (updateTelemetryFromNvml_lowPowerStatus linux_build p8_under_load nvml_state);
    [reflexivity | vm_compute; lia | reflexivity | reflexivity].
Defined.

(** Two polls with the vendor library down, after a start: the first
    reports the power state, the first query to fail, and nothing else is
    logged; the snapshot is as it was. *)
Lemma provider_errors_logged_once_and_local_witness :
  log (session linux_build [nvml_down; nvml_down]
         (startTelemetryPolling nvml_state).2).2 =
    [Log.mkEntry Log.WARN warn_nvml_power_state []] /\
  getThermalState
    (cache (updateTelemetryFromNvml linux_build (nvml nvml_down) nvml_state).2)
  = getThermalState (cache nvml_state) /\
  WebGPU.lowPowerStatus (WebGPU.refreshTelemetry no_hints WebGPU.constructed)
  = WebGPU.lowPowerStatus WebGPU.constructed.
Proof.
  destruct (provider_errors_logged_once_and_local linux_build [nvml_down; nvml_down]
              nvml_state [no_hints; no_hints] WebGPU.constructed)
    as (_ & _ & _ & _ & _ & Hstart & _ & _ & _ & Hnvml & _ & Hweb).
  split; [|split].
  - destruct Hstart as [_ Hl]; [reflexivity|reflexivity|]. exact Hl.
  - apply (Hnvml (nvml nvml_down)); [reflexivity | vm_compute; lia | vm_compute; lia].
  - apply (Hweb no_hints). vm_compute. reflexivity.
Defined.

(** One warning per kind of failure and per session is not what the
    native side does.  In a session in which the power state fails in the
    first poll, the temperature query fails for the first time in the
    second poll and no warning is logged for it: the one flag was set by
    the other failure.  And one backend logs the same warning twice: the
    poll made during construction reports the power state, the start that
    follows clears the flag, and the first poll of the worker reports the
    power state again. *)
Lemma provider_warnings_share_one_flag :
  (let s := (startTelemetryPolling nvml_state).2 in
   let s' := (session linux_build [power_state_failing; temperature_failing] s).2 in
   providerErrorLogged (telemetryRuntime s) = false /\
   firstFailure linux_build temperature_failing s = Some warn_nvml_temperature /\
   Log.warnings_saying warn_nvml_temperature (log s') = 0%nat /\
   log s' = [Log.mkEntry Log.WARN warn_nvml_power_state []]) /\
  (let r := construct linux_build nvidia_driver (config_with_device 0) in
   r.1 = Returned tt /\
   Log.warnings_saying warn_nvml_power_state (log r.2) = 1%nat /\
   Log.warnings_saying warn_nvml_power_state
     (log (pollTelemetry linux_build nvml_failing r.2).2) = 2%nat).
Proof. vm_compute. repeat split; reflexivity. Qed.


Lemma initializeTelemetry_no_provider_witness :
  let r := (populateCache gpu_a;; initializeTelemetry linux_build good_driver gpu_a)
             (initial plain_config) in
  lowPowerStatus (cache r.2) = false /\ getThermalState (cache r.2) = 0 /\
  telemetryRuntime r.2 = telemetryRuntime_initial.
Proof.
  destruct (initializeTelemetry_no_provider linux_build good_driver gpu_a
              (initial plain_config))
    as (_ & Hl & Ht & _ & _ & Hrt & _).
  - right. left. vm_compute. lia.
  - right. reflexivity.
  - split; [exact Hl|]. split; [exact Ht|exact Hrt].
Defined.

(** With three valid candidates, index 1 selects the second of them;
    index 4 is within the five enumerated devices but not within the valid
    ones; index 5 is outside both. *)
Lemma getPhysicalDevice_selects_by_index_witness :
  (getPhysicalDevice good_driver (initial (config_with_device 1))).1 = Returned gpu_c /\
  (getPhysicalDevice good_driver (initial (config_with_device 4))).1
    = Thrown (Jetstream Result_FATAL) /\
  (getPhysicalDevice good_driver (initial (config_with_device 5))).1
    = Thrown (Jetstream Result_FATAL).
Proof.
  split; [|split].
  - destruct (getPhysicalDevice_selects_by_index good_driver
                (initial (config_with_device 1)) eq_refl) as [_ Hsel].
    destruct Hsel as (d & Hd & Hr & _).
    + vm_compute. intros [H|[H|[H|H]]]; try discriminate; lia.
    + vm_compute in Hd. injection Hd as <-. exact Hr.
  - apply (getPhysicalDevice_selects_by_index good_driver
             (initial (config_with_device 4)) eq_refl).
    right. right. right. vm_compute. lia.
  - apply (getPhysicalDevice_selects_by_index good_driver
             (initial (config_with_device 5)) eq_refl).
    right. right. left. vm_compute. lia.
Defined.

(** Without the XCB surface extension the constructor fails before the
    instance exists; with it, the two absent optional extensions are
    warned about once each. *)
Lemma instance_capability_negotiation_witness :
  (let r := construct linux_build
              (with_instance_extensions ["VK_KHR_surface"] good_driver) plain_config in
   r.1 = Thrown (Jetstream Result_FATAL) /\ live r.2 = []) /\
  (let g := gatherInstanceExtensions linux_build good_driver (initial plain_config) in
   Log.occurrences
     (Log.mkEntry Log.WARN warn_optional_instance ["VK_EXT_tooling_info"]) (log g.2) = 1%nat /\
   Log.occurrences
     (Log.mkEntry Log.WARN warn_optional_instance ["VK_KHR_surface"]) (log g.2) = 0%nat /\
   Log.warnings (log g.2) = 2%nat).
Proof.
  split.
  - destruct (instance_capability_negotiation linux_build
                (with_instance_extensions ["VK_KHR_surface"] good_driver) plain_config)
      as [Hfail _].
    destruct Hfail as (Hr & Hl & _); [|by split].
    exists "VK_KHR_xcb_surface". split; [cbn; set_solver|].
    vm_compute. intros H. apply list_elem_of_In in H. simpl in H.
    destruct H as [H|[]]. discriminate H.
  - destruct (instance_capability_negotiation linux_build good_driver plain_config)
      as [_ Hok].
    destruct Hok as (_ & Hocc & Hw & _).
    + intros e He. cbn in He. cbn. set_solver.
    + split; [|split].
      * rewrite Hocc. vm_compute. reflexivity.
      * rewrite Hocc. vm_compute. reflexivity.
      * rewrite Hw. vm_compute. reflexivity.
Defined.

(** A silent downgrade that never fails the construction is not what the
    code does.  On [good_driver] the construction with validation
    requested returns, but not silently: its log holds the warning of the
    downgrade.  And on a driver that lacks the debug report extension as
    well, the same request makes the constructor throw the fatal result,
    where the construction without the request returns. *)
Lemma validation_downgrade_is_logged :
  validationEnabled debug_config = true /\
  checkValidationLayerSupport good_driver getRequiredValidationLayers = ∅ /\
  (let r := construct linux_build good_driver debug_config in
   r.1 = Returned tt /\
   validationEnabled (config r.2) = false /\
   Log.warnings_saying warn_validation_layers (log r.2) = 1%nat /\
   log (gatherValidationLayers good_driver (initial debug_config)).2
     <> log (initial debug_config)) /\
  (let drv := with_instance_extensions ["VK_KHR_surface"; "VK_KHR_xcb_surface"]
                                       good_driver in
   checkValidationLayerSupport drv getRequiredValidationLayers = ∅ /\
   (construct linux_build drv debug_config).1 = Thrown (Jetstream Result_FATAL) /\
   (construct linux_build drv (set_validationEnabled false debug_config)).1
     = Returned tt).
Proof.
  split; [reflexivity|]. split; [by vm_compute|]. split.
  - vm_compute. repeat split; try reflexivity. discriminate.
  - split; [by vm_compute|]. vm_compute. by split.
Qed.

(** On [good_driver], which has the debug report extension and no
    validation layer: the validation block returns with the warning, and
    the construction ends as it does without the request. *)
Lemma validation_unavailable_is_downgraded_with_warning_witness :
  let g := gatherValidationLayers good_driver (initial debug_config) in
  let r := construct linux_build good_driver debug_config in
  let r' := construct linux_build good_driver
              (set_validationEnabled false debug_config) in
  g.1 = Returned [] /\
  validationEnabled (config g.2) = false /\
  log g.2 = [Log.mkEntry Log.WARN warn_validation_layers []] /\
  r.1 = r'.1 /\ live r.2 = live r'.2.
Proof.
  destruct (validation_unavailable_is_downgraded_with_warning linux_build good_driver
              debug_config) as (Hblock & _ & _ & _ & Hsame & _).
  - reflexivity.
  - vm_compute. intros H. apply list_elem_of_In in H. destruct H.
  - destruct (Hblock (initial debug_config) eq_refl) as (Hr & _ & Hv & Hl & _).
    destruct Hsame as [Ho Hlive].
    { apply list_elem_of_In. vm_compute. tauto. }
    split; [exact Hr|]. split; [exact Hv|]. split; [exact Hl|]. by split.
Defined.

(** The fence cannot be created.  Without a telemetry provider the
    constructor reports the fatal result while the instance, the device and
    the seven resources acquired before the fence are all still held.  With
    the vendor library committed as provider, the worker thread has been
    started before the bootstrap: the program ends instead, holding the
    vendor library as well. *)
Lemma bootstrap_failure_releases_nothing :
  let r := construct linux_build (with_fence (-1) good_driver) plain_config in
  let r' := construct linux_build (with_fence (-1) nvidia_driver)
              (config_with_device 0) in
  (r.1 = Thrown (Jetstream Result_FATAL) /\
   live r.2 = [RInstance; RDevice; RDescriptorPool; RStagingBuffer;
               RStagingBufferMemory; RStagingBufferMapping;
               RDefaultCommandPool; RDefaultCommandBuffer] /\
   live r.2 <> []) /\
  (r'.1 = Terminated /\
   worker (telemetryRuntime r'.2) = Some AtLoopTest /\
   live r'.2 = [RInstance; RNvmlLibrary; RDevice; RDescriptorPool; RStagingBuffer;
                RStagingBufferMemory; RStagingBufferMapping;
                RDefaultCommandPool; RDefaultCommandBuffer] /\
   Log.at_level Log.ERROR (log r'.2) =
     [Log.mkEntry Log.ERROR "[VULKAN] Failed to create default fence." []]).
Proof. vm_compute. repeat split; try reflexivity. discriminate. Qed.

Lemma bootstrapResources_keeps_acquired_witness :
  let r := bootstrapResources (with_buffer (-1) good_driver) gpu_c
             (initial plain_config) in
  r.1 = Thrown (Jetstream Result_FATAL) /\
  live r.2 = [RDescriptorPool] /\
  log r.2 = [Log.mkEntry Log.FATAL "[VULKAN] Failed to create staging buffer." []] /\
  (unwind r).1 = Thrown (Jetstream Result_FATAL).
Proof.
  destruct (bootstrapResources_keeps_acquired (with_buffer (-1) good_driver) gpu_c
              (initial plain_config)) as (Hr & Hl & Hg & _ & _ & Hu & _).
  - vm_compute. eauto.
  - split; [exact Hr|]. split; [exact Hl|]. split; [exact Hg|exact Hu].
Defined.


End Examples.

(** * Further properties of the code *)

(** ** Classification rules *)

Section PowerBudget.

Import Telemetry.
Local Open Scope Z_scope.

(** X1. For 32-bit inputs and a budget of at least 100 mW the narrowing
    of the quotient loses nothing: the function answers [true] exactly
    when [current * 100 < threshold * budget]. *)
Theorem IsLowPowerFromPowerBudget_exact_from_100mW x b thr :
  Int.is_U32 x -> Int.is_U32 b -> 100 <= b ->
  IsLowPowerFromPowerBudget x b thr = true <-> x * 100 < thr * b.
Proof.
  intros Hx Hb H100. pose proof Hx as Hx'. pose proof Hb as Hb'.
  unfold Int.is_U32 in Hx', Hb'.
  assert (Hq : x * 100 / b < 2 ^ 32).
  { apply Z.le_lt_trans with (x * 100 / 100).
    - apply Z.div_le_compat_l; lia.
    - rewrite Z.div_mul by lia. lia. }
  rewrite IsLowPowerFromPowerBudget_in_range by (auto; lia).
  rewrite Z.ltb_lt. split.
  - intros Hlt. destruct (Z.lt_ge_cases (x * 100) (thr * b)) as [|Hge]; [assumption|].
    exfalso. assert (thr <= x * 100 / b); [|lia].
    apply Z.div_le_lower_bound; lia.
  - intros Hlt. apply Z.div_lt_upper_bound; lia.
Qed.

Lemma IsLowPowerFromPowerBudget_exact_from_100mW_witness :
  IsLowPowerFromPowerBudget 17999 60000 30 = true /\
  IsLowPowerFromPowerBudget 18000 60000 30 = false.
Proof.
  split.
  - apply (IsLowPowerFromPowerBudget_exact_from_100mW 17999 60000 30);
      unfold Int.is_U32; lia.
  - apply not_true_is_false. intros H.
    apply (IsLowPowerFromPowerBudget_exact_from_100mW 18000 60000 30) in H;
      unfold Int.is_U32; lia.
Defined.

End PowerBudget.

(** ** Capability checks and candidate filters *)

Section CapabilityChecks.

Import Vulkan.

Variable build : Build.
Variable drv : Driver.

(** X2. Each of the three support checks returns exactly the requested
    names that the driver lists: never a name that was not asked for, never
    one that is not available, however often the driver repeats a name. *)
Theorem support_checks_intersect (requested : gset string) (d : VkPhysicalDevice) x :
  (x ∈ checkInstanceExtensionSupport drv requested <->
   x ∈ availableInstanceExtensions drv /\ x ∈ requested) /\
  (x ∈ checkValidationLayerSupport drv requested <->
   x ∈ availableLayers drv /\ x ∈ requested) /\
  (x ∈ checkDeviceExtensionSupport d requested <->
   x ∈ availableDeviceExtensions d /\ x ∈ requested).
Proof. split; [|split]; apply elem_of_supportedAmong. Qed.

(** X3. The candidate loop compares the number of required device
    extensions with the number of supported ones; that comparison holds
    exactly when every required extension is available on the candidate. *)
Theorem extensionCheck_by_size (cfg : Config) (d : VkPhysicalDevice) :
  extensionCheckOf cfg d = true <->
  forall e, e ∈ getRequiredDeviceExtensions cfg -> e ∈ availableDeviceExtensions d.
Proof.
  unfold extensionCheckOf, checkDeviceExtensionSupport.
  rewrite bool_decide_eq_true. apply supportedAmong_size.
Qed.

Lemma supportedAmong_empty available : supportedAmong available ∅ = ∅.
Proof. apply set_eq. intros x. rewrite elem_of_supportedAmong. set_solver. Qed.

(** X4. A headless configuration requires no presentation capability: on
    any platform the required instance extensions are the debug-report
    extension alone when validation is on and nothing otherwise, no device
    extension is required, and a candidate device is valid as soon as its
    queue families are complete, whatever extensions it offers. *)
Theorem headless_requires_no_presentation (cfg : Config) :
  headless cfg = true ->
  getRequiredInstanceExtensions build drv cfg =
    (if validationEnabled cfg then {[VK_EXT_DEBUG_REPORT_EXTENSION_NAME]} else ∅) /\
  getRequiredDeviceExtensions cfg = ∅ /\
  forall d, validCandidate cfg d = isComplete (FindQueueFamilies d).
Proof.
  intros Hh. destruct cfg as [di hl ve ms sb]. simpl in Hh. subst hl.
  split; [|split].
  - unfold getRequiredInstanceExtensions, insert_if. simpl.
    destruct ve; [apply union_empty_r_L|reflexivity].
  - reflexivity.
  - intros d. unfold validCandidate, extensionCheckOf, queueFamilyCheckOf,
      checkDeviceExtensionSupport, getRequiredDeviceExtensions, insert_if. simpl.
    rewrite supportedAmong_empty. by rewrite bool_decide_eq_true_2.
Qed.

End CapabilityChecks.

(** ** Device information *)

Section DeviceInformation.

Import Vulkan.
Local Open Scope Z_scope.

Lemma land_device_local_bit flags :
  Z.land flags VK_MEMORY_HEAP_DEVICE_LOCAL_BIT = Z.b2z (Z.testbit flags 0).
Proof.
  unfold VK_MEMORY_HEAP_DEVICE_LOCAL_BIT.
  change 1 with (Z.ones 1). rewrite Z.land_ones by lia.
  rewrite Z.bit0_mod. reflexivity.
Qed.

Lemma totalSize_no_local heaps :
  existsb deviceLocal heaps = false -> totalSize (List.filter deviceLocal heaps) = 0.
Proof.
  induction heaps as [|h l IH]; simpl; [reflexivity|].
  destruct (deviceLocal h); simpl; [discriminate|exact IH].
Qed.

Lemma scanMemoryHeaps_acc heaps memory unified :
  scanMemoryHeaps heaps (memory, unified) =
  (if existsb deviceLocal heaps
   then Int.to_U64 (memory + totalSize (List.filter deviceLocal heaps))
   else memory,
   unified && forallb deviceLocal heaps).
Proof.
  unfold scanMemoryHeaps.
  revert memory unified. induction heaps as [|h l IH]; intros memory unified.
  - simpl. by rewrite andb_true_r.
  - cbn [foldl]. rewrite land_device_local_bit. fold (deviceLocal h).
    rewrite IH. cbn [existsb forallb List.filter].
    destruct (deviceLocal h) eqn:Hl; cbn [Z.b2z negb orb].
    + change (1 =? 0) with false. cbn [negb].
      assert (Hu : negb (Z.land (Z.b2z unified) 1 =? 0) = unified) by (by destruct unified).
      rewrite Hu. cbn [andb]. f_equal.
      unfold totalSize. cbn [map fold_right]. fold (totalSize (List.filter deviceLocal l)).
      destruct (existsb deviceLocal l) eqn:He.
      * unfold Int.to_U64. rewrite Zplus_mod_idemp_l. f_equal. lia.
      * rewrite (totalSize_no_local l He). f_equal. lia.
    + change (0 =? 0) with true. cbn [negb].
      rewrite Z.land_0_r. change (0 =? 0) with true. cbn [negb andb].
      by rewrite andb_false_r.
Qed.

(** X5. The scan of the memory heaps, as run by the constructor: the
    device memory is the sum of the sizes of the device-local heaps, kept
    to 64 bits, and memory is reported as unified exactly when every heap
    is device-local - in particular for a device that reports no heap. *)
Theorem scanMemoryHeaps_spec (heaps : list VkMemoryHeap) :
  scanMemoryHeaps heaps (0, true) =
  (Int.to_U64 (totalSize (List.filter deviceLocal heaps)), forallb deviceLocal heaps).
Proof.
  rewrite scanMemoryHeaps_acc. cbn [andb]. f_equal.
  destruct (existsb deviceLocal heaps) eqn:He; [reflexivity|].
  by rewrite totalSize_no_local.
Qed.

Variable d : VkPhysicalDevice.


Lemma maxSamplesOf_values c :
  In (maxSamplesOf c) [1; 2; 4; 8; 16; 32; 64]%N.
Proof.
  unfold maxSamplesOf.
  repeat match goal with |- context [if ?b then _ else _] => destruct b end;
    simpl; tauto.
Qed.

Lemma validateMultisampling_level (s : State) :
  multisampling (config (validateMultisampling d s).2) =
  N.min (multisampling (config s)) (maxSamplesOf (sampleCounts d)).
Proof.
  destruct s as [cfg sie sde drc pd c rt av lv lg]. destruct cfg as [di hl ve ms sb].
  unfold validateMultisampling, JST_WARN, JST_LOG, when, mbind, M_bind, bind,
    gets, modify, ret.
  cbn [config multisampling]. fold (sampleCounts d).
  destruct (N.ltb_spec (maxSamplesOf (sampleCounts d)) ms); simpl; lia.
Qed.

(** X6. Validating the multisampling level never fails and clamps the
    configured level to the hardware maximum, one of 1, 2, 4, ..., 64: the
    level becomes the smaller of the two, nothing else in the configuration
    or among the held resources changes, and a line is logged exactly when
    the level had to be lowered. *)
Theorem validateMultisampling_clamps (s : State) :
  let r := validateMultisampling d s in
  r.1 = Returned tt /\
  multisampling (config r.2) = N.min (multisampling (config s)) (maxSamplesOf (sampleCounts d)) /\
  In (maxSamplesOf (sampleCounts d)) [1; 2; 4; 8; 16; 32; 64]%N /\
  (deviceId (config r.2), headless (config r.2), validationEnabled (config r.2),
   stagingBufferSize (config r.2)) =
  (deviceId (config s), headless (config s), validationEnabled (config s),
   stagingBufferSize (config s)) /\
  live r.2 = live s /\
  (log r.2 = log s <-> (multisampling (config s) <= maxSamplesOf (sampleCounts d))%N).
Proof.
  destruct s as [cfg sie sde drc pd c rt av lv lg]. destruct cfg as [di hl ve ms sb].
  cbv zeta. unfold validateMultisampling, JST_WARN, JST_LOG, when, mbind, M_bind, bind,
    gets, modify, ret.
  cbn [config multisampling]. fold (sampleCounts d).
  split; [|split; [|split; [apply maxSamplesOf_values|]]].
  - destruct (N.ltb_spec (maxSamplesOf (sampleCounts d)) ms); reflexivity.
  - destruct (N.ltb_spec (maxSamplesOf (sampleCounts d)) ms); simpl; lia.
  - destruct (N.ltb_spec (maxSamplesOf (sampleCounts d)) ms); simpl.
    + repeat split; try reflexivity.
      * intros Heq. exfalso. apply (f_equal length) in Heq.
        rewrite length_app in Heq. simpl in Heq. lia.
      * lia.
    + repeat split; try reflexivity; lia.
Qed.

(** X7. After that validation the sample-count flag handed out by
    [getMultisampling] is one of the seven flag bits and never asks for
    more samples than the hardware maximum; it is the configured level
    itself whenever that level is one of 1, 2, 4, ..., 64, and one sample
    for any other level. *)
Theorem getMultisampling_within_maximum (s : State) :
  let cfg' := config (validateMultisampling d s).2 in
  In (getMultisampling cfg') [1; 2; 4; 8; 16; 32; 64] /\
  getMultisampling cfg' <= Z.of_N (maxSamplesOf (sampleCounts d)) /\
  (In (multisampling cfg') [1; 2; 4; 8; 16; 32; 64]%N ->
   getMultisampling cfg' = Z.of_N (multisampling cfg')) /\
  (~ In (multisampling cfg') [1; 2; 4; 8; 16; 32; 64]%N ->
   getMultisampling cfg' = VK_SAMPLE_COUNT_1_BIT).
Proof.
  cbv zeta.
  pose proof (validateMultisampling_level s) as Hm.
  pose proof (maxSamplesOf_values (sampleCounts d)) as Hmax.
  set (cfg' := config (validateMultisampling d s).2) in *.
  assert (Hle : (multisampling cfg' <= maxSamplesOf (sampleCounts d))%N) by lia.
  assert (Hpos : (1 <= maxSamplesOf (sampleCounts d))%N).
  { simpl in Hmax. lia. }
  unfold getMultisampling.
  split; [|split; [|split]].
  - destruct (multisampling cfg') as [|[p|p|]]; try (simpl; tauto);
      repeat (destruct p as [p|p|]; try (simpl; tauto)).
  - assert (Hcases : forall m : N,
      (m <= maxSamplesOf (sampleCounts d))%N ->
      match m with
      | 1%N => VK_SAMPLE_COUNT_1_BIT | 2%N => VK_SAMPLE_COUNT_2_BIT
      | 4%N => VK_SAMPLE_COUNT_4_BIT | 8%N => VK_SAMPLE_COUNT_8_BIT
      | 16%N => VK_SAMPLE_COUNT_16_BIT | 32%N => VK_SAMPLE_COUNT_32_BIT
      | 64%N => VK_SAMPLE_COUNT_64_BIT | _ => VK_SAMPLE_COUNT_1_BIT
      end <= Z.of_N (maxSamplesOf (sampleCounts d))).
    { intros m Hm'. destruct m as [|[p|p|]]; try (simpl; unfold VK_SAMPLE_COUNT_1_BIT; lia);
        repeat (destruct p as [p|p|];
                try (unfold VK_SAMPLE_COUNT_1_BIT, VK_SAMPLE_COUNT_2_BIT,
                       VK_SAMPLE_COUNT_4_BIT, VK_SAMPLE_COUNT_8_BIT,
                       VK_SAMPLE_COUNT_16_BIT, VK_SAMPLE_COUNT_32_BIT,
                       VK_SAMPLE_COUNT_64_BIT; lia)). }
    apply Hcases. exact Hle.
  - intros Hin. simpl in Hin.
    destruct Hin as [<-|[<-|[<-|[<-|[<-|[<-|[<-|[]]]]]]]]; reflexivity.
  - intros Hout.
    destruct (multisampling cfg') as [|[p|p|]];
      try reflexivity; try (exfalso; apply Hout; simpl; tauto);
      repeat (destruct p as [p|p|];
              try reflexivity; try (exfalso; apply Hout; simpl; tauto)).
Qed.

End DeviceInformation.

(** ** Device-level negotiation and interoperability flags *)

Section DeviceCapabilities.

Import Vulkan.

Variable build : Build.
Variable d : VkPhysicalDevice.

Lemma gatherDeviceExtensions_result (s : State) :
  let required := getRequiredDeviceExtensions (config s) in
  let optional := getOptionalDeviceExtensions build in
  let supported := checkDeviceExtensionSupport d required ∪
                   checkDeviceExtensionSupport d optional in
  supportedDeviceExtensions s = ∅ ->
  gatherDeviceExtensions build d s =
  (Returned (elements supported),
   set_log (fun lg => lg ++
              [Log.mkEntry Log.DEBUG "[VULKAN] Required device extensions: {}"
                           (elements required);
               Log.mkEntry Log.DEBUG "[VULKAN] Optional device extensions: {}"
                           (elements optional)] ++
              map (fun e => Log.mkEntry Log.WARN warn_optional_device [e])
                  (List.filter (fun e => negb (bool_decide (e ∈ supported)))
                               (elements optional)))
     (set_supportedDeviceExtensions (fun _ => supported) s)).
Proof.
  intros required optional supported Hempty.
  destruct s as [cfg sie sde drc pd c rt av lv lg]. simpl in *. subst sde.
  assert (Hsup : ∅ ∪ checkDeviceExtensionSupport d required
                 ∪ checkDeviceExtensionSupport d optional = supported).
  { unfold supported. set_solver. }
  unfold gatherDeviceExtensions, JST_DEBUG, JST_LOG, mbind, M_bind, bind, gets, modify.
  cbn [config set_supportedDeviceExtensions set_log supportedDeviceExtensions log].
  fold required. fold optional. rewrite Hsup.
  rewrite for_each_warn.
  cbn [set_log supportedDeviceExtensions]. unfold ret.
  rewrite <- !app_assoc. reflexivity.
Qed.

Lemma occurrences_two_debug fmt a f1 a1 f2 a2 :
  Log.occurrences (Log.mkEntry Log.WARN fmt a)
    [Log.mkEntry Log.DEBUG f1 a1; Log.mkEntry Log.DEBUG f2 a2] = 0.
Proof.
  unfold Log.occurrences. cbn [List.filter].
  rewrite !bool_decide_eq_false_2 by discriminate. reflexivity.
Qed.

(** X8. Device-level negotiation never fails, not even when a required
    device extension is absent: it returns the required and optional
    extensions that the selected device offers, and warns exactly once
    about each optional extension the device lacks and about nothing
    else. *)
Theorem device_capability_negotiation (s : State) :
  supportedDeviceExtensions s = ∅ ->
  let required := getRequiredDeviceExtensions (config s) in
  let optional := getOptionalDeviceExtensions build in
  let available := availableDeviceExtensions d in
  let g := gatherDeviceExtensions build d s in
  (exists enabled, g.1 = Returned enabled /\
     forall e, e ∈ enabled <-> e ∈ available /\ (e ∈ required \/ e ∈ optional)) /\
  (forall e, e ∈ supportedDeviceExtensions g.2 <->
             e ∈ available /\ (e ∈ required \/ e ∈ optional)) /\
  (exists added, log g.2 = log s ++ added /\
     Log.at_level Log.FATAL added = [] /\
     forall e,
       Log.occurrences (Log.mkEntry Log.WARN warn_optional_device [e]) added =
       if bool_decide (e ∈ optional /\ e ∉ available) then 1 else 0) /\
  live g.2 = live s.
Proof.
  intros Hempty required optional available g.
  pose proof (gatherDeviceExtensions_result s Hempty) as Hg.
  cbv zeta in Hg. fold required optional g in Hg.
  set (supported := checkDeviceExtensionSupport d required ∪
                    checkDeviceExtensionSupport d optional) in Hg.
  assert (Hsup : forall e, e ∈ supported <->
                           e ∈ available /\ (e ∈ required \/ e ∈ optional)).
  { intros e. unfold supported, checkDeviceExtensionSupport.
    rewrite elem_of_union, !elem_of_supportedAmong. fold available. tauto. }
  assert (Hfilter :
    List.filter (fun e => negb (bool_decide (e ∈ supported))) (elements optional) =
    List.filter (fun e => negb (bool_decide (e ∈ available))) (elements optional)).
  { apply List.filter_ext_in. intros e He.
    apply list_elem_of_In, elem_of_elements in He. f_equal.
    apply bool_decide_ext. rewrite Hsup. tauto. }
  rewrite Hfilter in Hg. rewrite Hg. destruct s as [cfg sie sde drc pd c rt av lv lg].
  cbn [fst snd set_log set_supportedDeviceExtensions live log supportedDeviceExtensions].
  split; [|split; [|split; [|reflexivity]]].
  - exists (elements supported). split; [reflexivity|].
    intros e. rewrite elem_of_elements. apply Hsup.
  - exact Hsup.
  - eexists. split; [reflexivity|]. split.
    + unfold Log.at_level. rewrite List.filter_app.
      change (List.filter (Log.has_level Log.FATAL) [_; _]) with (@nil Log.Entry).
      cbn [app].
      generalize (List.filter (fun e => negb (bool_decide (e ∈ available)))
                              (elements optional)).
      intros l. induction l as [|a l IH]; [reflexivity|]. simpl. exact IH.
    + intros e. rewrite occurrences_app, occurrences_two_debug.
      rewrite occurrences_warn_NoDup.
      2:{ apply NoDup_ListNoDup, List.NoDup_filter, NoDup_ListNoDup, NoDup_elements. }
      cbn [plus]. apply (f_equal (fun b : bool => if b then 1 else 0)).
      apply bool_decide_ext. rewrite elem_of_filter_list, elem_of_elements.
      rewrite negb_true_iff, bool_decide_eq_false. tauto.
Qed.

Lemma elem_of_required_device cfg e :
  e ∈ getRequiredDeviceExtensions cfg <->
  headless cfg = false /\ e = VK_KHR_SWAPCHAIN_EXTENSION_NAME.
Proof.
  unfold getRequiredDeviceExtensions, insert_if.
  destruct (headless cfg); simpl; set_solver.
Qed.

Lemma elem_of_optional_device e :
  e ∈ getOptionalDeviceExtensions build <->
  (defined_VK_KHR_external_memory_fd build = true /\
   (e = VK_KHR_EXTERNAL_MEMORY_FD_EXTENSION_NAME \/
    e = VK_EXT_EXTERNAL_MEMORY_HOST_EXTENSION_NAME)) \/
  (defined_VK_KHR_portability_subset build = true /\
   e = VK_KHR_PORTABILITY_SUBSET_EXTENSION_NAME).
Proof.
  unfold getOptionalDeviceExtensions, insert_if.
  destruct (defined_VK_KHR_external_memory_fd build),
    (defined_VK_KHR_portability_subset build); simpl; set_solver.
Qed.

(** X9. The interoperability flags published after device negotiation:
    importing and exporting device memory are always reported together, and
    are available exactly when the build knows the external-memory-fd
    extension and the selected device offers it; importing host memory is
    available exactly when the build knows it and the device offers the
    external-memory-host extension. *)
Theorem interoperability_flags (s : State) :
  supportedDeviceExtensions s = ∅ ->
  let r := (gatherDeviceExtensions build d;; populateCache d) s in
  r.1 = Returned tt /\
  canImportDeviceMemory (cache r.2) = canExportDeviceMemory (cache r.2) /\
  (canImportDeviceMemory (cache r.2) = true <->
   defined_VK_KHR_external_memory_fd build = true /\
   VK_KHR_EXTERNAL_MEMORY_FD_EXTENSION_NAME ∈ availableDeviceExtensions d) /\
  (canImportHostMemory (cache r.2) = true <->
   defined_VK_KHR_external_memory_fd build = true /\
   VK_EXT_EXTERNAL_MEMORY_HOST_EXTENSION_NAME ∈ availableDeviceExtensions d).
Proof.
  intros Hempty r. subst r.
  rewrite (bind_returned _ _ _ _ _ (gatherDeviceExtensions_result s Hempty)).
  destruct s as [cfg sie sde drc pd c rt av lv lg].
  cbn [config set_log set_supportedDeviceExtensions].
  set (supported := checkDeviceExtensionSupport d (getRequiredDeviceExtensions cfg) ∪
                    checkDeviceExtensionSupport d (getOptionalDeviceExtensions build)).
  assert (Hsup : forall e, e ∈ supported <->
            e ∈ availableDeviceExtensions d /\
            (e ∈ getRequiredDeviceExtensions cfg \/ e ∈ getOptionalDeviceExtensions build)).
  { intros e. unfold supported, checkDeviceExtensionSupport.
    rewrite elem_of_union, !elem_of_supportedAmong. tauto. }
  unfold populateCache, mbind, M_bind, bind, gets, modify.
  cbn [supportedDeviceExtensions cache].
  destruct (scanMemoryHeaps _ _) as [memory unified].
  cbn [fst snd set_cache cache canImportDeviceMemory canExportDeviceMemory
       canImportHostMemory].
  split; [reflexivity|]. split; [reflexivity|].
  rewrite !bool_decide_eq_true, !Hsup, !elem_of_required_device, !elem_of_optional_device.
  split; split; intros Hx.
  - destruct Hx as [Hav [[_ Heq]|[[Hdef _]|[_ Heq]]]]; try discriminate Heq. auto.
  - destruct Hx as [Hdef Hav]. split; [exact Hav|]. right. left. auto.
  - destruct Hx as [Hav [[_ Heq]|[[Hdef _]|[_ Heq]]]]; try discriminate Heq. auto.
  - destruct Hx as [Hdef Hav]. split; [exact Hav|]. right. left. auto.
Qed.

End DeviceCapabilities.

(** ** Telemetry providers *)

Section TelemetryProviders.

Import Vulkan.
Local Open Scope Z_scope.

Variable build : Build.

Ltac crush_cases :=
  repeat match goal with
         | |- context [bool_decide ?P] => destruct (bool_decide P); simpl
         | |- context [if ?b then _ else _] => destruct b; simpl
         | |- context [match ?x with _ => _ end] => destruct x; simpl
         end.

(** One poll rewrites at most the two snapshot fields, the suppression
    flag and the log. *)
Lemma pollTelemetry_footprint q s :
  exists lp th fl lg',
    pollTelemetry build q s =
    (Returned tt,
     set_log (fun _ => lg')
       (set_telemetryRuntime (set_providerErrorLogged fl)
          (set_cache (fun c => set_lowPowerStatus lp (set_getThermalState th c)) s))) /\
    (0 <= getThermalState (cache s) <= 3 -> 0 <= th <= 3).
Proof.
  destruct s as [cfg sie sde drc pd c rt av lv lg].
  destruct c, rt as [rn pel wk], q as [[[ps psv] [ts tsv] [us usv] [ls lsv]] [cr tr tp]].
  unfold_monad; simpl.
  pose proof (ThermalBucketFromCelsius_range tsv) as Hb.
  crush_cases; (do 4 eexists; split; [reflexivity|intros; lia]).
Qed.

(** X10. Polling is decoupled from everything else the backend holds:
    any session of polls returns normally and leaves the configuration, the
    negotiated capabilities, the selected device, the held native
    resources, the availability flag, the identity fields of the cache and
    the scheduler's [running] flag and worker as they were; and a thermal
    state within 0..3 stays within 0..3. *)
Theorem telemetry_session_footprint (qs : list Sample) (s : State) :
  let r := session build qs s in
  r.1 = Returned tt /\
  (config r.2, supportedInstanceExtensions r.2, supportedDeviceExtensions r.2,
   debugReportCallback r.2, physicalDevice r.2, _isAvailable r.2, live r.2) =
  (config s, supportedInstanceExtensions s, supportedDeviceExtensions s,
   debugReportCallback s, physicalDevice s, _isAvailable s, live s) /\
  (running (telemetryRuntime r.2), worker (telemetryRuntime r.2)) =
  (running (telemetryRuntime s), worker (telemetryRuntime s)) /\
  (cache_deviceName (cache r.2), cache_apiVersion (cache r.2),
   physicalDeviceType (cache r.2), hasUnifiedMemory (cache r.2),
   physicalMemory (cache r.2), canImportDeviceMemory (cache r.2),
   canExportDeviceMemory (cache r.2), canImportHostMemory (cache r.2),
   telemetryProviderType (cache r.2), telemetryHandle (cache r.2)) =
  (cache_deviceName (cache s), cache_apiVersion (cache s),
   physicalDeviceType (cache s), hasUnifiedMemory (cache s),
   physicalMemory (cache s), canImportDeviceMemory (cache s),
   canExportDeviceMemory (cache s), canImportHostMemory (cache s),
   telemetryProviderType (cache s), telemetryHandle (cache s)) /\
  (0 <= getThermalState (cache s) <= 3 -> 0 <= getThermalState (cache r.2) <= 3).
Proof.
  cbv zeta. revert s. induction qs as [|q qs IH]; intros s.
  - simpl. repeat split; auto; lia.
  - rewrite session_cons.
    destruct (pollTelemetry_footprint q s) as (lp & th & fl & lg' & Hp & Hth).
    rewrite Hp. cbn [snd].
    destruct (IH (set_log (fun _ => lg')
       (set_telemetryRuntime (set_providerErrorLogged fl)
          (set_cache (fun c => set_lowPowerStatus lp (set_getThermalState th c)) s))))
      as (Hr & Hf & Hrt & Hc & Ht).
    rewrite Hr, Hf, Hrt, Hc.
    destruct s as [cfg sie sde drc pd c rt av lv lg]. destruct c, rt.
    split; [reflexivity|]. split; [reflexivity|]. split; [reflexivity|].
    split; [reflexivity|].
    intros Hrange. apply Ht. cbn. apply Hth. exact Hrange.
Qed.

(** X11. A tooling-info poll whose two driver calls succeed publishes
    one bit of information: [lowPowerStatus] is cleared exactly when some
    listed tool has the monitoring purpose, and the thermal state is 1 in
    that case and 0 otherwise - so with no tool listed at all the device is
    reported as low-power; nothing is logged. *)
Theorem updateTelemetryFromToolingInfo_success (q : ToolingSample) (s : State) :
  toolingInfoFn (cache s) = true ->
  countResult q = VK_SUCCESS -> toolsResult q = VK_SUCCESS ->
  let s' := (updateTelemetryFromToolingInfo build q s).2 in
  (lowPowerStatus (cache s') = false <->
   exists purposes, purposes ∈ toolPurposes q /\
     Z.land purposes (VK_TOOL_PURPOSE_MONITORING_BIT_EXT build) <> 0) /\
  getThermalState (cache s') = (if lowPowerStatus (cache s') then 0 else 1) /\
  (toolPurposes q = [] -> lowPowerStatus (cache s') = true) /\
  log s' = log s.
Proof.
  intros Hfn Hc Ht. cbv zeta.
  destruct s as [cfg sie sde drc pd c rt av lv lg].
  destruct c, rt as [rn pel wk], q as [cr tr tp]. simpl in *. subst.
  unfold_monad. simpl.
  set (present := existsb _ tp).
  assert (Hpresent : present = true <->
            exists purposes, purposes ∈ tp /\
              Z.land purposes (VK_TOOL_PURPOSE_MONITORING_BIT_EXT build) <> 0).
  { unfold present. rewrite existsb_exists. split.
    - intros (p & Hin & Hp). exists p. split; [by apply list_elem_of_In|].
      apply negb_true_iff, Z.eqb_neq in Hp. exact Hp.
    - intros (p & Hin & Hp). exists p. split; [by apply list_elem_of_In|].
      apply negb_true_iff, Z.eqb_neq. exact Hp. }
  split; [|split; [|split]].
  - rewrite <- Hpresent. by destruct present.
  - by destruct present.
  - intros ->. reflexivity.
  - reflexivity.
Qed.

End TelemetryProviders.

Section ProviderSelection.

Import Vulkan.
Local Open Scope Z_scope.

Variable build : Build.
Variable drv : Driver.

Lemma release_after_acquire (r : Resource) (l : list Resource) :
  r ∉ l ->
  List.filter (fun x => negb (bool_decide (x = r))) (l ++ [r]) = l.
Proof.
  intros Hnot. rewrite List.filter_app. cbn [List.filter].
  rewrite bool_decide_eq_true_2 by reflexivity. cbn [negb]. rewrite app_nil_r.
  induction l as [|a l IH]; [reflexivity|].
  apply not_elem_of_cons in Hnot as [Hne Hnot]. cbn [List.filter].
  rewrite bool_decide_eq_false_2 by congruence. cbn [negb]. by rewrite IH.
Qed.

Lemma setupNvmlTelemetry_result (s : State) :
  setupNvmlTelemetry build drv s =
  if negb (JST_BACKEND_HAS_NVML build) then (Returned false, s)
  else if negb (bool_decide (nvmlInit_v2 drv = NVML_SUCCESS))
  then (Returned false,
        set_log (fun lg => lg ++
          [Log.mkEntry Log.ERROR "[VULKAN] NVML initialization failed: {}" []]) s)
  else if negb (bool_decide
                  ((nvmlDeviceGetHandleByIndex drv (deviceId (config s) mod 2 ^ 32)%N).1
                   = NVML_SUCCESS))
  then (Returned false,
        set_live (List.filter (fun x => negb (bool_decide (x = RNvmlLibrary))))
          (set_log (fun lg => lg ++
             [Log.mkEntry Log.ERROR "[VULKAN] NVML cannot access device {}: {}" []])
             (set_live (fun l => l ++ [RNvmlLibrary]) s)))
  else (Returned true,
        set_cache (fun c =>
          set_toolingInfoFn false
            (set_telemetryLibraryInitialized true
               (set_telemetryHandle
                  (nvmlDeviceGetHandleByIndex drv (deviceId (config s) mod 2 ^ 32)%N).2
                  (set_telemetryProviderName "NVML"
                     (set_telemetryProviderType Telemetry.NVML c)))))
          (set_live (fun l => l ++ [RNvmlLibrary]) s)).
Proof.
  destruct s as [cfg sie sde drc pd c rt av lv lg].
  unfold setupNvmlTelemetry, acquire, release, JST_ERROR, JST_LOG,
    mbind, M_bind, bind, gets, modify, ret.
  destruct (JST_BACKEND_HAS_NVML build); cbn [negb]; [|reflexivity].
  destruct (bool_decide (nvmlInit_v2 drv = NVML_SUCCESS)); cbn [negb]; [|reflexivity].
  cbn [set_live config].
  destruct (nvmlDeviceGetHandleByIndex drv (deviceId cfg mod 2 ^ 32)%N) as [st hd].
  cbn [fst snd]. destruct (bool_decide (st = NVML_SUCCESS)); reflexivity.
Qed.

(** X12. Setting up the vendor library succeeds exactly when the library
    is built in, initialises and hands out a handle for the device index;
    it then holds the library and records the NVML provider with that
    handle.  A failed attempt leaves the cache untouched and no library
    held: a library that initialised but would not give a handle is shut
    down again. *)
Theorem setupNvmlTelemetry_binds_or_rolls_back (s : State) :
  RNvmlLibrary ∉ live s ->
  let r := setupNvmlTelemetry build drv s in
  r.1 = Returned (nvmlBinds build drv (config s)) /\
  (nvmlBinds build drv (config s) = true ->
   live r.2 = live s ++ [RNvmlLibrary] /\
   telemetryProviderType (cache r.2) = Telemetry.NVML /\
   telemetryHandle (cache r.2) =
     (nvmlDeviceGetHandleByIndex drv (deviceId (config s) mod 2 ^ 32)%N).2 /\
   telemetryLibraryInitialized (cache r.2) = true /\
   log r.2 = log s) /\
  (nvmlBinds build drv (config s) = false ->
   live r.2 = live s /\ cache r.2 = cache s /\
   Log.at_level Log.WARN (log r.2) = Log.at_level Log.WARN (log s)).
Proof.
  intros Hnot. cbv zeta. rewrite setupNvmlTelemetry_result. unfold nvmlBinds.
  destruct s as [cfg sie sde drc pd c rt av lv lg]. destruct c. simpl in Hnot.
  cbn [config].
  assert (Hlog : forall l e, Log.level e <> Log.WARN ->
            Log.at_level Log.WARN (l ++ [e]) = Log.at_level Log.WARN l).
  { intros l e He. unfold Log.at_level. rewrite List.filter_app. simpl.
    unfold Log.has_level. rewrite bool_decide_eq_false_2 by assumption.
    apply app_nil_r. }
  assert (Hfin : forall (o : bool) (P Q : Prop),
            (o = true -> P) -> (o = false -> Q) ->
            (o = true -> P) /\ (o = false -> Q)) by (intros; split; assumption).
  destruct (JST_BACKEND_HAS_NVML build); cbn [negb andb].
  2:{ split; [reflexivity|]. apply Hfin; [discriminate|]. intros _. by repeat split. }
  destruct (bool_decide (nvmlInit_v2 drv = NVML_SUCCESS)); cbn [negb andb].
  2:{ split; [reflexivity|]. apply Hfin; [discriminate|]. intros _.
      cbn [snd log set_log live cache]. rewrite Hlog by discriminate. by repeat split. }
  destruct (bool_decide _); cbn [negb].
  - split; [reflexivity|]. apply Hfin; [|discriminate]. intros _. by repeat split.
  - cbn [fst snd live cache log set_live set_log].
    rewrite (release_after_acquire RNvmlLibrary lv Hnot).
    split; [reflexivity|]. apply Hfin; [discriminate|]. intros _.
    rewrite Hlog by discriminate. by repeat split.
Qed.

(** X13. The provider chain commits in a fixed priority, on a stopped
    scheduler: NVML when the device is NVIDIA's and the library binds,
    else the tooling-info provider when it is usable, else none.  Exactly
    when a provider commits one poll is made and the scheduler is started,
    with the suppression flag clear and one worker at the top of its loop;
    the tooling entry point is recorded only for the tooling provider. *)
Theorem initializeTelemetry_priority (d : VkPhysicalDevice) (s : State) :
  running (telemetryRuntime s) = false ->
  worker (telemetryRuntime s) = None ->
  let nvml := JST_BACKEND_HAS_NVML build &&
              bool_decide (vendorID (deviceProperties d) = 0x10DE) &&
              nvmlBinds build drv (config s) in
  let tooling := toolingUsable drv s in
  let r := initializeTelemetry build drv d s in
  r.1 = Returned tt /\
  telemetryProviderType (cache r.2) =
    (if nvml then Telemetry.NVML
     else if tooling then Telemetry.TOOLING_INFO else Telemetry.NONE) /\
  telemetryRuntime r.2 =
    (if nvml || tooling then mkTelemetryRuntime true false (Some AtLoopTest)
     else telemetryRuntime s) /\
  toolingInfoFn (cache r.2) = negb nvml && tooling /\
  telemetryLibraryInitialized (cache r.2) = nvml.
Proof.
  intros Hrun Hwk. cbv zeta.
  destruct s as [cfg sie sde drc pd c rt av lv lg].
  destruct c, rt as [rn pel wk]. simpl in Hrun, Hwk. subst rn wk.
  unfold nvmlBinds, toolingUsable, initializeTelemetry,
    JST_INFO, JST_WARN, JST_LOG, mbind, M_bind, bind, gets, modify, ret.
  cbn [config supportedInstanceExtensions set_cache cache set_telemetryProviderType
       set_telemetryProviderName set_telemetryHandle set_telemetryLibraryInitialized
       set_toolingInfoFn].
  destruct (JST_BACKEND_HAS_NVML build) eqn:Hb; cbn [negb andb orb];
    [destruct (bool_decide (vendorID (deviceProperties d) = 4318)); cbn [negb andb orb];
     [rewrite setupNvmlTelemetry_result, Hb; cbn [negb config];
      destruct (bool_decide (nvmlInit_v2 drv = NVML_SUCCESS)); cbn [negb andb orb];
      [destruct (bool_decide _); cbn [negb andb orb]|]|]|];
    cbn [set_live set_log set_cache cache supportedInstanceExtensions
         set_telemetryProviderType set_telemetryProviderName set_telemetryHandle
         set_telemetryLibraryInitialized set_toolingInfoFn negb andb orb];
    try (destruct (bool_decide (VK_EXT_TOOLING_INFO_EXTENSION_NAME ∈ sie));
         cbn [negb andb orb];
         [destruct (has_vkGetPhysicalDeviceToolPropertiesEXT drv); cbn [negb andb orb]|]);
    cbn [set_live set_log set_cache cache supportedInstanceExtensions
         set_telemetryProviderType set_telemetryProviderName set_telemetryHandle
         set_telemetryLibraryInitialized set_toolingInfoFn negb andb orb];
    try (match goal with
         | |- context [pollTelemetry build ?q ?st] =>
             destruct (pollTelemetry_footprint build q st)
               as (lp & th & fl & lg' & Hp & _);
             rewrite Hp
         end);
    cbn; repeat split; reflexivity.
Qed.

End ProviderSelection.

(** ** The life cycle of the backend object *)

Section Lifecycle.

Import Vulkan.

Variable build : Build.
Variable drv : Driver.

(** *** Rules for [triple] *)

Lemma triple_ret {A} (P : State -> Prop) (a : A) (Q : A -> State -> Prop) R :
  (forall s, P s -> Q a s) -> triple P (ret a) Q R.
Proof. intros H s Hs. apply H, Hs. Qed.

Lemma triple_gets {A} (P : State -> Prop) (f : State -> A) (Q : A -> State -> Prop) R :
  (forall s, P s -> Q (f s) s) -> triple P (gets f) Q R.
Proof. intros H s Hs. apply H, Hs. Qed.

Lemma triple_modify (P : State -> Prop) f (Q : unit -> State -> Prop) R :
  (forall s, P s -> Q tt (f s)) -> triple P (modify f) Q R.
Proof. intros H s Hs. apply H, Hs. Qed.

Lemma triple_log (P : State -> Prop) l fmt a (Q : unit -> State -> Prop) R :
  (forall s, P s -> Q tt (set_log (fun lg => lg ++ [Log.mkEntry l fmt a]) s)) ->
  triple P (JST_LOG l fmt a) Q R.
Proof. intros H. apply triple_modify, H. Qed.

Lemma triple_throw {A} (P : State -> Prop) (Q : A -> State -> Prop) (R : State -> Prop) :
  (forall s, P s -> R s) -> triple P (throw Result_FATAL) Q R.
Proof. intros H s Hs. split; [reflexivity|apply H, Hs]. Qed.

Lemma triple_bind {A B} (P : State -> Prop) (m : M A) (k : A -> M B) Q' Q R :
  triple P m Q' R -> (forall a, triple (Q' a) (k a) Q R) -> triple P (m ≫= k) Q R.
Proof.
  intros Hm Hk s Hs. specialize (Hm s Hs).
  unfold mbind, M_bind, bind. destruct (m s) as [[a| e |] s']; [|exact Hm|exact Hm].
  apply Hk, Hm.
Qed.

Lemma triple_conseq {A} (P P' : State -> Prop) (m : M A) (Q Q' : A -> State -> Prop) R :
  triple P' m Q' R -> (forall s, P s -> P' s) -> (forall a s, Q' a s -> Q a s) ->
  triple P m Q R.
Proof.
  intros Hm HP HQ s Hs. specialize (Hm s (HP s Hs)).
  destruct (m s) as [[a| e |] s']; [apply HQ, Hm|exact Hm|exact Hm].
Qed.

Lemma triple_when (P : State -> Prop) (b : bool) m (Q : unit -> State -> Prop) R :
  (b = true -> triple P m Q R) -> (b = false -> forall s, P s -> Q tt s) ->
  triple P (when b m) Q R.
Proof.
  intros Ht Hf. destruct b; simpl; [by apply Ht|]. by apply triple_ret, Hf.
Qed.

Lemma triple_for_each {A} (P R : State -> Prop) (l : list A) body :
  (forall x, triple P (body x) (fun _ => P) R) ->
  triple P (for_each l body) (fun _ => P) R.
Proof.
  intros Hb. induction l as [|x l IH]; simpl.
  - by apply triple_ret.
  - apply (triple_bind P (body x) _ (fun _ => P)); [apply Hb|intros _; exact IH].
Qed.

(** A check on a native call that holds nothing when it fails. *)
Lemma triple_vk_check (P : State -> Prop) (answer : VkResult) l fmt a
      (Q : unit -> State -> Prop) (R : State -> Prop) :
  (answer = VK_SUCCESS -> forall s, P s -> Q tt s) ->
  (forall s, P s -> R (set_log (fun lg => lg ++ [Log.mkEntry l fmt a]) s)) ->
  triple P (JST_VK_CHECK_THROW (ret answer) (JST_LOG l fmt a)) Q R.
Proof.
  intros Hok Hfail s Hs.
  unfold JST_VK_CHECK_THROW, JST_LOG, throw, mbind, M_bind, bind, modify, ret.
  destruct (bool_decide_reflect (answer = VK_SUCCESS)) as [He|He].
  - by apply Hok.
  - split; [reflexivity|by apply Hfail].
Qed.

(** A creating call under its check: the resource is held when the call
    succeeds, and the failure is thrown when it does not. *)
Lemma triple_vk_create (P : State -> Prop) (answer : VkResult) r l fmt a
      (Q : unit -> State -> Prop) (R : State -> Prop) :
  (answer = VK_SUCCESS -> forall s, P s -> Q tt (set_live (fun lv => lv ++ [r]) s)) ->
  (forall s, P s -> R (set_log (fun lg => lg ++ [Log.mkEntry l fmt a]) s)) ->
  triple P (JST_VK_CHECK_THROW (creating answer r) (JST_LOG l fmt a)) Q R.
Proof.
  intros Hok Hfail s Hs.
  unfold JST_VK_CHECK_THROW, creating, when, acquire, JST_LOG, throw,
    mbind, M_bind, bind, modify, ret.
  destruct (bool_decide_reflect (answer = VK_SUCCESS)) as [He|He]; cbn.
  - rewrite bool_decide_eq_true_2 by assumption. by apply Hok.
  - rewrite bool_decide_eq_false_2 by assumption. split; [reflexivity|by apply Hfail].
Qed.

Lemma triple_value {A} (P : State -> Prop) (o : option A) (Q : A -> State -> Prop) R :
  is_Some o -> (forall v s, o = Some v -> P s -> Q v s) -> triple P (value o) Q R.
Proof. intros [v ->] H s Hs. simpl. by apply H. Qed.

Lemma triple_seq {A B} (P : State -> Prop) (m : M A) (k : A -> M B) Q R :
  triple P m (fun _ => P) R -> (forall a, triple P (k a) Q R) -> triple P (m ≫= k) Q R.
Proof. intros Hm Hk. by apply (triple_bind P m k (fun _ => P)). Qed.

Lemma at_level_snoc l lg e :
  Log.level e <> l -> Log.at_level l (lg ++ [e]) = Log.at_level l lg.
Proof.
  intros He. unfold Log.at_level. rewrite List.filter_app. cbn.
  unfold Log.has_level. rewrite bool_decide_eq_false_2 by assumption.
  apply app_nil_r.
Qed.

Ltac unfold_inv :=
  unfold selecting, under_construction, completed, holding, not_started,
    constructing, failed, no_fatal, failure_logged, worker_matches_running,
    optionalResources in *.

(** The side conditions: a predicate on the state is kept by an update of
    the fields it does not read. *)
Ltac stable :=
  let s := fresh "s" in
  let H := fresh "H" in
  intros s H; destruct s as [? ? ? ? ? c rt ? ? ?]; destruct c, rt;
  unfold_inv; cbn -[Log.at_level] in *;
  rewrite ?at_level_snoc by discriminate;
  first [ exact H
        | tauto
        | by (intuition (subst; cbn -[Log.at_level] in *; auto; try congruence))
        | (split; [tauto|]); eexists _, _;
          (split; [reflexivity|]); split; [tauto|cbn; tauto] ].

(** A guard that throws: what follows runs only when the guard is false. *)
Lemma triple_guard {B} (P : State -> Prop) (b : bool) l fmt a (k : unit -> M B) Q
      (R : State -> Prop) :
  (forall s, P s -> R (set_log (fun lg => lg ++ [Log.mkEntry l fmt a]) s)) ->
  (b = false -> triple P (k tt) Q R) ->
  triple P (when b (JST_LOG l fmt a;; JST_CHECK_THROW Result_FATAL) ≫= k) Q R.
Proof.
  intros Hthrow Hk. destruct b.
  - intros s Hs. split; [reflexivity|by apply Hthrow].
  - intros s Hs. by apply Hk.
Qed.

Ltac triple_step :=
  cbv zeta;
  lazymatch goal with
  | |- triple _ (when _ (JST_LOG _ _ _;; JST_CHECK_THROW Result_FATAL) ≫= _) _ _ =>
      apply triple_guard; [|intros ?]
  | |- triple _ (_ ≫= _) _ _ => apply triple_seq; [|intros ?]
  | |- triple _ (ret _) _ _ => apply triple_ret
  | |- triple _ (gets _) _ _ => apply triple_gets
  | |- triple _ (modify _) _ _ => apply triple_modify
  | |- triple _ (JST_LOG _ _ _) _ _ => apply triple_log
  | |- triple _ (JST_CHECK_THROW Result_FATAL) _ _ => apply (triple_throw (A:=unit))
  | |- triple _ (when _ _) _ _ => apply triple_when; [intros ?|intros ?]
  | |- triple _ (for_each _ _) _ _ => apply triple_for_each; intros ?
  | |- triple _ (JST_VK_CHECK_THROW (ret _) (JST_LOG _ _ _)) _ _ =>
      apply triple_vk_check; [intros ?|]
  | |- triple _ (if ?b then _ else _) _ _ => destruct b
  end.

Ltac triple_auto :=
  unfold JST_DEBUG, JST_INFO, JST_WARN, JST_ERROR, JST_FATAL;
  repeat triple_step; try stable.

(** *** The constructor, block by block *)

Lemma gatherInstanceExtensions_triple :
  triple not_started (gatherInstanceExtensions build drv) (fun _ => not_started)
         failed.
Proof. unfold gatherInstanceExtensions. triple_auto. Qed.

Lemma gatherValidationLayers_triple :
  triple not_started (gatherValidationLayers drv) (fun _ => not_started) failed.
Proof. unfold gatherValidationLayers. triple_auto. Qed.

Lemma createApplication_triple ie vl :
  triple not_started (createApplication build drv ie vl)
         (fun _ s => selecting build s /\ debugReportCallback s = false) failed.
Proof.
  unfold createApplication. unfold JST_DEBUG, JST_FATAL.
  do 3 (apply triple_seq; [triple_auto|intros ?]).
  apply (triple_bind _ _ _ (fun _ s => selecting build s /\ debugReportCallback s = false)).
  - apply triple_vk_create; [intros _|]; stable.
  - intros _. by apply triple_ret.
Qed.

Lemma setupValidationLayers_triple :
  triple (fun s => selecting build s /\ debugReportCallback s = false)
         (setupValidationLayers drv) (fun _ => selecting build) failed.
Proof.
  unfold setupValidationLayers. unfold JST_FATAL.
  apply triple_seq; [triple_auto|intros cfg].
  apply triple_when; [intros _|intros _; stable].
  apply triple_guard; [stable|intros _].
  apply (triple_bind _ _ _ (fun _ s => selecting build (set_debugReportCallback true s))).
  - apply triple_vk_create; [intros _|]; stable.
  - intros _. apply triple_modify. tauto.
Qed.

Lemma at_level_candidates cfg (candidates : list VkPhysicalDevice) :
  Log.at_level Log.FATAL (map (candidate_line cfg) candidates) = [].
Proof. induction candidates as [|d l IH]; [reflexivity|exact IH]. Qed.

Lemma at_level_app l lg1 lg2 :
  Log.at_level l (lg1 ++ lg2) = Log.at_level l lg1 ++ Log.at_level l lg2.
Proof. apply List.filter_app. Qed.

Lemma collectValidPhysicalDevices_triple (R : State -> Prop) cfg :
  triple (selecting build) (collectValidPhysicalDevices cfg (physicalDevices drv) [])
         (fun valid s => selecting build s /\
            valid = List.filter (validCandidate cfg) (physicalDevices drv)) R.
Proof.
  intros s Hs. rewrite collectValidPhysicalDevices_spec.
  split; [|reflexivity].
  pose proof (at_level_candidates cfg (physicalDevices drv)) as Hd.
  revert Hs Hd. generalize (map (candidate_line cfg) (physicalDevices drv)).
  intros added. destruct s as [? ? ? ? ? c rt ? ? ?]; destruct c, rt.
  unfold_inv. cbn -[Log.at_level]. rewrite at_level_app. intros Hs ->.
  rewrite app_nil_r. exact Hs.
Qed.

Lemma getPhysicalDevice_triple :
  triple (selecting build) (getPhysicalDevice drv)
         (fun d s => selecting build s /\ isComplete (FindQueueFamilies d) = true)
         failed.
Proof.
  unfold getPhysicalDevice. unfold JST_FATAL. cbv zeta.
  apply triple_seq; [triple_auto|intros _].
  apply triple_guard; [stable|intros _].
  apply triple_seq; [triple_auto|intros cfg].
  apply triple_guard; [stable|intros _].
  eapply triple_bind; [apply collectValidPhysicalDevices_triple|].
  intros valid. cbv beta.
  apply triple_guard; [stable|intros _].
  apply triple_guard; [stable|intros Hlen].
  intros s [Hs ->].
  apply N.leb_gt in Hlen.
  destruct (lookup_lt_is_Some_2 (List.filter (validCandidate cfg) (physicalDevices drv))
              (N.to_nat (deviceId cfg))) as [d Hd]; [lia|].
  rewrite Hd. cbn.
  split.
  - revert Hs. generalize s. clear. stable.
  - apply list_elem_of_lookup_2, list_elem_of_In, List.filter_In in Hd.
    destruct Hd as [_ Hd]. unfold validCandidate, queueFamilyCheckOf in Hd.
    apply andb_true_iff in Hd. tauto.
Qed.

Lemma gatherDeviceExtensions_triple d :
  triple (selecting build) (gatherDeviceExtensions build d) (fun _ => selecting build)
         failed.
Proof. unfold gatherDeviceExtensions. triple_auto. Qed.

Lemma populateCache_triple d :
  triple (selecting build) (populateCache d) (fun _ => selecting build) failed.
Proof.
  unfold populateCache. cbv zeta.
  apply triple_seq; [triple_auto|intros supported].
  apply triple_seq; [triple_auto|intros old].
  destruct (scanMemoryHeaps _ _) as [memory unified].
  apply triple_modify. stable.
Qed.

Lemma validateMultisampling_triple d rest :
  triple (under_construction build rest) (validateMultisampling d)
         (fun _ => under_construction build rest) failed.
Proof. unfold validateMultisampling. triple_auto. Qed.

Lemma printDeviceInformation_triple :
  triple (completed build) printDeviceInformation (fun _ => completed build) failed.
Proof. unfold printDeviceInformation. triple_auto. Qed.

(** A creating call between the telemetry chain and the end of the
    constructor adds its resource to what is held. *)
Lemma acquire_triple (answer : VkResult) r l fmt a rest :
  l = Log.FATAL \/ l = Log.ERROR ->
  triple (under_construction build rest)
         (JST_VK_CHECK_THROW (creating answer r) (JST_LOG l fmt a))
         (fun _ => under_construction build (rest ++ [r])) failed.
Proof.
  intros Hl. apply triple_vk_create; [intros _|stable].
  intros s H; destruct s as [? ? ? ? ? c rt ? ? ?]; destruct c, rt.
  unfold_inv; cbn -[Log.at_level] in *. destruct H as (Hav & -> & Hrest).
  split; [exact Hav|]. split; [|exact Hrest]. by rewrite !app_assoc.
Qed.

Lemma createLogicalDevice_triple d :
  isComplete (FindQueueFamilies d) = true ->
  triple (under_construction build []) (createLogicalDevice drv d)
         (fun _ => under_construction build [RDevice]) failed.
Proof.
  intros Hc. unfold isComplete in Hc.
  rewrite !andb_true_iff, !bool_decide_eq_true in Hc. destruct Hc as [[Hg Hcf] Hp].
  unfold createLogicalDevice. cbv zeta.
  do 3 (apply triple_seq; [by apply triple_value|intros ?]).
  apply (acquire_triple _ _ _ _ _ []). auto.
Qed.

Lemma bootstrapResources_triple d :
  isComplete (FindQueueFamilies d) = true ->
  triple (under_construction build [RDevice]) (bootstrapResources drv d)
         (fun _ => under_construction build ([RDevice] ++ pooledResources)) failed.
Proof.
  intros Hc. unfold isComplete in Hc.
  rewrite !andb_true_iff, !bool_decide_eq_true in Hc. destruct Hc as [[Hg Hcf] Hp].
  unfold bootstrapResources, createDescriptorPool, createStagingBuffer,
    createDefaultCommandPool, createDefaultCommandBuffer, createDefaultFence,
    JST_FATAL, JST_ERROR.
  cbv zeta.
  eapply triple_bind; [apply acquire_triple; auto|intros ?; cbv beta].
  eapply triple_bind.
  { eapply triple_bind; [apply acquire_triple; auto|intros ?; cbv beta].
    eapply triple_bind; [apply acquire_triple; auto|intros ?; cbv beta].
    apply triple_seq; [apply triple_vk_check; [intros _|]; stable|intros _].
    apply acquire_triple; auto. }
  intros ?; cbv beta. eapply triple_bind.
  { apply triple_seq; [by apply triple_value|intros _]. apply acquire_triple; auto. }
  intros ?; cbv beta. eapply triple_bind; [apply acquire_triple; auto|intros ?; cbv beta].
  apply acquire_triple; auto.
Qed.

Lemma pollTelemetry_no_fatal q s :
  Log.at_level Log.FATAL (log (pollTelemetry build q s).2) =
  Log.at_level Log.FATAL (log s).
Proof.
  pose proof (pollTelemetry_log_step build q s) as Hstep. unfold log_step in Hstep.
  destruct (providerErrorLogged (telemetryRuntime s)).
  - destruct Hstep as [-> _]. reflexivity.
  - destruct Hstep as [[-> _]|(msg & -> & _)]; [reflexivity|].
    by rewrite at_level_snoc.
Qed.

Lemma initializeTelemetry_triple d :
  triple (selecting build) (initializeTelemetry build drv d)
         (fun _ => under_construction build []) failed.
Proof.
  intros s H. destruct s as [cfg sie sde drc pd c rt av lv lg].
  destruct c, rt as [rn pel wk].
  unfold_inv. cbn -[Log.at_level] in H.
  destruct H as (((Hav & Hnof) & Hlv & _ & _) & Htli & Hrn & Hwk). subst.
  unfold initializeTelemetry,
    JST_INFO, JST_WARN, JST_LOG, mbind, M_bind, bind, gets, modify, ret.
  cbn [config supportedInstanceExtensions set_cache cache set_telemetryProviderType
       set_telemetryProviderName set_telemetryHandle set_telemetryLibraryInitialized
       set_toolingInfoFn].
  destruct (JST_BACKEND_HAS_NVML build) eqn:Hb; cbn [negb andb orb];
    [destruct (bool_decide (vendorID (deviceProperties d) = 4318%Z)); cbn [negb andb orb];
     [rewrite setupNvmlTelemetry_result, Hb; cbn [negb config];
      destruct (bool_decide (nvmlInit_v2 drv = NVML_SUCCESS)); cbn [negb andb orb];
      [destruct (bool_decide _); cbn [negb andb orb]|]|]|];
    cbn [set_live set_log set_cache cache supportedInstanceExtensions
         set_telemetryProviderType set_telemetryProviderName set_telemetryHandle
         set_telemetryLibraryInitialized set_toolingInfoFn negb andb orb];
    try (destruct (bool_decide (VK_EXT_TOOLING_INFO_EXTENSION_NAME ∈ sie));
         cbn [negb andb orb];
         [destruct (has_vkGetPhysicalDeviceToolPropertiesEXT drv); cbn [negb andb orb]|]);
    cbn [set_live set_log set_cache cache supportedInstanceExtensions
         set_telemetryProviderType set_telemetryProviderName set_telemetryHandle
         set_telemetryLibraryInitialized set_toolingInfoFn negb andb orb];
    try (match goal with
         | |- context [pollTelemetry build ?q ?st] =>
             pose proof (pollTelemetry_no_fatal q st) as Hnf;
             destruct (pollTelemetry_footprint build q st)
               as (lp & th & fl & lg' & Hp & _);
             rewrite Hp in Hnf |- *;
             cbn [snd log set_log set_telemetryRuntime set_cache] in Hnf
         end);
    destruct drc; cbn -[Log.at_level]; repeat split;
    cbn [fst snd log set_log set_telemetryRuntime set_cache set_live cache
         telemetryRuntime];
    rewrite ?at_level_snoc by discriminate;
    try rewrite Hnf; rewrite ?at_level_snoc by discriminate;
    try done; try (intros [? ?]; done); eauto.
Qed.

Lemma triple_pure {A} (P : State -> Prop) (phi : Prop) (m : M A) Q R :
  (phi -> triple P m Q R) -> triple (fun s => P s /\ phi) m Q R.
Proof. intros H s [Hs Hphi]. by apply H. Qed.

Lemma Vulkan_ctor_triple :
  triple not_started (Vulkan_ctor build drv)
         (fun _ => completed build) failed.
Proof.
  unfold Vulkan_ctor.
  eapply triple_bind; [apply gatherInstanceExtensions_triple|intros ie; cbv beta].
  eapply triple_bind; [apply gatherValidationLayers_triple|intros vl; cbv beta].
  eapply triple_bind; [apply createApplication_triple|intros ?; cbv beta].
  eapply triple_bind; [apply setupValidationLayers_triple|intros ?; cbv beta].
  eapply triple_bind; [apply getPhysicalDevice_triple|intros d; cbv beta].
  apply triple_pure. intros Hcomplete.
  eapply triple_bind; [apply gatherDeviceExtensions_triple|intros ?; cbv beta].
  eapply triple_bind; [apply populateCache_triple|intros ?; cbv beta].
  eapply triple_bind; [apply initializeTelemetry_triple|intros ?; cbv beta].
  eapply triple_bind; [by apply createLogicalDevice_triple|intros ?; cbv beta].
  eapply triple_bind; [apply validateMultisampling_triple|intros ?; cbv beta].
  eapply triple_bind; [by apply bootstrapResources_triple|intros ?; cbv beta].
  apply (triple_bind _ _ _ (fun _ => completed build)).
  - apply triple_modify. stable.
  - intros _.
    apply printDeviceInformation_triple.
Qed.

Lemma initial_not_started cfg : not_started (initial cfg).
Proof. by repeat split. Qed.

Lemma holding_releasable s :
  holding build ([RDevice] ++ pooledResources) s -> releasable build s.
Proof.
  destruct s as [? ? ? drc ? c ? ? ? ?]. destruct c. unfold holding, releasable,
    optionalResources. cbn. intros (-> & Hn & _).
  destruct drc, telemetryLibraryInitialized0; cbn; split; intros Hin;
    repeat (apply elem_of_cons in Hin as [Hin|Hin]; try discriminate Hin);
    try (by apply elem_of_nil in Hin); intuition.
Qed.

(** X14. Whatever the build, the driver and the configuration, the steps
    of the constructor never end the program themselves and never fail on an
    absent queue family: the body either returns or throws the fatal result,
    and when it throws the object is not available.  What the caller sees
    then depends on the telemetry worker.  When the body throws before a
    worker thread was started, the fatal result reaches the caller.  When it
    throws after a provider was committed, the worker thread is still
    joinable while the members are unwound, and the program ends
    ([std::terminate]).  When the body returns the object is available and
    holds exactly the instance, the debug callback if one is recorded, the
    vendor library if one is recorded, the logical device and the seven
    pooled resources, in that order; the conditional releases of the
    destructor match what is held, and a worker thread exists exactly when
    the scheduler is running. *)
Theorem construct_outcome (cfg : Config) :
  let body := Vulkan_ctor build drv (initial cfg) in
  let r := construct build drv cfg in
  body.1 <> Terminated /\
  r.2 = body.2 /\
  match r.1 with
  | Returned _ =>
      body.1 = Returned tt /\
      _isAvailable r.2 = true /\
      live r.2 = [RInstance] ++ optionalResources r.2 ++ [RDevice] ++ pooledResources /\
      releasable build r.2 /\
      worker_matches_running r.2
  | Thrown e =>
      e = Jetstream Result_FATAL /\
      body.1 = Thrown (Jetstream Result_FATAL) /\
      _isAvailable r.2 = false /\
      worker (telemetryRuntime r.2) = None
  | Terminated =>
      body.1 = Thrown (Jetstream Result_FATAL) /\
      _isAvailable r.2 = false /\
      is_Some (worker (telemetryRuntime r.2))
  end.
Proof.
  cbv zeta. unfold construct.
  pose proof (Vulkan_ctor_triple (initial cfg) (initial_not_started cfg)) as H.
  destruct (Vulkan_ctor build drv (initial cfg)) as [[a|e|] s]; cbn [fst snd unwind].
  - split; [done|]. split; [done|]. destruct a.
    destruct H as (Hav & _ & Hh). split; [done|]. split; [exact Hav|].
    split; [apply Hh|]. split; [by apply holding_releasable|apply Hh].
  - split; [done|]. destruct H as (He & Hav & _). subst e.
    destruct (bool_decide_reflect (is_Some (worker (telemetryRuntime s)))) as [Hw|Hw];
      cbn [fst snd]; (split; [done|]).
    + by repeat split.
    + repeat split; try done.
      destruct (worker (telemetryRuntime s)); [|done]. by destruct Hw.
  - destruct H.
Qed.

(** X15. The lines the constructor logs tell how it ended.  When it
    returns, it has logged no fatal line.  When it throws, the last line it
    logged is a fatal or an error line, the one that names the failure, and
    no fatal line comes before it. *)
Theorem construct_failure_is_logged (cfg : Config) :
  let r := construct build drv cfg in
  match r.1 with
  | Returned _ => Log.at_level Log.FATAL (log r.2) = []
  | _ =>
      exists lines line,
        log r.2 = lines ++ [line] /\
        Log.at_level Log.FATAL lines = [] /\
        (Log.level line = Log.FATAL \/ Log.level line = Log.ERROR)
  end.
Proof.
  cbv zeta. unfold construct.
  pose proof (Vulkan_ctor_triple (initial cfg) (initial_not_started cfg)) as H.
  destruct (Vulkan_ctor build drv (initial cfg)) as [[a|e|] s]; cbn [fst snd unwind].
  - apply H.
  - destruct (bool_decide (is_Some (worker (telemetryRuntime s)))); apply H.
  - destruct H.
Qed.

Lemma nothing_left (l : list Resource) : (forall x, x ∉ l) -> l = [].
Proof. destruct l as [|a l]; [done|]. intros H. exfalso. apply (H a). by left. Qed.

Lemma filter_filter {A} (p q : A -> bool) (l : list A) :
  List.filter p (List.filter q l) = List.filter (fun x => q x && p x) l.
Proof.
  induction l as [|a l IH]; [reflexivity|]. cbn.
  destruct (q a); cbn; [destruct (p a)|]; by rewrite IH.
Qed.

Lemma Vulkan_dtor_result (s : State) :
  exists c',
    Vulkan_dtor build s =
    (Returned tt,
     set_live (List.filter (unreleased build s))
       (set_cache (fun _ => c')
          (set_telemetryRuntime
             (fun rt => mkTelemetryRuntime false (providerErrorLogged rt)
                          (if running rt && bool_decide (is_Some (worker rt))
                           then None else worker rt)) s))).
Proof.
  destruct s as [cfg sie sde drc pd c rt av lv lg]. destruct c, rt as [rn pel wk].
  unfold Vulkan_dtor, stopTelemetryPolling, stopTelemetryPolling_exchange, join, when,
    release, unreleased, mbind, M_bind, bind, gets, modify, ret.
  cbn [telemetryRuntime set_telemetryRuntime running worker set_running set_worker].
  destruct (rn && bool_decide (is_Some wk));
    cbn [fst snd cache set_cache set_live live debugReportCallback telemetryRuntime
         set_telemetryRuntime running worker set_running set_worker log
         telemetryProviderType telemetryLibraryInitialized providerErrorLogged];
    destruct (JST_BACKEND_HAS_NVML build &&
              bool_decide (telemetryProviderType0 = Telemetry.NVML) &&
              telemetryLibraryInitialized0);
    destruct drc;
    cbn [fst snd cache set_cache set_live live debugReportCallback telemetryRuntime
         set_telemetryRuntime running worker set_running set_worker log
         set_telemetryLibraryInitialized negb];
    eexists; rewrite !filter_filter; f_equal; f_equal;
    apply List.filter_ext; intros x; destruct x; reflexivity.
Qed.

Lemma session_releasable qs s :
  releasable build s -> releasable build (session build qs s).2.
Proof.
  revert s. induction qs as [|q qs IH]; intros s Hs; [exact Hs|].
  rewrite session_cons. apply IH.
  destruct (pollTelemetry_footprint build q s) as (lp & th & fl & lg' & Hp & _).
  rewrite Hp. destruct s as [? ? ? ? ? c ? ? ? ?]. destruct c. exact Hs.
Qed.

Lemma session_worker qs s :
  worker_matches_running s -> worker_matches_running (session build qs s).2.
Proof.
  revert s. induction qs as [|q qs IH]; intros s Hs; [exact Hs|].
  rewrite session_cons. apply IH.
  destruct (pollTelemetry_footprint build q s) as (lp & th & fl & lg' & Hp & _).
  rewrite Hp. destruct s as [? ? ? ? ? ? rt ? ? ?]. destruct rt. exact Hs.
Qed.

Lemma releasable_unreleased s x :
  releasable build s -> x ∈ live s -> unreleased build s x = false.
Proof.
  intros [Hdbg Hnv] Hin. unfold unreleased.
  destruct (bool_decide_reflect (x = RNvmlLibrary)) as [->|Hx].
  - destruct (Hnv Hin) as (-> & -> & ->). reflexivity.
  - destruct (bool_decide_reflect (x = RDebugReportCallback)) as [->|Hy];
      [|reflexivity].
    by rewrite (Hdbg Hin).
Qed.

(** X16. The destructor always returns, logs nothing and leaves the
    scheduler stopped.  It releases every held resource but two kinds: a
    vendor library that is not recorded as the initialised NVML provider
    and a debug callback that the object does not record; so nothing is
    left held exactly when what is held of these two is recorded. *)
Theorem Vulkan_dtor_releases_what_is_recorded (s : State) :
  let r := Vulkan_dtor build s in
  r.1 = Returned tt /\
  log r.2 = log s /\
  running (telemetryRuntime r.2) = false /\
  live r.2 = List.filter (unreleased build s) (live s) /\
  (live r.2 = [] <-> releasable build s).
Proof.
  cbv zeta. destruct (Vulkan_dtor_result s) as [c' ->].
  destruct s as [cfg sie sde drc pd c rt av lv lg]. 
  cbn [fst snd log live telemetryRuntime set_live set_cache set_telemetryRuntime running].
  do 4 (split; [reflexivity|]).
  split.
  - intros Hnil.
    assert (Hout : forall x, x ∈ lv -> unreleased build
              (mkState cfg sie sde drc pd c rt av lv lg) x = false).
    { intros x Hin. apply not_true_is_false. intros Hx.
      assert (Hm : x ∈ List.filter
                (unreleased build (mkState cfg sie sde drc pd c rt av lv lg)) lv).
      { apply list_elem_of_In, List.filter_In. split; [by apply list_elem_of_In|exact Hx]. }
      rewrite Hnil in Hm. by apply elem_of_nil in Hm. }
    unfold releasable, unreleased in *. cbn in *. split; intros Hin.
    + specialize (Hout _ Hin). cbn in Hout. by destruct drc.
    + specialize (Hout _ Hin). cbn in Hout. rewrite orb_false_r in Hout.
      apply negb_false_iff in Hout.
      rewrite !andb_true_iff, bool_decide_eq_true in Hout. tauto.
  - intros Hrel. apply nothing_left. intros x Hx.
    apply list_elem_of_In, List.filter_In in Hx. destruct Hx as [Hin Hx].
    rewrite (releasable_unreleased _ x Hrel) in Hx; [discriminate|].
    by apply list_elem_of_In.
Qed.

(** X17. No leak over a whole life: when the constructor returns, then
    after any number of polls the destructor returns and leaves no native
    resource held, the scheduler stopped and no worker thread owned. *)
Theorem constructed_backend_is_torn_down (cfg : Config) (qs : list Sample) :
  (construct build drv cfg).1 = Returned tt ->
  let s := (session build qs (construct build drv cfg).2).2 in
  let r := Vulkan_dtor build s in
  r.1 = Returned tt /\
  live r.2 = [] /\
  running (telemetryRuntime r.2) = false /\
  worker (telemetryRuntime r.2) = None.
Proof.
  intros Hret. cbv zeta. unfold construct in *.
  pose proof (Vulkan_ctor_triple (initial cfg) (initial_not_started cfg)) as H.
  destruct (Vulkan_ctor build drv (initial cfg)) as [[a|e|] s]; cbn [unwind] in Hret;
    [|by destruct (bool_decide (is_Some (worker (telemetryRuntime s))))|discriminate Hret].
  cbn [fst snd unwind] in *. destruct H as (_ & _ & Hh).
  pose proof (session_releasable qs s (holding_releasable s Hh)) as Hrel.
  assert (Hw : worker_matches_running (session build qs s).2).
  { apply session_worker, Hh. }
  destruct (Vulkan_dtor_result (session build qs s).2) as [c' ->].
  set (s' := (session build qs s).2) in *. clearbody s'.
  destruct s' as [cfg' sie sde drc pd c rt av lv lg]. destruct rt as [rn pel wk].
  unfold worker_matches_running in Hw.
  cbn [fst snd live telemetryRuntime set_live set_cache set_telemetryRuntime running
       worker providerErrorLogged] in *.
  split; [reflexivity|]. split; [|split; [reflexivity|]].
  - apply nothing_left. intros x Hx.
    apply list_elem_of_In, List.filter_In in Hx. destruct Hx as [Hin Hx].
    rewrite (releasable_unreleased _ x Hrel) in Hx; [discriminate|].
    by apply list_elem_of_In.
  - destruct rn; cbn.
    + rewrite bool_decide_eq_true_2; [reflexivity|by apply Hw].
    + destruct wk as [w|]; [|reflexivity].
      assert (false = true) by (apply Hw; eauto). discriminate.
Qed.

End Lifecycle.

(** ** The polling loops *)

Section WorkerLoop.

Import Vulkan.

Variable build : Build.

Lemma pollTelemetry_set_worker q w s :
  pollTelemetry build q (set_telemetryRuntime (set_worker w) s) =
  (Returned tt, set_telemetryRuntime (set_worker w) (pollTelemetry build q s).2).
Proof.
  destruct s as [cfg sie sde drc pd c rt av lv lg].
  destruct c, rt as [rn pel wk], q as [[[ps psv] [ts tsv] [us usv] [ls lsv]] [cr tr tp]].
  unfold_monad; simpl.
  repeat match goal with
         | |- context [bool_decide ?P] => destruct (bool_decide P); simpl
         | |- context [if ?b then _ else _] => destruct b; simpl
         | |- context [match ?x with _ => _ end] => destruct x; simpl
         end; reflexivity.
Qed.

Lemma set_worker_same s w :
  worker (telemetryRuntime s) = w -> set_telemetryRuntime (set_worker w) s = s.
Proof. destruct s as [? ? ? ? ? ? rt ? ? ?]. destruct rt. cbn. by intros ->. Qed.

Lemma set_worker_twice s w w' :
  set_telemetryRuntime (set_worker w) (set_telemetryRuntime (set_worker w') s) =
  set_telemetryRuntime (set_worker w) s.
Proof. destruct s as [? ? ? ? ? ? rt ? ? ?]. by destruct rt. Qed.

(** One turn of the worker's loop: the loop test, the poll, the sleep. *)
Lemma worker_turn q x :
  terminated x = false ->
  running (telemetryRuntime (obj x)) = true ->
  worker (telemetryRuntime (obj x)) = Some AtLoopTest ->
  run build [WorkerStep q; WorkerStep q; WorkerStep q] x =
  Some (mkSched (pollTelemetry build q (obj x)).2 (caller x) (S (polls x)) false).
Proof.
  destruct x as [s c n t]. cbn [obj caller polls terminated]. intros -> Hrun Hwk.
  assert (Hstep : forall e s' c' n', step build (WorkerStep e) (mkSched s' c' n' false) =
                                     workerStep build e (mkSched s' c' n' false)).
  { intros e s' c' n'. unfold step. cbn. by destruct c'. }
  cbn [run]. rewrite Hstep. unfold workerStep at 1. cbn [obj caller polls terminated].
  rewrite Hwk, Hrun. rewrite Hstep. unfold workerStep at 1.
  cbn [obj caller polls terminated]. rewrite telemetryRuntime_set_worker. cbn [worker].
  rewrite pollTelemetry_set_worker. rewrite Hstep. unfold workerStep at 1.
  cbn [obj caller polls terminated]. rewrite !telemetryRuntime_set_worker. cbn [worker].
  rewrite !set_worker_twice. rewrite set_worker_same; [reflexivity|].
  destruct (pollTelemetry_frame build q s) as (_ & _ & _ & Hw & _). by rewrite Hw.
Qed.

(** X18. Left alone, the worker thread does what a session of polls
    does: while [running] stays set, every turn of its loop (test, poll,
    sleep) is enabled, makes exactly one poll and comes back to the loop
    test, so after one turn per sample the object is in the state reached
    by polling the samples one after the other and the poll count has grown
    by their number. *)
Theorem worker_loop_is_a_session (qs : list Sample) (x : Sched) :
  terminated x = false ->
  running (telemetryRuntime (obj x)) = true ->
  worker (telemetryRuntime (obj x)) = Some AtLoopTest ->
  run build (flat_map (fun q => [WorkerStep q; WorkerStep q; WorkerStep q]) qs) x =
  Some (mkSched (session build qs (obj x)).2 (caller x) (polls x + length qs) false).
Proof.
  revert x. induction qs as [|q qs IH]; intros x Ht Hrun Hwk.
  - destruct x as [s c n t]. cbn in *. subst t. by rewrite Nat.add_0_r.
  - cbn [flat_map]. 
    change ([WorkerStep q; WorkerStep q; WorkerStep q] ++ ?l)
      with (WorkerStep q :: WorkerStep q :: WorkerStep q :: l).
    pose proof (worker_turn q x Ht Hrun Hwk) as Hturn.
    cbn [run] in Hturn |- *.
    destruct (step build (WorkerStep q) x) as [x1|]; [|discriminate].
    destruct (step build (WorkerStep q) x1) as [x2|]; [|discriminate].
    destruct (step build (WorkerStep q) x2) as [x3|]; [|discriminate].
    injection Hturn as ->.
    destruct (pollTelemetry_frame build q (obj x)) as (_ & _ & Hr & Hw & _).
    rewrite IH; cbn [obj caller polls terminated]; [|reflexivity|congruence|congruence].
    rewrite session_cons. f_equal. f_equal. cbn [length]. lia.
Qed.

End WorkerLoop.

Section BrowserChain.

Import WebGPU.

Lemma fire_rearms q s :
  telemetryActive s = true -> pending s = 1 ->
  step (Fire q) s = Some (refreshTelemetry q s).
Proof.
  intros Ha Hp. destruct s as [lp th pt pn act lw tw lg pe po], q as [h b].
  cbn in Ha, Hp. subst act pe. unfold step, TelemetryPump, scheduleTelemetryRefresh,
    refreshTelemetry. simpl.
  destruct (0 <=? h)%Z, (0 <=? b)%Z, lw, tw; reflexivity.
Qed.

Lemma chain_runs qs s :
  telemetryActive s = true -> pending s = 1 ->
  run (map Fire qs) s = Some (session qs s) /\
  telemetryActive (session qs s) = true /\ pending (session qs s) = 1 /\
  polls (session qs s) = polls s + length qs.
Proof.
  revert s. induction qs as [|q qs IH]; intros s Ha Hp.
  - cbn. repeat split; auto.
  - cbn [map run]. rewrite fire_rearms by assumption.
    destruct (refreshTelemetry_frame q s) as (Hp' & Ha' & Hn).
    destruct (IH (refreshTelemetry q s)) as (Hrun & Hact & Hpen & Hpol);
      [congruence|congruence|].
    change (session (q :: qs) s) with (session qs (refreshTelemetry q s)).
    rewrite Hrun, Hact, Hpen, Hpol, Hn. cbn [length]. repeat split; lia.
Qed.

(** X19. The browser chain of callbacks: from the constructed object
    each callback that fires refreshes the telemetry once and queues
    exactly one successor, so any number of callbacks can fire and the
    object goes through the states of a session of refreshes.  After the
    destructor the one callback still queued fires without refreshing or
    queueing, and then no callback is left: the chain has ended, with the
    values of the last refresh in place. *)
Theorem browser_callback_chain (qs : list Hints) (q : Hints) :
  let alive := session qs constructed in
  run (map Fire qs) constructed = Some alive /\
  pending alive = 1 /\ polls alive = length qs /\
  exists ended,
    run (map Fire qs ++ [Destroy; Fire q]) constructed = Some ended /\
    pending ended = 0 /\ polls ended = length qs /\
    lowPowerStatus ended = lowPowerStatus alive /\
    getThermalState ended = getThermalState alive /\
    log ended = log alive /\
    forall q', step (Fire q') ended = None.
Proof.
  cbv zeta.
  destruct (chain_runs qs constructed) as (Hrun & Hact & Hpen & Hpol);
    [reflexivity|reflexivity|].
  change (polls constructed) with 0 in Hpol. cbn [plus] in Hpol.
  split; [exact Hrun|]. split; [exact Hpen|]. split; [exact Hpol|].
  assert (Happ : forall es1 es2 s s', run es1 s = Some s' ->
                                      run (es1 ++ es2) s = run es2 s').
  { induction es1 as [|e es1 IH]; intros es2 s s' H; cbn in *; [congruence|].
    destruct (step e s); [by apply IH|discriminate]. }
  rewrite (Happ _ _ _ _ Hrun).
  destruct (session qs constructed) as [lp th pt pn act lw tw lg pe po].
  cbn in Hact, Hpen, Hpol. subst act pe po.
  eexists. split; [reflexivity|]. cbn. repeat split.
Qed.

End BrowserChain.

(** ** The store's filtered lists *)

Section StoreFilters.

Import Store.

Lemma tolower_idemp c : tolower (tolower c) = tolower c.
Proof. destruct c as [[] [] [] [] [] [] [] []]; reflexivity. Qed.

Lemma ToLowerInPlace_idemp s : ToLowerInPlace (ToLowerInPlace s) = ToLowerInPlace s.
Proof. induction s as [|c s IH]; cbn; [reflexivity|]. by rewrite tolower_idemp, IH. Qed.

Lemma ToLowerInPlace_empty s : ToLowerInPlace s = EmptyString <-> s = EmptyString.
Proof. destruct s; cbn; split; congruence. Qed.

Lemma starts_with_spec needle hay :
  starts_with needle hay = true <-> exists after, hay = needle +:+ after.
Proof.
  revert hay. induction needle as [|a needle IH]; intros hay; cbn.
  - split; [intros _; by exists hay|done].
  - destruct hay as [|b hay]; cbn.
    + split; [discriminate|]. intros [after Hafter]. discriminate.
    + rewrite andb_true_iff, bool_decide_eq_true, IH. split.
      * intros [-> [after ->]]. by exists after.
      * intros [after Hafter]. injection Hafter as -> ->. split; [reflexivity|by exists after].
Qed.

Lemma find_spec hay needle : find hay needle <> None <-> occurs_in needle hay.
Proof.
  unfold occurs_in. induction hay as [|b hay IH]; cbn.
  - destruct (starts_with needle EmptyString) eqn:Hs.
    + split; [intros _|done]. apply starts_with_spec in Hs as [after Hafter].
      by exists EmptyString, after.
    + split; [done|]. intros (before & after & Heq).
      destruct before as [|c before]; [|discriminate].
      assert (starts_with needle EmptyString = true); [|congruence].
      apply starts_with_spec. by exists after.
  - destruct (starts_with needle (String b hay)) eqn:Hs.
    + split; [intros _|done]. apply starts_with_spec in Hs as [after Hafter].
      by exists EmptyString, after.
    + destruct (find hay needle) as [n|]; cbn.
      * split; [intros _|done]. destruct IH as [IH _].
        destruct IH as (before & after & ->); [done|].
        by exists (String b before), after.
      * split; [done|]. intros ([|c before] & after & Heq).
        -- assert (starts_with needle (String b hay) = true); [|congruence].
           apply starts_with_spec. by exists after.
        -- injection Heq as -> ->. destruct IH as [_ IH]. exfalso. apply IH; [|done].
           by exists before, after.
Qed.

Lemma find_empty hay : find hay EmptyString = Some 0.
Proof. by destruct hay. Qed.

(** X20. What the two filters decide.  A block passes when the filter
    is empty or the lower-cased filter occurs in the lower-cased title,
    summary or description; a flowgraph passes when the lower-cased filter
    occurs in its lower-cased title or description - which the empty filter
    always does, although only the block filter tests for it.  Two filters
    that differ only in the case of their letters decide alike. *)
Theorem filters_search_without_case (f : string) (b : Block.Metadata)
        (g : Flowgraph.Metadata) :
  (blockMatches f b = true <->
   f = EmptyString \/
   occurs_in (ToLowerInPlace f) (ToLowerInPlace (Block.title b)) \/
   occurs_in (ToLowerInPlace f) (ToLowerInPlace (Block.summary b)) \/
   occurs_in (ToLowerInPlace f) (ToLowerInPlace (Block.description b))) /\
  (flowgraphMatches f g = true <->
   occurs_in (ToLowerInPlace f) (ToLowerInPlace (Flowgraph.title g)) \/
   occurs_in (ToLowerInPlace f) (ToLowerInPlace (Flowgraph.description g))) /\
  flowgraphMatches EmptyString g = true /\
  (forall f', ToLowerInPlace f' = ToLowerInPlace f ->
              blockMatches f' b = blockMatches f b /\
              flowgraphMatches f' g = flowgraphMatches f g) /\
  blockMatches (ToLowerInPlace f) b = blockMatches f b /\
  flowgraphMatches (ToLowerInPlace f) g = flowgraphMatches f g.
Proof.
  assert (Hsame : forall f', ToLowerInPlace f' = ToLowerInPlace f ->
              blockMatches f' b = blockMatches f b /\
              flowgraphMatches f' g = flowgraphMatches f g).
  { intros f' Hf. unfold blockMatches, flowgraphMatches. cbv zeta. rewrite Hf.
    split; [|reflexivity]. f_equal. apply bool_decide_ext.
    rewrite <- (ToLowerInPlace_empty f'), Hf. apply ToLowerInPlace_empty. }
  split; [|split; [|split; [|split; [exact Hsame|]]]].
  - unfold blockMatches. cbv zeta.
    rewrite !orb_true_iff, !bool_decide_eq_true, !find_spec. tauto.
  - unfold flowgraphMatches. cbv zeta.
    rewrite !orb_true_iff, !bool_decide_eq_true, !find_spec. tauto.
  - unfold flowgraphMatches. cbn. by rewrite find_empty.
  - apply Hsame, ToLowerInPlace_idemp.
Qed.

End StoreFilters.

Section StoreLists.

Import Store.

Context {K : Type} `{Countable K}.

Lemma NoDup_fst_filter {V} (P : K * V -> Prop) `{!forall x, Decision (P x)}
      (l : list (K * V)) :
  NoDup l.*1 -> NoDup (filter P l).*1.
Proof.
  intros Hl. eapply sublist_NoDup; [exact Hl|].
  apply fmap_sublist, sublist_filter.
Qed.

Lemma foldl_collect {V} (matches : V -> bool) (l : list (K * V)) (acc : gmap K V) :
  NoDup l.*1 ->
  foldl (fun filtered '(key, value) =>
           if matches value then <[key := value]> filtered else filtered) acc l =
  list_to_map (filter (fun kv => matches kv.2 = true) l) ∪ acc.
Proof.
  revert acc. induction l as [|[k0 v0] l IH]; intros acc Hl.
  - cbn. by rewrite (left_id_L ∅ (∪)).
  - apply NoDup_cons in Hl as [Hk0 Hl]. cbn [foldl]. rewrite IH by exact Hl.
    destruct (matches v0) eqn:Hm.
    + rewrite filter_cons_True by exact Hm. cbn [list_to_map foldr].
      rewrite <- insert_union_l. rewrite <- insert_union_r; [reflexivity|].
      apply not_elem_of_list_to_map_1. intros Hin. apply Hk0.
      apply list_elem_of_fmap in Hin as ([k v] & -> & Hin).
      apply list_elem_of_filter in Hin as [_ Hin].
      apply list_elem_of_fmap. by exists (k, v).
    + rewrite filter_cons_False; [reflexivity|]. cbn. congruence.
Qed.

Lemma collect_filter {V} (matches : V -> bool) (source : gmap K V) :
  collect matches source ∅ = filter (fun kv => matches kv.2 = true) source.
Proof.
  unfold collect. rewrite foldl_collect by apply NoDup_fst_map_to_list.
  rewrite (right_id_L ∅ (∪)). apply map_eq. intros k. apply option_eq. intros v.
  rewrite <- elem_of_list_to_map
    by (apply NoDup_fst_filter, NoDup_fst_map_to_list).
  rewrite list_elem_of_filter, elem_of_map_to_list, map_lookup_filter_Some. cbn. tauto.
Qed.

Lemma _blockList_answer f (st : State K) :
  block_cache_consistent st ->
  (_blockList f st).1 = Vulkan.Result_SUCCESS /\
  blockFilteredMetadataList (_blockList f st).2 =
    filter (fun kv => blockMatches f kv.2 = true) (blockMetadataList st) /\
  lastBlockFilter (_blockList f st).2 = f /\
  blockMetadataList (_blockList f st).2 = blockMetadataList st /\
  flowgraphMetadataList (_blockList f st).2 = flowgraphMetadataList st /\
  filteredFlowgraphMetadataList (_blockList f st).2 = filteredFlowgraphMetadataList st /\
  lastFlowgraphFilter (_blockList f st).2 = lastFlowgraphFilter st.
Proof.
  intros Hc. unfold _blockList.
  destruct (bool_decide_reflect (f = lastBlockFilter st)) as [->|Hf]; cbn [andb].
  - destruct (bool_decide_reflect (blockFilteredMetadataList st = ∅)) as [He|He];
      cbn [negb fst snd blockFilteredMetadataList lastBlockFilter blockMetadataList
           flowgraphMetadataList filteredFlowgraphMetadataList lastFlowgraphFilter].
    + rewrite collect_filter. by repeat split.
    + destruct Hc as [Hc|Hc]; [contradiction|]. by repeat split.
  - cbn. rewrite collect_filter. by repeat split.
Qed.

Lemma _flowgraphList_answer f (st : State K) :
  flowgraph_cache_consistent st ->
  (_flowgraphList f st).1 = Vulkan.Result_SUCCESS /\
  filteredFlowgraphMetadataList (_flowgraphList f st).2 =
    filter (fun kv => flowgraphMatches f kv.2 = true) (flowgraphMetadataList st) /\
  lastFlowgraphFilter (_flowgraphList f st).2 = f /\
  blockMetadataList (_flowgraphList f st).2 = blockMetadataList st /\
  flowgraphMetadataList (_flowgraphList f st).2 = flowgraphMetadataList st /\
  blockFilteredMetadataList (_flowgraphList f st).2 = blockFilteredMetadataList st /\
  lastBlockFilter (_flowgraphList f st).2 = lastBlockFilter st.
Proof.
  intros Hc. unfold _flowgraphList.
  destruct (bool_decide_reflect (f = lastFlowgraphFilter st)) as [->|Hf]; cbn [andb].
  - destruct (bool_decide_reflect (filteredFlowgraphMetadataList st = ∅)) as [He|He];
      cbn [negb fst snd blockFilteredMetadataList lastBlockFilter blockMetadataList
           flowgraphMetadataList filteredFlowgraphMetadataList lastFlowgraphFilter].
    + rewrite collect_filter. by repeat split.
    + destruct Hc as [Hc|Hc]; [contradiction|]. by repeat split.
  - cbn. rewrite collect_filter. by repeat split.
Qed.

Lemma query_consistent q (st : State K) :
  block_cache_consistent st -> flowgraph_cache_consistent st ->
  block_cache_consistent (query q st) /\ flowgraph_cache_consistent (query q st) /\
  blockMetadataList (query q st) = blockMetadataList st /\
  flowgraphMetadataList (query q st) = flowgraphMetadataList st.
Proof.
  intros Hb Hf. destruct q as [f|f]; cbn [query].
  - destruct (_blockList_answer f st Hb) as (_ & Ha & Hl & Hm & Hfm & Hff & Hfl).
    unfold block_cache_consistent, flowgraph_cache_consistent.
    rewrite Ha, Hl, Hm, Hfm, Hff, Hfl. split; [by right|]. by split.
  - destruct (_flowgraphList_answer f st Hf) as (_ & Ha & Hl & Hm & Hfm & Hff & Hfl).
    unfold block_cache_consistent, flowgraph_cache_consistent.
    rewrite Ha, Hl, Hm, Hfm, Hff, Hfl. split; [exact Hb|]. split; [by right|]. by split.
Qed.

Lemma queries_consistent qs (st : State K) :
  block_cache_consistent st -> flowgraph_cache_consistent st ->
  block_cache_consistent (queries qs st) /\ flowgraph_cache_consistent (queries qs st) /\
  blockMetadataList (queries qs st) = blockMetadataList st /\
  flowgraphMetadataList (queries qs st) = flowgraphMetadataList st.
Proof.
  revert st. induction qs as [|q qs IH]; intros st Hb Hf; [by repeat split|].
  cbn [queries foldl]. fold (queries qs (query q st)).
  destruct (query_consistent q st Hb Hf) as (Hb' & Hf' & Hm & Hfm).
  destruct (IH _ Hb' Hf') as (? & ? & Hm' & Hfm'). rewrite Hm', Hfm', Hm, Hfm.
  by repeat split.
Qed.

(** X21. The caches are transparent.  On a store built from two
    manifests, after any sequence of block and flowgraph queries, a block
    query succeeds and leaves as the filtered list exactly the blocks of
    the manifest that pass the filter, whether it answered from the cache
    or walked the manifest again; the same holds of a flowgraph query; and
    neither manifest has changed. *)
Theorem filtered_lists_are_exact (blocks : gmap K Block.Metadata)
        (flowgraphs : gmap K Flowgraph.Metadata) (qs : list Query) (f : string) :
  let st := queries qs (Store_ctor blocks flowgraphs) in
  ((_blockList f st).1 = Vulkan.Result_SUCCESS /\
   blockFilteredMetadataList (_blockList f st).2 =
     filter (fun kv => blockMatches f kv.2 = true) blocks) /\
  ((_flowgraphList f st).1 = Vulkan.Result_SUCCESS /\
   filteredFlowgraphMetadataList (_flowgraphList f st).2 =
     filter (fun kv => flowgraphMatches f kv.2 = true) flowgraphs) /\
  blockMetadataList st = blocks /\ flowgraphMetadataList st = flowgraphs.
Proof.
  cbv zeta.
  destruct (queries_consistent qs (Store_ctor blocks flowgraphs)) as (Hb & Hf & Hm & Hfm);
    [by left|by left|].
  cbn in Hm, Hfm.
  destruct (_blockList_answer f _ Hb) as (Hr & Ha & _).
  destruct (_flowgraphList_answer f _ Hf) as (Hr' & Ha' & _).
  rewrite Hr, Ha, Hr', Ha', Hm, Hfm. by repeat split.
Qed.

(** X22. The empty filter lists everything: after any sequence of
    queries, a block query with the empty filter leaves the whole block
    manifest as the filtered list, and a flowgraph query with the empty
    filter the whole flowgraph manifest. *)
Theorem empty_filter_lists_everything (blocks : gmap K Block.Metadata)
        (flowgraphs : gmap K Flowgraph.Metadata) (qs : list Query) :
  let st := queries qs (Store_ctor blocks flowgraphs) in
  blockFilteredMetadataList (_blockList EmptyString st).2 = blocks /\
  filteredFlowgraphMetadataList (_flowgraphList EmptyString st).2 = flowgraphs.
Proof.
  cbv zeta.
  destruct (queries_consistent qs (Store_ctor blocks flowgraphs)) as (Hb & Hf & Hm & Hfm);
    [by left|by left|].
  cbn in Hm, Hfm.
  destruct (_blockList_answer EmptyString _ Hb) as (_ & Ha & _).
  destruct (_flowgraphList_answer EmptyString _ Hf) as (_ & Ha' & _).
  rewrite Ha, Ha', Hm, Hfm. split; apply map_filter_id; intros k v _; cbn.
  - unfold blockMatches. cbv zeta. rewrite (bool_decide_eq_true_2 (EmptyString = EmptyString))
      by reflexivity. by rewrite !orb_true_r.
  - unfold flowgraphMatches. cbn. by rewrite find_empty.
Qed.

End StoreLists.

(** ** Polls on the success path and without a source *)

Section PollPaths.

Import Vulkan.
Local Open Scope Z_scope.

Variable build : Build.

(** X23. An NVML poll in which all four queries succeed stores the
    thermal bucket of the temperature read and the power-budget
    classification of the usage and limit read, and does nothing else: no
    line is logged and the suppression flag is left alone. *)
Theorem updateTelemetryFromNvml_all_succeed (q : NvmlSample) (s : State) :
  JST_BACKEND_HAS_NVML build = true ->
  telemetryHandle (cache s) <> 0 ->
  (nvmlDeviceGetPowerState q).1 = NVML_SUCCESS ->
  (nvmlDeviceGetTemperature q).1 = NVML_SUCCESS ->
  (nvmlDeviceGetPowerUsage q).1 = NVML_SUCCESS ->
  (nvmlDeviceGetEnforcedPowerLimit q).1 = NVML_SUCCESS ->
  updateTelemetryFromNvml build q s =
  (Returned tt,
   set_cache (fun c =>
     set_lowPowerStatus
       (Telemetry.IsLowPowerFromPowerBudget
          (nvmlDeviceGetPowerUsage q).2 (nvmlDeviceGetEnforcedPowerLimit q).2 30)
       (set_getThermalState
          (Telemetry.ThermalBucketFromCelsius (nvmlDeviceGetTemperature q).2) c)) s).
Proof.
  intros Hb Hh Hp Ht Hu Hl.
  destruct s as [cfg sie sde drc pd c rt av lv lg].
  destruct c, rt as [rn pel wk], q as [[ps psv] [ts tsv] [us usv] [ls lsv]].
  cbn in Hh, Hp, Ht, Hu, Hl. subst ps ts us ls.
  unfold_monad. rewrite Hb. cbn.
  rewrite bool_decide_eq_false_2 by assumption. reflexivity.
Qed.

(** X24. A poll without a source does nothing at all: when the provider
    is neither NVML nor tooling-info, or it is NVML in a build without the
    vendor library or with a null device handle, or it is tooling-info with
    no entry point, the poll returns and leaves the whole object, log
    included, as it was - whatever the driver would have answered. *)
Theorem pollTelemetry_without_source (q : Sample) (s : State) :
  match telemetryProviderType (cache s) with
  | Telemetry.NVML =>
      JST_BACKEND_HAS_NVML build = false \/ telemetryHandle (cache s) = 0
  | Telemetry.TOOLING_INFO => toolingInfoFn (cache s) = false
  | _ => True
  end ->
  pollTelemetry build q s = (Returned tt, s).
Proof.
  destruct s as [cfg sie sde drc pd c rt av lv lg].
  destruct c, rt as [rn pel wk]. cbn [cache telemetryProviderType telemetryHandle
    toolingInfoFn].
  unfold pollTelemetry, mbind, M_bind, bind, gets. cbn [cache telemetryProviderType].
  destruct telemetryProviderType0; intros Hc; try reflexivity.
  - unfold updateTelemetryFromNvml, mbind, M_bind, bind, gets, ret.
    destruct (JST_BACKEND_HAS_NVML build); [|reflexivity].
    destruct Hc as [Hc|Hc]; [discriminate|]. cbn in *. subst.
    reflexivity.
  - unfold updateTelemetryFromToolingInfo, mbind, M_bind, bind, gets, ret.
    cbn in *. subst. reflexivity.
Qed.

End PollPaths.

(** ** Validation, when it is available *)

Section ValidationPath.

Import Vulkan.

Variable build : Build.
Variable drv : Driver.

Lemma validation_layer_supported :
  VK_LAYER_KHRONOS_validation ∈ availableLayers drv ->
  checkValidationLayerSupport drv getRequiredValidationLayers =
  {[VK_LAYER_KHRONOS_validation]}.
Proof.
  intros Hyes. apply set_eq. intros x.
  unfold checkValidationLayerSupport, getRequiredValidationLayers.
  rewrite elem_of_supportedAmong. set_solver.
Qed.

(** X25. Validation is on exactly when it is requested and the
    validation layer is installed.  The instance is then created with that
    one layer and the debug callback is registered; when the entry point
    of the callback does not resolve, or registering fails, or the
    instance cannot be created, the constructor throws the fatal result
    rather than going on without validation.  With validation off no layer
    is enabled, even an installed one, and no callback is registered. *)
Theorem validation_is_on_when_requested_and_installed
        (instanceExtensions : list string) (s : State) :
  let r := (validationLayers ← gatherValidationLayers drv;
            enabledLayers ← createApplication build drv instanceExtensions
                                              validationLayers;
            setupValidationLayers drv;;
            ret enabledLayers) s in
  let on := validationEnabled (config s) &&
            bool_decide (VK_LAYER_KHRONOS_validation ∈ availableLayers drv) in
  let registers := has_vkCreateDebugReportCallbackEXT drv &&
                   bool_decide (vkCreateDebugReportCallbackEXT drv = VK_SUCCESS) in
  if bool_decide (vkCreateInstance drv = VK_SUCCESS) && (negb on || registers)
  then
    r.1 = Returned (if on then [VK_LAYER_KHRONOS_validation] else []) /\
    validationEnabled (config r.2) = on /\
    live r.2 = live s ++ [RInstance] ++ (if on then [RDebugReportCallback] else []) /\
    debugReportCallback r.2 = on || debugReportCallback s
  else
    r.1 = Thrown (Jetstream Result_FATAL) /\
    debugReportCallback r.2 = debugReportCallback s /\
    live r.2 = live s ++
               (if bool_decide (vkCreateInstance drv = VK_SUCCESS)
                then [RInstance] else []).
Proof.
  cbv zeta.
  destruct s as [cfg sie sde drc pd c rt av lv lg]. destruct cfg as [di hl ve ms sb].
  unfold gatherValidationLayers, createApplication, setupValidationLayers.
  cbv zeta. cbn [config validationEnabled].
  assert (Hsupported :
    elements (checkValidationLayerSupport drv getRequiredValidationLayers) =
    (if bool_decide (VK_LAYER_KHRONOS_validation ∈ availableLayers drv)
     then [VK_LAYER_KHRONOS_validation] else []) /\
    bool_decide (size getRequiredValidationLayers =
                 size (checkValidationLayerSupport drv getRequiredValidationLayers)) =
    bool_decide (VK_LAYER_KHRONOS_validation ∈ availableLayers drv)).
  { destruct (bool_decide_reflect
                (VK_LAYER_KHRONOS_validation ∈ availableLayers drv)) as [Hyes|Hno].
    - rewrite (validation_layer_supported Hyes), elements_singleton.
      rewrite bool_decide_eq_true_2; [by split|].
      unfold getRequiredValidationLayers. by rewrite union_empty_r_L.
    - rewrite (no_validation_layer_supported drv Hno), elements_empty.
      rewrite bool_decide_eq_false_2; [by split|].
      unfold getRequiredValidationLayers.
      rewrite size_empty, union_empty_r_L, size_singleton. discriminate. }
  destruct Hsupported as [He Hb]. rewrite He, Hb. clear He Hb.
  destruct ve;
    destruct (bool_decide (VK_LAYER_KHRONOS_validation ∈ availableLayers drv));
    destruct (has_vkCreateDebugReportCallbackEXT drv) eqn:Eh;
    destruct (bool_decide (vkCreateDebugReportCallbackEXT drv = VK_SUCCESS)) eqn:Ecb;
    destruct (bool_decide (vkCreateInstance drv = VK_SUCCESS)) eqn:Ei;
    cbn [negb andb orb];
    unfold JST_VK_CHECK_THROW, creating, acquire, JST_DEBUG, JST_WARN, JST_FATAL,
      JST_CHECK_THROW, JST_LOG, throw, when, mbind, M_bind, bind, gets, modify, ret;
    repeat (progress
              (cbn [fst snd config validationEnabled negb andb orb
                    supportedInstanceExtensions set_log set_live set_config
                    set_validationEnabled set_debugReportCallback debugReportCallback
                    live];
               rewrite ?Eh, ?Ecb, ?Ei;
               try match goal with
                   | |- context [if ?b then _ else _] => destruct b
                   end));
    cbn; rewrite ?app_nil_r, <- ?app_assoc; repeat split; reflexivity.
Qed.

End ValidationPath.

(** ** Restarting the scheduler *)

Section Restart.

Import Vulkan.

Variable build : Build.



End Restart.

(** ** Instances of the properties above *)

Section FurtherExamples.

Import Vulkan Fixtures.
Local Open Scope Z_scope.

Lemma headless_requires_no_presentation_witness :
  headless (mkConfig 0 true false 1 0) = true /\
  validCandidate (mkConfig 0 true false 1 0) gpu_b = true /\
  validCandidate plain_config gpu_b = false.
Proof.
  split; [reflexivity|]. split; [|by vm_compute].
  destruct (headless_requires_no_presentation linux_build good_driver
              (mkConfig 0 true false 1 0) eq_refl) as (_ & _ & Hv).
  rewrite Hv. reflexivity.
Defined.

Lemma device_capability_negotiation_witness :
  supportedDeviceExtensions (initial plain_config) = ∅ /\
  live (gatherDeviceExtensions linux_build gpu_b (initial plain_config)).2 = [].
Proof.
  split; [reflexivity|].
  destruct (device_capability_negotiation linux_build gpu_b (initial plain_config) eq_refl)
    as (_ & _ & _ & Hlive).
  exact Hlive.
Defined.

Lemma interoperability_flags_witness :
  supportedDeviceExtensions (initial plain_config) = ∅ /\
  canImportDeviceMemory
    (cache ((gatherDeviceExtensions linux_build gpu_c;; populateCache gpu_c)
              (initial plain_config)).2) = true.
Proof.
  split; [reflexivity|].
  destruct (interoperability_flags linux_build gpu_c (initial plain_config) eq_refl)
    as (_ & _ & Himport & _).
  apply Himport. split; [reflexivity|]. apply list_elem_of_In. cbn. auto.
Defined.

Lemma updateTelemetryFromToolingInfo_success_witness :
  lowPowerStatus
    (cache (updateTelemetryFromToolingInfo linux_build (tooling quiet_sample)
              (set_cache (set_toolingInfoFn true) (initial plain_config))).2) = true.
Proof.
  destruct (updateTelemetryFromToolingInfo_success linux_build (tooling quiet_sample)
              (set_cache (set_toolingInfoFn true) (initial plain_config))
              eq_refl eq_refl eq_refl) as (_ & _ & Hnone & _).
  apply Hnone. reflexivity.
Defined.

Lemma setupNvmlTelemetry_binds_or_rolls_back_witness :
  RNvmlLibrary ∉ live (initial plain_config) /\
  (setupNvmlTelemetry linux_build nvidia_driver (initial plain_config)).1 = Returned true /\
  live (setupNvmlTelemetry linux_build good_driver (initial plain_config)).2 = [].
Proof.
  assert (Hnot : RNvmlLibrary ∉ live (initial plain_config)).
  { cbn. apply not_elem_of_nil. }
  split; [exact Hnot|]. split.
  - destruct (setupNvmlTelemetry_binds_or_rolls_back linux_build nvidia_driver
                (initial plain_config) Hnot) as (Hr & _).
    exact Hr.
  - destruct (setupNvmlTelemetry_binds_or_rolls_back linux_build good_driver
                (initial plain_config) Hnot) as (_ & _ & Hfail).
    destruct (Hfail eq_refl) as (Hlive & _). exact Hlive.
Defined.

Lemma initializeTelemetry_priority_witness :
  telemetryProviderType
    (cache (initializeTelemetry linux_build nvidia_driver gpu_nv
              (initial plain_config)).2) = Telemetry.NVML.
Proof.
  destruct (initializeTelemetry_priority linux_build nvidia_driver gpu_nv
              (initial plain_config) eq_refl eq_refl) as (_ & Hp & _).
  exact Hp.
Defined.

Lemma getMultisampling_within_maximum_witness :
  getMultisampling
    (config (validateMultisampling gpu_a
               (initial (mkConfig 0 false false 64 0))).2) = 8.
Proof.
  destruct (getMultisampling_within_maximum gpu_a (initial (mkConfig 0 false false 64 0)))
    as (_ & _ & Hsame & _).
  rewrite Hsame; [reflexivity|]. cbn. auto 10.
Defined.

Lemma telemetry_session_footprint_witness :
  0 <= getThermalState (cache (session linux_build [nvml_down; quiet_sample] nvml_state).2)
    <= 3.
Proof.
  destruct (telemetry_session_footprint linux_build [nvml_down; quiet_sample] nvml_state)
    as (_ & _ & _ & _ & Hrange).
  apply Hrange. cbn. lia.
Defined.

Lemma constructed_backend_is_torn_down_witness :
  (construct linux_build good_driver plain_config).1 = Returned tt /\
  live (Vulkan_dtor linux_build
          (session linux_build [quiet_sample]
             (construct linux_build good_driver plain_config).2).2).2 = [].
Proof.
  assert (Hret : (construct linux_build good_driver plain_config).1 = Returned tt)
    by (vm_compute; reflexivity).
  split; [exact Hret|].
  destruct (constructed_backend_is_torn_down linux_build good_driver plain_config
              [quiet_sample] Hret) as (_ & Hlive & _).
  exact Hlive.
Defined.

Lemma worker_loop_is_a_session_witness :
  option_map polls
    (run linux_build
       (flat_map (fun q => [WorkerStep q; WorkerStep q; WorkerStep q])
                 [nvml_down; quiet_sample])
       (mkSched (startTelemetryPolling nvml_state).2 Idle 0%nat false)) = Some 2%nat.
Proof.
  rewrite (worker_loop_is_a_session linux_build [nvml_down; quiet_sample]
             (mkSched (startTelemetryPolling nvml_state).2 Idle 0%nat false)
             eq_refl eq_refl eq_refl).
  reflexivity.
Defined.

Lemma updateTelemetryFromNvml_all_succeed_witness :
  getThermalState
    (cache (updateTelemetryFromNvml linux_build p8_under_load nvml_state).2) = 2.
Proof.
  rewrite (updateTelemetryFromNvml_all_succeed linux_build p8_under_load nvml_state
             eq_refl ltac:(discriminate) eq_refl eq_refl eq_refl eq_refl).
  reflexivity.
Defined.

Lemma pollTelemetry_without_source_witness :
  pollTelemetry linux_build nvml_down (initial plain_config) =
  (Returned tt, initial plain_config).
Proof. apply (pollTelemetry_without_source linux_build nvml_down (initial plain_config) I). Defined.

Lemma filters_search_without_case_witness :
  Store.blockMatches "FFT" (Store.Block.mkMetadata "Spectrum" "An fft block" "") =
  Store.blockMatches "fft" (Store.Block.mkMetadata "Spectrum" "An fft block" "").
Proof.
  destruct (filters_search_without_case "fft"
              (Store.Block.mkMetadata "Spectrum" "An fft block" "")
              (Store.Flowgraph.mkMetadata "" "")) as (_ & _ & _ & Hsame & _).
  destruct (Hsame "FFT" eq_refl) as [Hblock _]. exact Hblock.
Defined.

End FurtherExamples.
